(** * Sofar plugin of the SolaX modbus integration: capability masks,
      inverter identification and computed sensor values.

    Shallow embedding of [custom_components/solax_modbus/plugin_sofar.py]:
    the bitmask vocabulary and [matchInverterWithMask], the serial number
    reader [_read_serialnr], [determineInverterType], and the computed
    sensor value functions.  Python [int] is [Z] (unbounded, two's
    complement for the bitwise operators), [str] is [string], a [dict]
    is a [gmap], and [bytes]/[bytearray] is [list byte]. *)

From Stdlib Require Import ZArith Strings.String Strings.Ascii Strings.Byte List Lia Bool.
From Stdlib Require Import DecimalString.
From Stdlib Require SpecFloat.
From stdpp Require Import base option list gmap strings.

Local Open Scope Z_scope.

(** ** Bitmask definitions, organised by group *)

Definition GEN  : Z := 0x0001.
Definition GEN2 : Z := 0x0002.
Definition GEN3 : Z := 0x0004.
Definition GEN4 : Z := 0x0008.
Definition ALL_GEN_GROUP : Z := Z.lor (Z.lor (Z.lor GEN2 GEN3) GEN4) GEN.

Definition X1 : Z := 0x0100.
Definition X3 : Z := 0x0200.
Definition ALL_X_GROUP : Z := Z.lor X1 X3.

Definition PV     : Z := 0x0400.
Definition AC     : Z := 0x0800.
Definition HYBRID : Z := 0x1000.
Definition MIC    : Z := 0x2000.
Definition ALL_TYPE_GROUP : Z := Z.lor (Z.lor (Z.lor PV AC) HYBRID) MIC.

Definition EPS : Z := 0x8000.
Definition ALL_EPS_GROUP : Z := EPS.

Definition DCB : Z := 0x10000.
Definition ALL_DCB_GROUP : Z := DCB.

Definition PM : Z := 0x20000.
Definition ALL_PM_GROUP : Z := PM.

Definition ALLDEFAULT : Z := 0.

(** The six groups, in the order [matchInverterWithMask] tests them. *)
Definition ALL_GROUPS : list Z :=
  [ALL_GEN_GROUP; ALL_X_GROUP; ALL_TYPE_GROUP; ALL_EPS_GROUP; ALL_DCB_GROUP; ALL_PM_GROUP].

(** ** Python built-ins used by the plugin *)

(** [s.startswith(start)]: character-for-character comparison of the
    leading characters of [s] with [start]. *)
Fixpoint startswith (s start : string) {struct start} : bool :=
  match start with
  | EmptyString => true
  | String c start' =>
      match s with
      | EmptyString => false
      | String d s' => if Ascii.eqb d c then startswith s' start' else false
      end
  end.

(** [d.get(key, default)] on a dictionary with string keys. *)
Definition get {V} (d : gmap string V) (key : string) (default : V) : V :=
  match d !! key with
  | Some v => v
  | None => default
  end.

(** Truth value of an optional list argument: [None] and [[]] are false. *)
Definition list_truthy {A} (l : option (list A)) : bool :=
  match l with
  | None => false
  | Some [] => false
  | Some (_ :: _) => true
  end.

(** ** [matchInverterWithMask] *)

(** The [for start in blacklist] loop of lines 61-62, started with
    [blacklisted = False]: the flag is set by every entry that is a prefix
    of the serial number and never cleared. *)
Definition blacklist_loop (serialnumber : string) (entries : list string) (blacklisted : bool) : bool :=
  fold_left
    (fun blacklisted start => if startswith serialnumber start then true else blacklisted)
    entries blacklisted.

(** Value of the local [blacklisted] when the [return] is reached. *)
Definition blacklisted_flag (serialnumber : string) (blacklist : option (list string)) : bool :=
  let blacklisted := false in
  if list_truthy blacklist
  then blacklist_loop serialnumber (default [] blacklist) blacklisted
  else blacklisted.

Definition matchInverterWithMask
    (inverterspec entitymask : Z) (serialnumber : string)
    (blacklist : option (list string)) : bool :=
  let genmatch := negb (Z.land (Z.land inverterspec entitymask) ALL_GEN_GROUP =? 0)
                  || (Z.land entitymask ALL_GEN_GROUP =? 0) in
  let xmatch   := negb (Z.land (Z.land inverterspec entitymask) ALL_X_GROUP =? 0)
                  || (Z.land entitymask ALL_X_GROUP =? 0) in
  let hybmatch := negb (Z.land (Z.land inverterspec entitymask) ALL_TYPE_GROUP =? 0)
                  || (Z.land entitymask ALL_TYPE_GROUP =? 0) in
  let epsmatch := negb (Z.land (Z.land inverterspec entitymask) ALL_EPS_GROUP =? 0)
                  || (Z.land entitymask ALL_EPS_GROUP =? 0) in
  let dcbmatch := negb (Z.land (Z.land inverterspec entitymask) ALL_DCB_GROUP =? 0)
                  || (Z.land entitymask ALL_DCB_GROUP =? 0) in
  let pmmatch  := negb (Z.land (Z.land inverterspec entitymask) ALL_PM_GROUP =? 0)
                  || (Z.land entitymask ALL_PM_GROUP =? 0) in
  let blacklisted := blacklisted_flag serialnumber blacklist in
  (genmatch && xmatch && hybmatch && epsmatch && dcbmatch && pmmatch) && negb blacklisted.

(** The default arguments of the Python signature. *)
Definition matchInverterWithMask_default (inverterspec entitymask : Z) : bool :=
  matchInverterWithMask inverterspec entitymask "not relevant" None.

(** One group test of [matchInverterWithMask], as a proposition. *)
Definition group_satisfied (inverterspec entitymask group : Z) : Prop :=
  Z.land (Z.land inverterspec entitymask) group <> 0 \/ Z.land entitymask group = 0.

(** ** The same function over untyped Python values

    [matchInverterWithMask] carries no type annotations, so the question
    whether a call can raise is asked of a second embedding in which every
    operator checks its operands the way the interpreter does.  Lists are
    objects in a heap and are passed by reference; the computation threads
    the heap, so that an effect on an argument would be visible. *)
Module Dyn.

Inductive value : Type :=
  | VNone
  | VBool (b : bool)
  | VInt (n : Z)
  | VStr (s : string)
  | VList (ref : nat).

Inductive exn : Type :=
  | TypeError
  | AttributeError
  | InvalidReference.   (* a reference outside the heap: no Python counterpart *)

Definition heap : Type := gmap nat (list value).

Definition M (A : Type) : Type := heap -> (exn + A) * heap.

Definition ret {A} (a : A) : M A := fun h => (inr a, h).
Definition raise {A} (e : exn) : M A := fun h => (inl e, h).
Definition bind {A B} (m : M A) (k : A -> M B) : M B :=
  fun h => match m h with
           | (inl e, h') => (inl e, h')
           | (inr a, h') => k a h'
           end.
Definition deref (ref : nat) : M (list value) :=
  fun h => match h !! ref with
           | Some l => (inr l, h)
           | None => (inl InvalidReference, h)
           end.

Notation "x <- m ;; k" := (bind m (fun x => k))
  (at level 100, m at next level, right associativity).

(** Operand of [&]: [int], and [bool] as its subclass. *)
Definition as_int (v : value) : option Z :=
  match v with
  | VInt n => Some n
  | VBool b => Some (Z.b2z b)
  | _ => None
  end.

(** [a & b] *)
Definition bitand (a b : value) : M value :=
  match a, b with
  | VBool x, VBool y => ret (VBool (x && y))
  | _, _ =>
      match as_int a, as_int b with
      | Some x, Some y => ret (VInt (Z.land x y))
      | _, _ => raise TypeError
      end
  end.

(** [v == 0]; never raises. *)
Definition eq_zero (v : value) : value :=
  match as_int v with
  | Some n => VBool (n =? 0)
  | None => VBool false
  end.

(** [v != 0] *)
Definition ne_zero (v : value) : value :=
  match as_int v with
  | Some n => VBool (negb (n =? 0))
  | None => VBool true
  end.

(** [bool(v)] *)
Definition truthy (v : value) : M bool :=
  match v with
  | VNone => ret false
  | VBool b => ret b
  | VInt n => ret (negb (n =? 0))
  | VStr s => ret (negb (String.eqb s EmptyString))
  | VList ref => l <- deref ref ;; ret (match l with [] => false | _ => true end)
  end.

(** [a or b], [a and b]: the right operand is evaluated only when needed,
    and the value of an operand is the value of the expression. *)
Definition or_ (a : value) (b : M value) : M value :=
  t <- truthy a ;; if t then ret a else b.
Definition and_ (a : value) (b : M value) : M value :=
  t <- truthy a ;; if t then b else ret a.

(** [not v] *)
Definition not_ (v : value) : M value :=
  t <- truthy v ;; ret (VBool (negb t)).

(** The items a [for] statement draws from [v]: the elements of a list,
    the characters of a string; nothing else here is iterable. *)
Definition chars (s : string) : list value :=
  (fun c => VStr (String c EmptyString)) <$> list_ascii_of_string s.
Definition iterate (v : value) : M (list value) :=
  match v with
  | VList ref => deref ref
  | VStr s => ret (chars s)
  | _ => raise TypeError
  end.

(** [v.startswith(start)] *)
Definition startswith_method (v start : value) : M value :=
  match v with
  | VStr s =>
      match start with
      | VStr p => ret (VBool (startswith s p))
      | _ => raise TypeError
      end
  | _ => raise AttributeError
  end.

(** [((inverterspec & entitymask & GROUP) != 0) or (entitymask & GROUP == 0)] *)
Definition groupmatch (inverterspec entitymask : value) (GROUP : Z) : M value :=
  a <- bitand inverterspec entitymask ;;
  a <- bitand a (VInt GROUP) ;;
  or_ (ne_zero a) (b <- bitand entitymask (VInt GROUP) ;; ret (eq_zero b)).

(** Lines 61-62 over the items drawn from the blacklist. *)
Fixpoint blacklist_loop (serialnumber : value) (items : list value) (blacklisted : value) : M value :=
  match items with
  | [] => ret blacklisted
  | start :: items' =>
      c <- startswith_method serialnumber start ;;
      t <- truthy c ;;
      blacklist_loop serialnumber items' (if t then VBool true else blacklisted)
  end.

Definition matchInverterWithMask (inverterspec entitymask serialnumber blacklist : value) : M value :=
  genmatch <- groupmatch inverterspec entitymask ALL_GEN_GROUP ;;
  xmatch   <- groupmatch inverterspec entitymask ALL_X_GROUP ;;
  hybmatch <- groupmatch inverterspec entitymask ALL_TYPE_GROUP ;;
  epsmatch <- groupmatch inverterspec entitymask ALL_EPS_GROUP ;;
  dcbmatch <- groupmatch inverterspec entitymask ALL_DCB_GROUP ;;
  pmmatch  <- groupmatch inverterspec entitymask ALL_PM_GROUP ;;
  t <- truthy blacklist ;;
  blacklisted <- (if t
                  then items <- iterate blacklist ;;
                       blacklist_loop serialnumber items (VBool false)
                  else ret (VBool false)) ;;
  groups <- and_ genmatch (and_ xmatch (and_ hybmatch (and_ epsmatch
              (and_ dcbmatch (ret pmmatch))))) ;;
  and_ groups (not_ blacklisted).

(** How the typed arguments are laid out as Python objects: the blacklist,
    when given, is a list object at [ref] holding strings. *)
Definition blacklist_value (ref : nat) (blacklist : option (list string)) : value :=
  match blacklist with
  | None => VNone
  | Some _ => VList ref
  end.
Definition blacklist_in_heap (h : heap) (ref : nat) (blacklist : option (list string)) : Prop :=
  match blacklist with
  | None => True
  | Some l => h !! ref = Some (VStr <$> l)
  end.

End Dyn.

(** ** Find inverter type and details *)

(** *** The pymodbus and codec calls of [_read_serialnr] *)

(** [struct.pack('!H', x)], as [BinaryPayloadDecoder.fromRegisters] applies
    it to every register: two bytes, most significant first; [None] is the
    [struct.error] raised outside [0..65535]. *)
Definition pack_H (x : Z) : option (list byte) :=
  if (0 <=? x) && (x <=? 0xFFFF)
  then hi ← Byte.of_N (Z.to_N (x / 256));
       lo ← Byte.of_N (Z.to_N (x mod 256));
       Some [hi; lo]
  else None.

(** [BinaryPayloadDecoder.fromRegisters(registers, byteorder=Endian.Big)]:
    the payload of the decoder. *)
Definition fromRegisters (registers : list Z) : option (list byte) :=
  packed ← mapM pack_H registers;
  Some (mjoin packed).

(** [decoder.decode_string(size)] on a fresh decoder: the next [size]
    bytes of the payload, fewer when the payload is shorter. *)
Definition decode_string (size : nat) (payload : list byte) : list byte :=
  take size payload.

Definition is_ascii (b : byte) : bool := (Byte.to_N b <? 128)%N.

(** [bs.decode("ascii")] and [str(bs, "ascii")]; [None] is the
    [UnicodeDecodeError] raised on a byte above 127. *)
Definition decode_ascii (bs : list byte) : option string :=
  if forallb is_ascii bs then Some (string_of_list_byte bs) else None.

(** [bytearray(s, "ascii")]; [None] is the [UnicodeEncodeError]. *)
Definition encode_ascii (s : string) : option (list byte) :=
  let bs := list_byte_of_string s in
  if forallb is_ascii bs then Some bs else None.

(** [l[0::2]] *)
Fixpoint slice_step2 {A} (l : list A) : list A :=
  match l with
  | [] => []
  | x :: l' => x :: match l' with
                    | [] => []
                    | _ :: l'' => slice_step2 l''
                    end
  end.

(** [l[start::2]] *)
Definition slice_from_step2 {A} (start : nat) (l : list A) : list A :=
  slice_step2 (drop start l).

(** Positions 0, 2, 4, ... of [l] overwritten with [vals] in order. *)
Fixpoint assign_step2 {A} (l vals : list A) : list A :=
  match l, vals with
  | _ :: l', v :: vals' => v :: match l' with
                                | [] => []
                                | y :: l'' => y :: assign_step2 l'' vals'
                                end
  | _, _ => l
  end.

(** [l[start::2] = vals]; [None] is the [ValueError] raised when the
    extended slice and [vals] differ in size. *)
Definition setslice_from_step2 {A} (start : nat) (l vals : list A) : option (list A) :=
  if decide (length (slice_from_step2 start l) = length vals)
  then Some (take start l ++ assign_step2 (drop start l) vals)
  else None.

(** [ba[0::2], ba[1::2] = ba[1::2], ba[0::2]]: both right-hand slices are
    taken first, then the targets are assigned from left to right. *)
Definition swap_slices (ba : list byte) : option (list byte) :=
  let rhs0 := slice_from_step2 1 ba in
  let rhs1 := slice_from_step2 0 ba in
  ba ← setslice_from_step2 0 ba rhs0;
  setslice_from_step2 1 ba rhs1.

(** *** The hub and the logger *)

(** What [hub.read_holding_registers] hands back when it returns. *)
Inductive response : Type :=
  | ErrorResponse                        (* [isError()] holds *)
  | ReadResponse (registers : list Z).   (* [isError()] fails; [.registers] *)

(** The attributes of [hub] the plugin touches.  The transport is external:
    [read_holding_registers unit address count] is [None] when the call
    raises.  [seriesnumber] and [invertertype] are unset until assigned. *)
Record Hub : Type := {
  name : string;
  _modbus_addr : Z;
  read_holding_registers : Z -> Z -> Z -> option response;
  seriesnumber : option string;
  invertertype : option Z;
}.

(** [hub.seriesnumber = res] *)
Definition set_seriesnumber (hub : Hub) (res : string) : Hub :=
  {| name := name hub; _modbus_addr := _modbus_addr hub;
     read_holding_registers := read_holding_registers hub;
     seriesnumber := Some res; invertertype := invertertype hub |}.

(** [hub.invertertype = value] *)
Definition set_invertertype (hub : Hub) (value : Z) : Hub :=
  {| name := name hub; _modbus_addr := _modbus_addr hub;
     read_holding_registers := read_holding_registers hub;
     seriesnumber := seriesnumber hub; invertertype := Some value |}.

Inductive level : Type := INFO | WARNING | ERROR.

(** The messages of the plugin, by their format string and its arguments. *)
Inductive message : Type :=
  | attempt_failed (hub_name : string) (address : Z)
  | reading_failed (hub_name : string) (address : Z)
  | read_serial (hub_name : string) (address : Z) (res : option string) (swapped : bool)
  | trying_to_determine (hub_name : string)
  | cannot_find_serial (hub_name : string)
  | unrecognized_type (hub_name : string) (seriesnumber : string).

(** What [_LOGGER] has been handed so far, oldest first. *)
Definition log : Type := list (level * message).

(** [not res] for a value that is [None] or a string. *)
Definition falsy (res : option string) : bool :=
  match res with
  | None => true
  | Some s => String.eqb s EmptyString
  end.

(** *** [_read_serialnr] *)

(** The statements of the [try] body after a response without error,
    lines 74-80: [inr] when the body runs to its end, with [res] and
    whether [hub.seriesnumber] is to be assigned; [inl res] when a
    statement raises, with the value [res] holds at that moment. *)
Definition decode_serialnr (registers : list Z) (swapbytes : bool)
  : option string + string :=
  match fromRegisters registers with
  | None => inl None
  | Some payload =>
      match decode_ascii (decode_string 14 payload) with
      | None => inl None
      | Some res =>
          if swapbytes
          then match ba ← encode_ascii res; ba ← swap_slices ba; decode_ascii ba with
               | None => inl (Some res)
               | Some res => inr res
               end
          else inr res
      end
  end.

Definition _read_serialnr (hub : Hub) (address : Z) (swapbytes : bool) (_LOGGER : log)
  : option string * Hub * log :=
  let raised := [(WARNING, attempt_failed (name hub) address)] in
  let '(res, hub, _LOGGER) :=
    match read_holding_registers hub (_modbus_addr hub) address 7 with
    | None => (None, hub, _LOGGER ++ raised)
    | Some ErrorResponse => (None, hub, _LOGGER)
    | Some (ReadResponse registers) =>
        match decode_serialnr registers swapbytes with
        | inl res => (res, hub, _LOGGER ++ raised)
        | inr res => (Some res, set_seriesnumber hub res, _LOGGER)
        end
    end in
  let _LOGGER :=
    if falsy res then _LOGGER ++ [(WARNING, reading_failed (name hub) address)] else _LOGGER in
  let _LOGGER := _LOGGER ++ [(INFO, read_serial (name hub) address res swapbytes)] in
  (res, hub, _LOGGER).

(** *** [determineInverterType] *)

(** Lines 89-93: the serial number the type is derived from. *)
Definition read_seriesnumber (hub : Hub) (_LOGGER : log) : string * Hub * log :=
  let '(seriesnumber, hub, _LOGGER) := _read_serialnr hub 0x445 false _LOGGER in
  let '(seriesnumber, hub, _LOGGER) :=
    if falsy seriesnumber
    then _read_serialnr hub 0x2001 false _LOGGER
    else (seriesnumber, hub, _LOGGER) in
  if falsy seriesnumber
  then ("unknown"%string, hub, _LOGGER ++ [(ERROR, cannot_find_serial (name hub))])
  else (default EmptyString seriesnumber, hub, _LOGGER).

(** Lines 96-113: the [if]/[elif] chain over the serial number. *)
Definition derive_invertertype (hub : Hub) (seriesnumber : string) (_LOGGER : log) : Z * log :=
  if      startswith seriesnumber "SP1ES120N6" then (Z.lor HYBRID X3, _LOGGER)
  else if startswith seriesnumber "SP1"  then (Z.lor (Z.lor HYBRID X3) GEN, _LOGGER)
  else if startswith seriesnumber "SP2"  then (Z.lor (Z.lor HYBRID X3) GEN, _LOGGER)
  else if startswith seriesnumber "SM1E" then (Z.lor (Z.lor HYBRID X3) GEN, _LOGGER)
  else if startswith seriesnumber "ZM1E" then (Z.lor (Z.lor HYBRID X3) GEN, _LOGGER)
  else if startswith seriesnumber "SS2E" then (Z.lor (Z.lor PV X3) GEN, _LOGGER)
  else if startswith seriesnumber "SA1"  then (Z.lor PV X1, _LOGGER)
  else if startswith seriesnumber "SB1"  then (Z.lor PV X1, _LOGGER)
  else if startswith seriesnumber "SC1"  then (Z.lor PV X3, _LOGGER)
  else if startswith seriesnumber "SD1"  then (Z.lor PV X3, _LOGGER)
  else if startswith seriesnumber "SF4"  then (Z.lor PV X3, _LOGGER)
  else if startswith seriesnumber "SH1"  then (Z.lor PV X3, _LOGGER)
  else if startswith seriesnumber "SL1"  then (Z.lor PV X3, _LOGGER)
  else if startswith seriesnumber "SJ2"  then (Z.lor PV X3, _LOGGER)
  else (0, _LOGGER ++ [(ERROR, unrecognized_type (name hub) seriesnumber)]).

(** Lines 117-119: the three toggles, in the order the source applies them. *)
Definition apply_toggles (invertertype : Z) (read_eps read_dcb read_pm : bool) : Z :=
  let invertertype := if read_eps then Z.lor invertertype EPS else invertertype in
  let invertertype := if read_dcb then Z.lor invertertype DCB else invertertype in
  let invertertype := if read_pm  then Z.lor invertertype PM  else invertertype in
  invertertype.

(** The names and defaults of the configuration entries come from
    [custom_components/solax_modbus/const.py]; they are parameters here. *)
Section Configuration.

Variables CONF_READ_EPS CONF_READ_DCB CONF_READ_PM : string.
Variables DEFAULT_READ_EPS DEFAULT_READ_DCB DEFAULT_READ_PM : bool.

Definition determineInverterType (hub : Hub) (configdict : gmap string bool) (_LOGGER : log)
  : Hub * log :=
  let _LOGGER := _LOGGER ++ [(INFO, trying_to_determine (name hub))] in
  let '(seriesnumber, hub, _LOGGER) := read_seriesnumber hub _LOGGER in
  let '(invertertype, _LOGGER) := derive_invertertype hub seriesnumber _LOGGER in
  let read_eps := get configdict CONF_READ_EPS DEFAULT_READ_EPS in
  let read_dcb := get configdict CONF_READ_DCB DEFAULT_READ_DCB in
  let read_pm  := get configdict CONF_READ_PM DEFAULT_READ_PM in
  let invertertype := apply_toggles invertertype read_eps read_dcb read_pm in
  (set_invertertype hub invertertype, _LOGGER).

End Configuration.

(** The prefix rules of lines 96-109 as a table, in the authored order, and
    the lookup that returns the mask of the first rule whose prefix the
    serial number starts with, zero when there is none.  This is the
    reading of the rules the chain is compared with. *)
Definition prefix_rules : list (string * Z) :=
  [ ("SP1ES120N6"%string, Z.lor HYBRID X3);
    ("SP1"%string,  Z.lor (Z.lor HYBRID X3) GEN);
    ("SP2"%string,  Z.lor (Z.lor HYBRID X3) GEN);
    ("SM1E"%string, Z.lor (Z.lor HYBRID X3) GEN);
    ("ZM1E"%string, Z.lor (Z.lor HYBRID X3) GEN);
    ("SS2E"%string, Z.lor (Z.lor PV X3) GEN);
    ("SA1"%string,  Z.lor PV X1);
    ("SB1"%string,  Z.lor PV X1);
    ("SC1"%string,  Z.lor PV X3);
    ("SD1"%string,  Z.lor PV X3);
    ("SF4"%string,  Z.lor PV X3);
    ("SH1"%string,  Z.lor PV X3);
    ("SL1"%string,  Z.lor PV X3);
    ("SJ2"%string,  Z.lor PV X3) ].

Fixpoint first_match (rules : list (string * Z)) (seriesnumber : string) {struct rules} : Z :=
  match rules with
  | [] => 0
  | (prefix, mask) :: rules' =>
      if startswith seriesnumber prefix then mask else first_match rules' seriesnumber
  end.

(** The bits of the enabled toggles. *)
Definition toggle_bits (read_eps read_dcb read_pm : bool) : Z :=
  Z.lor (Z.lor (if read_eps then EPS else 0) (if read_dcb then DCB else 0))
        (if read_pm then PM else 0).

(** One conditional assignment [if toggle: invertertype = invertertype | bit]. *)
Definition apply_toggle (invertertype : Z) (toggle : bool * Z) : Z :=
  if toggle.1 then Z.lor invertertype toggle.2 else invertertype.

(** The attributes of [hub'] other than [seriesnumber] are those of [hub]. *)
Definition same_device (hub hub' : Hub) : Prop :=
  name hub' = name hub
  /\ _modbus_addr hub' = _modbus_addr hub
  /\ read_holding_registers hub' = read_holding_registers hub
  /\ invertertype hub' = invertertype hub.

(** The serial number [determineInverterType] settles on, and the type the
    chain derives from a serial number, apart from the hub and the log. *)
Definition identity (hub : Hub) : string :=
  (read_seriesnumber hub []).1.1.
Definition base_invertertype (hub : Hub) (seriesnumber : string) : Z :=
  (derive_invertertype hub seriesnumber []).1.

(** Whether some rule of the chain applies to the serial number. *)
Definition recognized (seriesnumber : string) : bool :=
  existsb (fun rule : string * Z => startswith seriesnumber rule.1) prefix_rules.

(** What one call of the reader returns, apart from the hub and the log. *)
Definition serialnr_at (hub : Hub) (address : Z) (swapbytes : bool) : option string :=
  (_read_serialnr hub address swapbytes []).1.1.

(** Both reads of [determineInverterType] come back without a usable
    serial number. *)
Definition both_reads_fail (hub : Hub) : bool :=
  falsy (serialnr_at hub 0x445 false) && falsy (serialnr_at hub 0x2001 false).

(** The text the first 14 bytes of the registers decode to. *)
Definition decoded_text (registers : list Z) : option string :=
  payload ← fromRegisters registers;
  decode_ascii (decode_string 14 payload).

(** Elements [2i] and [2i+1] exchanged for all [i]; a last element without
    a partner stays. *)
Fixpoint swap_pairs {A} (l : list A) : list A :=
  match l with
  | a :: b :: l' => b :: a :: swap_pairs l'
  | _ => l
  end.

(** [xs] and [ys] merged alternately, starting with [xs]. *)
Fixpoint interleave {A} (xs ys : list A) : list A :=
  match xs, ys with
  | x :: xs', y :: ys' => x :: y :: interleave xs' ys'
  | _, _ => []
  end.

(** ** Computed sensor value functions *)

(** *** Python numbers

    The values the mapping holds under the keys these functions read are
    sensor readings: an [int] for an unscaled register, a [float] once a
    scale is applied.  An [int] is a [Z]; a [float] is an IEEE 754 binary64
    number, in the Standard Library's executable model [spec_float]
    (precision 53, exponent bound 1024). *)
Inductive number : Type :=
  | PyInt (n : Z)
  | PyFloat (x : SpecFloat.spec_float).

(** What evaluating one of these functions can raise: [KeyError key] from
    [datadict[key]] on an absent key, [OverflowError] from converting an
    [int] beyond the range of [float] in mixed arithmetic. *)
Inductive exception : Type :=
  | KeyError (key : string)
  | OverflowError.

Definition is_nan (v : number) : bool :=
  match v with
  | PyFloat SpecFloat.S754_nan => true
  | _ => false
  end.

(** The conversion of an [int] operand in mixed arithmetic: the nearest
    [float], ties to even; [OverflowError] beyond the largest one. *)
Definition float_of_int (n : Z) : exception + SpecFloat.spec_float :=
  match SpecFloat.binary_normalize 53 1024 n 0 false with
  | SpecFloat.S754_infinity _ => inl OverflowError
  | x => inr x
  end.

(** How a [float] compares with an [int]: by their exact values, without
    conversion; [None] for NaN, which compares false with everything. *)
Definition compare_float_int (x : SpecFloat.spec_float) (n : Z) : option comparison :=
  match x with
  | SpecFloat.S754_nan => None
  | SpecFloat.S754_infinity s => Some (if s then Lt else Gt)
  | SpecFloat.S754_zero _ => Some (0 ?= n)
  | SpecFloat.S754_finite s m e =>
      let mantissa := if s then Z.neg m else Z.pos m in
      Some (if 0 <=? e then mantissa * 2 ^ e ?= n else mantissa ?= n * 2 ^ (- e))
  end.

(** The comparison of [a] with [b], [None] when NaN is involved. *)
Definition number_compare (a b : number) : option comparison :=
  match a, b with
  | PyInt n, PyInt m => Some (n ?= m)
  | PyFloat x, PyFloat y => SpecFloat.SFcompare x y
  | PyFloat x, PyInt m => compare_float_int x m
  | PyInt n, PyFloat y => CompOpp <$> compare_float_int y n
  end.

(** [a < b], [a > b], [a <= b], [a == b] *)
Definition number_lt (a b : number) : bool :=
  match number_compare a b with Some Lt => true | _ => false end.
Definition number_gt (a b : number) : bool :=
  match number_compare a b with Some Gt => true | _ => false end.
Definition number_le (a b : number) : bool :=
  match number_compare a b with Some (Lt | Eq) => true | _ => false end.
Definition number_eq (a b : number) : bool :=
  match number_compare a b with Some Eq => true | _ => false end.

(** [abs(a)] *)
Definition number_abs (a : number) : number :=
  match a with
  | PyInt n => PyInt (Z.abs n)
  | PyFloat x => PyFloat (SpecFloat.SFabs x)
  end.

(** The two operands of a binary operator, an [int] next to a [float]
    converted to [float]. *)
Definition coerce (a b : number)
  : exception + (Z * Z + SpecFloat.spec_float * SpecFloat.spec_float) :=
  match a, b with
  | PyInt n, PyInt m => inr (inl (n, m))
  | PyFloat x, PyFloat y => inr (inr (x, y))
  | PyFloat x, PyInt m =>
      match float_of_int m with
      | inl e => inl e
      | inr y => inr (inr (x, y))
      end
  | PyInt n, PyFloat y =>
      match float_of_int n with
      | inl e => inl e
      | inr x => inr (inr (x, y))
      end
  end.

(** [a + b] *)
Definition number_add (a b : number) : exception + number :=
  match coerce a b with
  | inl e => inl e
  | inr (inl (n, m)) => inr (PyInt (n + m))
  | inr (inr (x, y)) => inr (PyFloat (SpecFloat.SFadd 53 1024 x y))
  end.

(** [a - b] *)
Definition number_sub (a b : number) : exception + number :=
  match coerce a b with
  | inl e => inl e
  | inr (inl (n, m)) => inr (PyInt (n - m))
  | inr (inr (x, y)) => inr (PyFloat (SpecFloat.SFsub 53 1024 x y))
  end.

(** *** The functions *)

(** [datadict[key]] *)
Definition getitem (datadict : gmap string number) (key : string) : exception + number :=
  match datadict !! key with
  | Some v => inr v
  | None => inl (KeyError key)
  end.

(** The first two parameters are the raw register value and the entity
    description; these four functions ignore them. *)
Definition value_function_pv_total_power {I D : Type} (initval : I) (descr : D)
    (datadict : gmap string number) : exception + number :=
  number_add (get datadict "pv_power_1" (PyInt 0)) (get datadict "pv_power_2" (PyInt 0)).

Definition value_function_grid_import {I D : Type} (initval : I) (descr : D)
    (datadict : gmap string number) : exception + number :=
  match getitem datadict "feedin_power" with
  | inl e => inl e
  | inr val => if number_lt val (PyInt 0) then inr (number_abs val) else inr (PyInt 0)
  end.

Definition value_function_grid_export {I D : Type} (initval : I) (descr : D)
    (datadict : gmap string number) : exception + number :=
  match getitem datadict "feedin_power" with
  | inl e => inl e
  | inr val => if number_gt val (PyInt 0) then inr val else inr (PyInt 0)
  end.

Definition value_function_house_load {I D : Type} (initval : I) (descr : D)
    (datadict : gmap string number) : exception + number :=
  match getitem datadict "inverter_load" with
  | inl e => inl e
  | inr a =>
      match getitem datadict "feedin_power" with
      | inl e => inl e
      | inr b => number_sub a b
      end
  end.

(** The keys each of these functions looks up in [datadict], read off
    their bodies, with the function itself. *)
Record derived {I D : Type} : Type := {
  reads : list string;
  eval : I -> D -> gmap string number -> exception + number;
}.
Arguments derived : clear implicits.

Definition derived_functions (I D : Type) : list (derived I D) :=
  [ {| reads := ["pv_power_1"; "pv_power_2"]%string; eval := value_function_pv_total_power |};
    {| reads := ["feedin_power"]%string; eval := value_function_grid_import |};
    {| reads := ["feedin_power"]%string; eval := value_function_grid_export |};
    {| reads := ["inverter_load"; "feedin_power"]%string; eval := value_function_house_load |} ].

(** Whether an evaluation ended in a [KeyError]. *)
Definition is_KeyError (r : exception + number) : bool :=
  match r with
  | inl (KeyError _) => true
  | _ => false
  end.

(** The result of [f], then [g] applied to it. *)
Definition and_then {A B} (r : exception + A) (g : A -> exception + B) : exception + B :=
  match r with
  | inl e => inl e
  | inr a => g a
  end.

(** Two results that are the same number: equal under [==], or both NaN. *)
Definition same_value (a b : number) : bool :=
  number_eq a b || (is_nan a && is_nan b).

(** Some [float] values: NaN, [-0.5], [0.5], [-2.5], [9.0], [11.5]. *)
Definition float_nan : number := PyFloat SpecFloat.S754_nan.
Definition float_minus_half : number :=
  PyFloat (SpecFloat.S754_finite true 4503599627370496 (-53)).
Definition float_half : number :=
  PyFloat (SpecFloat.S754_finite false 4503599627370496 (-53)).
Definition float_minus_2_5 : number :=
  PyFloat (SpecFloat.S754_finite true 5629499534213120 (-51)).
Definition float_9 : number :=
  PyFloat (SpecFloat.S754_finite false 5066549580791808 (-49)).
Definition float_11_5 : number :=
  PyFloat (SpecFloat.S754_finite false 6473924464345088 (-49)).

(** Both numbers are [int], or both are [float]. *)
Definition same_kind (a b : number) : bool :=
  match a, b with
  | PyInt _, PyInt _ | PyFloat _, PyFloat _ => true
  | _, _ => false
  end.

(** ** Devices and configurations used in the examples *)

(** A hub whose transport answers the reads at [0x445] and [0x2001] with
    [primary] and [fallback], and raises at every other address. *)
Definition example_hub (primary fallback : option response) : Hub :=
  {| name := "sofar";
     _modbus_addr := 1;
     read_holding_registers := fun _ address _ =>
       if address =? 0x445 then primary
       else if address =? 0x2001 then fallback
       else None;
     seriesnumber := None;
     invertertype := None |}.

(** The registers holding the text ["SP1ES120N6ABCD"], in wire order and
    with the two bytes of every register exchanged. *)
Definition registers_SP1 : list Z :=
  [0x5350; 0x3145; 0x5331; 0x3230; 0x4E36; 0x4142; 0x4344].
Definition registers_SP1_swapped : list Z :=
  [0x5053; 0x4531; 0x3153; 0x3032; 0x364E; 0x4241; 0x4443].

(** The registers holding the text ["PS1ES120N6ABCD"]. *)
Definition registers_PS1 : list Z :=
  [0x5053; 0x3145; 0x5331; 0x3230; 0x4E36; 0x4142; 0x4344].

(** The registers holding the text ["XY9ES120N6ABCD"], which no rule covers. *)
Definition registers_XY9 : list Z :=
  [0x5859; 0x3945; 0x5331; 0x3230; 0x4E36; 0x4142; 0x4344].

(** ** The entity declarations

    Every declaration of [SENSOR_TYPES], [NUMBER_TYPES] and [SELECT_TYPES],
    in the order of the source, with the attributes that identify it
    ([key]), place it in the register map ([register]) and decide for which
    inverters it is created ([allowedtypes]).  The attributes that only
    concern presentation and decoding (name, unit, scale, rounding, icon,
    ...) are left out; no declaration carries a blacklist. *)
Record EntityDescription : Type := entity {
  key : string;
  register : Z;
  allowedtypes : Z;
}.

Definition BUTTON_TYPES : list EntityDescription := [].

Definition SENSOR_TYPES : list EntityDescription :=
  [
    entity "heatsink_temperature_1" 0x41A HYBRID;
    entity "heatsink_temperature_2" 0x41B (Z.lor HYBRID PV);
    entity "module_temperature_1" 0x420 (Z.lor HYBRID PV);
    entity "module_temperature_2" 0x421 (Z.lor HYBRID PV);
    entity "serial_number" 0x445 (Z.lor HYBRID PV);
    entity "grid_frequency" 0x484 (Z.lor HYBRID PV);
    entity "active_power_output_total" 0x485 (Z.lor HYBRID PV);
    entity "reactive Power_output_total" 0x486 (Z.lor HYBRID PV);
    entity "apparent_power_output_total" 0x487 (Z.lor HYBRID PV);
    entity "active_power_pcc_total" 0x488 (Z.lor HYBRID PV);
    entity "reactive Power_pcc_total" 0x489 (Z.lor HYBRID PV);
    entity "apparent_power_pcc_total" 0x48A (Z.lor HYBRID PV);
    entity "voltage_l1" 0x48D (Z.lor HYBRID PV);
    entity "current_output_l1" 0x48E (Z.lor HYBRID PV);
    entity "active_power_output_l1" 0x48F (Z.lor HYBRID PV);
    entity "reactive Power_output_l1" 0x490 (Z.lor HYBRID PV);
    entity "power_factor_output_l1" 0x491 (Z.lor HYBRID PV);
    entity "current_pcc_l1" 0x492 (Z.lor HYBRID PV);
    entity "active_power_pcc_l1" 0x493 (Z.lor HYBRID PV);
    entity "reactive Power_pcc_l1" 0x494 (Z.lor HYBRID PV);
    entity "power_factor_pcc_l1" 0x495 (Z.lor HYBRID PV);
    entity "voltage_l2" 0x498 (Z.lor HYBRID PV);
    entity "current_output_l2" 0x499 (Z.lor HYBRID PV);
    entity "active_power_output_l2" 0x49A (Z.lor HYBRID PV);
    entity "reactive Power_output_l2" 0x49B (Z.lor HYBRID PV);
    entity "power_factor_output_l2" 0x49C (Z.lor HYBRID PV);
    entity "current_pcc_l2" 0x49D (Z.lor HYBRID PV);
    entity "active_power_pcc_l2" 0x49E (Z.lor HYBRID PV);
    entity "reactive Power_pcc_l2" 0x49F (Z.lor HYBRID PV);
    entity "power_factor_pcc_l2" 0x4A0 (Z.lor HYBRID PV);
    entity "voltage_l3" 0x4A3 (Z.lor HYBRID PV);
    entity "current_output_l3" 0x4A4 (Z.lor HYBRID PV);
    entity "active_power_output_l3" 0x4A5 (Z.lor HYBRID PV);
    entity "reactive Power_output_l3" 0x4A6 (Z.lor HYBRID PV);
    entity "power_factor_output_l3" 0x4A7 (Z.lor HYBRID PV);
    entity "current_pcc_l3" 0x4A8 (Z.lor HYBRID PV);
    entity "active_power_pcc_l3" 0x4A9 (Z.lor HYBRID PV);
    entity "reactive Power_pcc_l3" 0x4AA (Z.lor HYBRID PV);
    entity "power_factor_pcc_l3" 0x4AB (Z.lor HYBRID PV);
    entity "active_power_pv_ext" 0x4AE (Z.lor HYBRID PV);
    entity "active_power_load_sys" 0x4AF (Z.lor HYBRID PV);
    entity "voltage_phase_l1n" 0x4B0 (Z.lor HYBRID PV);
    entity "current_output_l1n" 0x4B1 (Z.lor HYBRID PV);
    entity "active_power_output_l1n" 0x4B2 (Z.lor HYBRID PV);
    entity "current_pcc_l1n" 0x4B3 (Z.lor HYBRID PV);
    entity "active_power_pcc_l1n" 0x4B4 (Z.lor HYBRID PV);
    entity "voltage_phase_l2n" 0x4B5 (Z.lor HYBRID PV);
    entity "current_output_l2n" 0x4B6 (Z.lor HYBRID PV);
    entity "active_power_output_l2n" 0x4B7 (Z.lor HYBRID PV);
    entity "current_pcc_l2n" 0x4B8 (Z.lor HYBRID PV);
    entity "active_power_pcc_l2n" 0x4B9 (Z.lor HYBRID PV);
    entity "voltage_line_l1" 0x4BA (Z.lor HYBRID PV);
    entity "voltage_line_l2" 0x4BB (Z.lor HYBRID PV);
    entity "voltage_line_l3" 0x4BC (Z.lor HYBRID PV);
    entity "active_power_offgrid_total" 0x504 (Z.lor (Z.lor HYBRID X3) EPS);
    entity "reactive Power_offgrid_total" 0x505 (Z.lor (Z.lor HYBRID X3) EPS);
    entity "apparent_power_offgrid_total" 0x506 (Z.lor (Z.lor HYBRID X3) EPS);
    entity "offgrid_frequency" 0x507 (Z.lor (Z.lor HYBRID X3) EPS);
    entity "offgrid_voltage_l1" 0x50A (Z.lor (Z.lor HYBRID X3) EPS);
    entity "offgrid_current_output_l1" 0x50B (Z.lor (Z.lor HYBRID X3) EPS);
    entity "offgrid_active_power_output_l1" 0x50C (Z.lor (Z.lor HYBRID X3) EPS);
    entity "offgrid_reactive Power_output_l1" 0x50D (Z.lor (Z.lor HYBRID X3) EPS);
    entity "offgrid_apparent_power_output_l1" 0x50E (Z.lor (Z.lor HYBRID X3) EPS);
    entity "offgrid_loadpeakratio_l1" 0x50F (Z.lor (Z.lor HYBRID X3) EPS);
    entity "offgrid_voltage_l2" 0x512 (Z.lor (Z.lor HYBRID X3) EPS);
    entity "offgrid_current_output_l2" 0x513 (Z.lor (Z.lor HYBRID X3) EPS);
    entity "offgrid_active_power_output_l2" 0x514 (Z.lor (Z.lor HYBRID X3) EPS);
    entity "offgrid_reactive Power_output_l2" 0x515 (Z.lor (Z.lor HYBRID X3) EPS);
    entity "offgrid_apparent_power_output_l2" 0x516 (Z.lor (Z.lor HYBRID X3) EPS);
    entity "offgrid_loadpeakratio_l2" 0x517 (Z.lor (Z.lor HYBRID X3) EPS);
    entity "offgrid_voltage_l3" 0x51A (Z.lor (Z.lor HYBRID X3) EPS);
    entity "offgrid_current_output_l3" 0x51B (Z.lor (Z.lor HYBRID X3) EPS);
    entity "offgrid_active_power_output_l3" 0x51C (Z.lor (Z.lor HYBRID X3) EPS);
    entity "offgrid_reactive Power_output_l3" 0x51D (Z.lor (Z.lor HYBRID X3) EPS);
    entity "offgrid_apparent_power_output_l3" 0x51E (Z.lor (Z.lor HYBRID X3) EPS);
    entity "offgrid_loadpeakratio_l3" 0x51F (Z.lor (Z.lor HYBRID X3) EPS);
    entity "offgrid_voltage_output_l1n" 0x522 (Z.lor (Z.lor HYBRID X3) EPS);
    entity "offgrid_current_output_l1n" 0x523 (Z.lor (Z.lor HYBRID X3) EPS);
    entity "offgrid_active_power_output_l1n" 0x524 (Z.lor (Z.lor HYBRID X3) EPS);
    entity "offgrid_voltage_output_l2n" 0x525 (Z.lor (Z.lor HYBRID X3) EPS);
    entity "offgrid_current_output_l2n" 0x526 (Z.lor (Z.lor HYBRID X3) EPS);
    entity "offgrid_active_power_output_l2n" 0x527 (Z.lor (Z.lor HYBRID X3) EPS);
    entity "pv_voltage_1" 0x584 (Z.lor (Z.lor HYBRID PV) GEN);
    entity "pv_current_1" 0x585 (Z.lor (Z.lor HYBRID PV) GEN);
    entity "pv_power_1" 0x586 (Z.lor (Z.lor HYBRID PV) GEN);
    entity "pv_voltage_2" 0x587 (Z.lor (Z.lor HYBRID PV) GEN);
    entity "pv_current_2" 0x588 (Z.lor (Z.lor HYBRID PV) GEN);
    entity "pv_power_2" 0x589 (Z.lor (Z.lor HYBRID PV) GEN);
    entity "pv_voltage_3" 0x58A (Z.lor (Z.lor HYBRID PV) GEN);
    entity "pv_current_3" 0x58B (Z.lor (Z.lor HYBRID PV) GEN);
    entity "pv_power_3" 0x58C (Z.lor (Z.lor HYBRID PV) GEN);
    entity "pv_voltage_4" 0x58D (Z.lor (Z.lor HYBRID PV) GEN);
    entity "pv_current_4" 0x58E (Z.lor (Z.lor HYBRID PV) GEN);
    entity "pv_power_4" 0x58F (Z.lor (Z.lor HYBRID PV) GEN);
    entity "pv_total_power" 0x5C4 (Z.lor (Z.lor HYBRID PV) GEN);
    entity "battery_voltage_1" 0x604 HYBRID;
    entity "battery_current_1" 0x605 HYBRID;
    entity "Battery_power_1" 0x606 HYBRID;
    entity "battery_temperature_1" 0x607 (Z.lor HYBRID GEN);
    entity "battery_capacity_charge_1" 0x608 HYBRID;
    entity "battery_state_of_health_1" 0x609 HYBRID;
    entity "battery_charge_cycle_1" 0x60A HYBRID;
    entity "battery_voltage_2" 0x60B HYBRID;
    entity "battery_current_2" 0x60C HYBRID;
    entity "Battery_power_2" 0x60D HYBRID;
    entity "battery_temperature_2" 0x60E HYBRID;
    entity "battery_capacity_charge_2" 0x60F HYBRID;
    entity "battery_state_of_health_2" 0x610 HYBRID;
    entity "battery_charge_cycle_2" 0x611 HYBRID;
    entity "battery_voltage_3" 0x612 (Z.lor HYBRID GEN);
    entity "battery_current_3" 0x613 (Z.lor HYBRID GEN);
    entity "Battery_power_3" 0x614 (Z.lor HYBRID GEN);
    entity "battery_temperature_3" 0x615 (Z.lor HYBRID GEN);
    entity "battery_capacity_charge_3" 0x616 (Z.lor HYBRID GEN);
    entity "battery_state_of_health_3" 0x617 (Z.lor HYBRID GEN);
    entity "battery_charge_cycle_3" 0x618 (Z.lor HYBRID GEN);
    entity "battery_voltage_4" 0x619 (Z.lor HYBRID GEN);
    entity "battery_current_4" 0x61A (Z.lor HYBRID GEN);
    entity "Battery_power_4" 0x61B (Z.lor HYBRID GEN);
    entity "battery_temperature_4" 0x61C (Z.lor HYBRID GEN);
    entity "battery_capacity_charge_4" 0x61D (Z.lor HYBRID GEN);
    entity "battery_state_of_health_4" 0x61E (Z.lor HYBRID GEN);
    entity "battery_charge_cycle_4" 0x61F (Z.lor HYBRID GEN);
    entity "battery_power_total" 0x667 HYBRID;
    entity "battery_capacity_charge_total" 0x668 HYBRID;
    entity "battery_state_of_health_total" 0x669 HYBRID;
    entity "solar_generation_today" 0x684 (Z.lor HYBRID PV);
    entity "solar_generation_total" 0x686 (Z.lor HYBRID PV);
    entity "load_consumption_today" 0x688 (Z.lor HYBRID PV);
    entity "load_consumption_total" 0x68A (Z.lor HYBRID PV);
    entity "import_energy_today" 0x68C (Z.lor HYBRID PV);
    entity "import_energy_total" 0x68E (Z.lor HYBRID PV);
    entity "export_energy_today" 0x690 (Z.lor HYBRID PV);
    entity "export_energy_total" 0x692 (Z.lor HYBRID PV);
    entity "battery_input_energy_today" 0x694 HYBRID;
    entity "battery_input_energy_total" 0x696 HYBRID;
    entity "battery_output_energy_today" 0x698 HYBRID;
    entity "battery_Output_energy_total" 0x69A HYBRID;
    entity "eps_control" 0x1029 (Z.lor (Z.lor HYBRID X3) EPS);
    entity "battery_active_control" 0x102B HYBRID;
    entity "parallel_control" 0x1035 (Z.lor (Z.lor (Z.lor HYBRID PV) X3) PM);
    entity "parallel_masterslave" 0x1036 (Z.lor (Z.lor (Z.lor HYBRID PV) X3) PM);
    entity "parallel_address" 0x1037 (Z.lor (Z.lor (Z.lor HYBRID PV) X3) PM);
    entity "remote_control" 0x1104 HYBRID;
    entity "charger_use_mode" 0x1110 HYBRID;
    entity "timing_charge_onoff" 0x1112 HYBRID;
    entity "time_of_use_onoff" 0x1121 HYBRID
  ].

Definition NUMBER_TYPES : list EntityDescription :=
  [
    entity "battery_minimum_capacity" 0x104D HYBRID;
    entity "battery_minimum_capacity_offgrid" 0x104E HYBRID;
    entity "parallel_address" 0x1037 (Z.lor (Z.lor (Z.lor HYBRID PV) X3) PM);
    entity "time_of_use_charge_soc" 0x1124 HYBRID
  ].

Definition SELECT_TYPES : list EntityDescription :=
  [
    entity "eps_control" 0x1029 (Z.lor (Z.lor HYBRID X3) EPS);
    entity "battery_active_control" 0x102B HYBRID;
    entity "parallel_control" 0x1035 (Z.lor (Z.lor (Z.lor HYBRID PV) X3) PM);
    entity "parallel_masterslave" 0x1036 (Z.lor (Z.lor (Z.lor HYBRID PV) X3) PM);
    entity "remote_control" 0x1104 HYBRID;
    entity "charger_use_mode" 0x1110 HYBRID;
    entity "timing_charge_onoff" 0x1112 HYBRID;
    entity "time_of_use_onoff" 0x1121 HYBRID
  ].

(** All declarations of the plugin. *)
Definition ALL_TYPES : list EntityDescription :=
  BUTTON_TYPES ++ SENSOR_TYPES ++ NUMBER_TYPES ++ SELECT_TYPES.

(** Whether [e] is created for an inverter of type [invertertype]: the call
    of [matchInverterWithMask] with the mask of the declaration. *)
Definition entity_matches (invertertype : Z) (serialnumber : string)
    (blacklist : option (list string)) (e : EntityDescription) : bool :=
  matchInverterWithMask invertertype (allowedtypes e) serialnumber blacklist.

(** [f"{n:02d}"] for an integer: the decimal digits, after the sign if
    there is one, filled with zeros to two characters. *)
Definition format_02d (n : Z) : string :=
  let digits := NilZero.string_of_uint (N.to_uint (Z.abs_N n)) in
  if n <? 0 then "-" +:+ digits
  else if (String.length digits <? 2)%nat then "0" +:+ digits
  else digits.

Definition value_function_gen4time {D M : Type} (initval : Z) (descr : D) (datadict : M)
  : string :=
  let h := initval mod 256 in
  let m := Z.shiftr initval 8 in
  format_02d h +:+ ":" +:+ format_02d m.

Definition value_function_gen23time {D M : Type} (initval : Z * Z) (descr : D) (datadict : M)
  : string :=
  let '(h, m) := initval in
  format_02d h +:+ ":" +:+ format_02d m.

(** The character of a decimal digit. *)
Definition digit_char (d : Z) : ascii := ascii_of_N (48 + Z.to_N d).

(** ** Auxiliary notions for the further properties *)

(** Each element is smaller than the next. *)
Fixpoint increasing (l : list Z) : bool :=
  match l with
  | x :: (y :: _) as l' => (x <? y) && increasing l'
  | _ => true
  end.

(** Two declarations with the same key, register and mask. *)
Definition same_declaration (e e' : EntityDescription) : bool :=
  String.eqb (key e) (key e') && (register e =? register e')
  && (allowedtypes e =? allowedtypes e').


(** The test [matchInverterWithMask] applies to one group, as the
    expression of lines 53-58 has it. *)
Definition group_test (inverterspec entitymask group : Z) : bool :=
  negb (Z.land (Z.land inverterspec entitymask) group =? 0)
  || (Z.land entitymask group =? 0).

(** All bits that belong to some group. *)
Definition ALL_BITS : Z :=
  Z.lor (Z.lor (Z.lor (Z.lor (Z.lor ALL_GEN_GROUP ALL_X_GROUP) ALL_TYPE_GROUP)
                      ALL_EPS_GROUP) ALL_DCB_GROUP) ALL_PM_GROUP.

(** A register value that fits 16 bits. *)
Definition register_in_range (r : Z) : bool := (0 <=? r) && (r <=? 0xFFFF).

(** Both bytes of a 16-bit register are ASCII. *)
Definition register_is_text (r : Z) : bool := (r / 256 <? 128) && (r mod 256 <? 128).

(** The two characters a 16-bit register stands for, high byte first. *)
Definition register_chars (r : Z) : list ascii :=
  [ascii_of_N (Z.to_N (r / 256)); ascii_of_N (Z.to_N (r mod 256))].

(** The register with its two bytes exchanged. *)
Definition swap_register (r : Z) : Z := (r mod 256) * 256 + r / 256.

(** The bytes [pack_H] gives, nothing where it raises. *)
Definition register_bytes (r : Z) : list byte := default [] (pack_H r).

(** What a byte-swapping read makes of the text [decoded]. *)
Definition swapped_text (decoded : string) : string :=
  string_of_list_ascii (swap_pairs (list_ascii_of_string decoded)).

(** The values of the untyped embedding other than strings: [None], a
    [bool], an [int], a list.  None of them has a [startswith] method, and
    [str.startswith] accepts none of them as its argument. *)
Definition none_bool_int_or_list (v : Dyn.value) : bool :=
  match v with
  | Dyn.VNone | Dyn.VBool _ | Dyn.VInt _ | Dyn.VList _ => true
  | Dyn.VStr _ => false
  end.

(** Whether a log record was emitted with [_LOGGER.error]. *)
Definition is_error (record : level * message) : bool :=
  match record.1 with
  | ERROR => true
  | _ => false
  end.

(** The bits [determineInverterType] ORs in for the toggles. *)
Definition TOGGLE_BITS : Z := Z.lor (Z.lor EPS DCB) PM.

(** * Properties *)

(** ** Prefixes *)

Lemma startswith_spec (s start : string) :
  startswith s start = true <-> exists rest, s = start +:+ rest.
Proof.
  revert s; induction start as [|c start IH]; intros s; simpl.
  - split; [intros _; by exists s | reflexivity].
  - destruct s as [|d s].
    + split; [done | intros [rest H]; discriminate H].
    + destruct (Ascii.eqb_spec d c) as [->|Hne].
      * rewrite IH. split; intros [rest H]; exists rest.
        -- by rewrite H.
        -- by injection H.
      * split; [done | intros [rest H]; injection H; congruence].
Qed.

Lemma startswith_empty (s : string) : startswith s EmptyString = true.
Proof. reflexivity. Qed.

(** ** The blacklist loop *)

Lemma blacklist_loop_existsb serialnumber entries blacklisted :
  blacklist_loop serialnumber entries blacklisted
  = blacklisted || existsb (startswith serialnumber) entries.
Proof.
  unfold blacklist_loop.
  revert blacklisted; induction entries as [|start entries IH]; intros b; simpl.
  - by rewrite orb_false_r.
  - rewrite IH. destruct (startswith serialnumber start), b; reflexivity.
Qed.

Lemma blacklisted_flag_existsb serialnumber blacklist :
  blacklisted_flag serialnumber blacklist
  = existsb (startswith serialnumber) (default [] blacklist).
Proof.
  unfold blacklisted_flag.
  destruct blacklist as [[|start entries]|]; [reflexivity | | reflexivity].
  exact (blacklist_loop_existsb serialnumber (start :: entries) false).
Qed.

Lemma blacklisted_flag_true serialnumber blacklist :
  blacklisted_flag serialnumber blacklist = true <->
  exists start, start ∈ default [] blacklist /\ exists rest, serialnumber = start +:+ rest.
Proof.
  rewrite blacklisted_flag_existsb, existsb_exists.
  split; intros (start & Hin & H); exists start.
  - split; [by apply list_elem_of_In | by apply startswith_spec].
  - split; [by apply list_elem_of_In | by apply startswith_spec].
Qed.

(** ** Groups *)

Lemma group_test_true inverterspec entitymask group :
  negb (Z.land (Z.land inverterspec entitymask) group =? 0)
    || (Z.land entitymask group =? 0) = true
  <-> group_satisfied inverterspec entitymask group.
Proof.
  unfold group_satisfied.
  rewrite orb_true_iff, negb_true_iff, Z.eqb_neq, Z.eqb_eq. reflexivity.
Qed.

Lemma matchInverterWithMask_unfold inverterspec entitymask serialnumber blacklist :
  matchInverterWithMask inverterspec entitymask serialnumber blacklist = true <->
  Forall (group_satisfied inverterspec entitymask) ALL_GROUPS
  /\ blacklisted_flag serialnumber blacklist = false.
Proof.
  unfold matchInverterWithMask, ALL_GROUPS.
  rewrite !Forall_cons, Forall_nil, <- !group_test_true.
  rewrite !andb_true_iff, negb_true_iff. tauto.
Qed.

(** ** [matchInverterWithMask] *)

(** C1. [matchInverterWithMask] returns true exactly when each of the six
    groups is satisfied -- the AND of device capabilities, requirement mask
    and group mask is non-zero, or the requirement mask has no bit in the
    group -- and the serial number starts with no entry of the blacklist. *)
Theorem matchInverterWithMask_iff
    (inverterspec entitymask : Z) (serialnumber : string)
    (blacklist : option (list string)) :
  matchInverterWithMask inverterspec entitymask serialnumber blacklist = true
  <->
  (forall group, group ∈ ALL_GROUPS ->
     Z.land (Z.land inverterspec entitymask) group <> 0 \/ Z.land entitymask group = 0)
  /\ ~ (exists start, start ∈ default [] blacklist
                      /\ exists rest, serialnumber = start +:+ rest).
Proof.
  rewrite matchInverterWithMask_unfold, Forall_forall.
  rewrite <- blacklisted_flag_true, not_true_iff_false.
  reflexivity.
Qed.

(** C7. A requirement mask of zero matches every device, whatever its
    capabilities (zero included) and serial number, when no blacklist is
    given: as [None], as the empty list, or left to the defaults. *)
Theorem zero_mask_matches_every_device (inverterspec : Z) (serialnumber : string) :
  matchInverterWithMask inverterspec 0 serialnumber None = true
  /\ matchInverterWithMask inverterspec 0 serialnumber (Some []) = true
  /\ matchInverterWithMask_default inverterspec ALLDEFAULT = true.
Proof.
  assert (H : forall sn bl, blacklisted_flag sn bl = false ->
              matchInverterWithMask inverterspec 0 sn bl = true).
  { intros sn bl Hbl. apply matchInverterWithMask_unfold. split; [|exact Hbl].
    apply Forall_forall. intros group _. right. apply Z.land_0_l. }
  repeat split; apply H; reflexivity.
Qed.

Lemma matchInverterWithMask_factor inverterspec entitymask serialnumber blacklist :
  matchInverterWithMask inverterspec entitymask serialnumber blacklist
  = matchInverterWithMask inverterspec entitymask serialnumber None
    && negb (blacklisted_flag serialnumber blacklist).
Proof.
  unfold matchInverterWithMask. cbn [blacklisted_flag list_truthy negb].
  by rewrite andb_true_r.
Qed.

Lemma matchInverterWithMask_zero_mask inverterspec serialnumber blacklist :
  matchInverterWithMask inverterspec 0 serialnumber blacklist
  = negb (blacklisted_flag serialnumber blacklist).
Proof.
  rewrite matchInverterWithMask_factor.
  replace (matchInverterWithMask inverterspec 0 serialnumber None) with true; [done|].
  symmetry. apply matchInverterWithMask_unfold. split; [|reflexivity].
  apply Forall_forall. intros group _. right. apply Z.land_0_l.
Qed.

(** C8. A call whose groups all match returns false exactly when the
    blacklist is a non-empty list and the serial number starts with one
    of its entries, compared character for character (so ["sp1"] does not
    blacklist ["SP1ES"]).  Without a blacklist, or with an empty one,
    nothing is blacklisted, and the verdict of the blacklist is the same
    for all capability masks: the result is the conjunction of the match
    without blacklist and the blacklist verdict at any masks that match. *)
Theorem blacklist_prefix_semantics
    (inverterspec entitymask : Z) (serialnumber : string)
    (blacklist : option (list string)) :
  ((matchInverterWithMask inverterspec entitymask serialnumber None = true
    /\ matchInverterWithMask inverterspec entitymask serialnumber blacklist = false)
   <->
   (matchInverterWithMask inverterspec entitymask serialnumber None = true
    /\ exists entries, blacklist = Some entries /\ entries <> []
         /\ exists start, start ∈ entries
              /\ exists rest, serialnumber = start +:+ rest))
  /\ matchInverterWithMask inverterspec entitymask serialnumber (Some [])
     = matchInverterWithMask inverterspec entitymask serialnumber None
  /\ (forall inverterspec', 
        matchInverterWithMask inverterspec entitymask serialnumber blacklist
        = matchInverterWithMask inverterspec entitymask serialnumber None
          && matchInverterWithMask inverterspec' 0 serialnumber blacklist)
  /\ matchInverterWithMask 0 0 "SP1ES" (Some ["sp1"%string]) = true
  /\ matchInverterWithMask 0 0 "SP1ES" (Some ["SP1"%string]) = false.
Proof.
  split; [|split; [|split; [|split]]]; try reflexivity.
  - rewrite (matchInverterWithMask_factor _ _ _ blacklist).
    split.
    + intros [Hm Hb]. split; [exact Hm|].
      rewrite Hm in Hb. simpl in Hb. apply negb_false_iff in Hb.
      apply blacklisted_flag_true in Hb as (start & Hin & Hpre).
      destruct blacklist as [entries|]; simpl in Hin; [|by apply elem_of_nil in Hin].
      exists entries. split; [reflexivity|]. split.
      * intros ->. by apply elem_of_nil in Hin.
      * by exists start.
    + intros [Hm (entries & -> & _ & start & Hin & Hpre)]. split; [exact Hm|].
      rewrite Hm. simpl. apply negb_false_iff, blacklisted_flag_true.
      by exists start.
  - intros inverterspec'.
    rewrite matchInverterWithMask_zero_mask. apply matchInverterWithMask_factor.
Qed.

(** ** The untyped embedding on well-typed arguments *)

Lemma groupmatch_int (inverterspec entitymask GROUP : Z) (h : Dyn.heap) :
  Dyn.groupmatch (Dyn.VInt inverterspec) (Dyn.VInt entitymask) GROUP h
  = (inr (Dyn.VBool (negb (Z.land (Z.land inverterspec entitymask) GROUP =? 0)
                     || (Z.land entitymask GROUP =? 0))), h).
Proof.
  unfold Dyn.groupmatch, Dyn.bind, Dyn.or_, Dyn.bind, Dyn.bitand,
    Dyn.ne_zero, Dyn.eq_zero, Dyn.truthy, Dyn.ret; simpl.
  destruct (Z.land (Z.land inverterspec entitymask) GROUP =? 0); reflexivity.
Qed.

Lemma blacklist_loop_str (serialnumber : string) (entries : list string)
    (blacklisted : bool) (h : Dyn.heap) :
  Dyn.blacklist_loop (Dyn.VStr serialnumber) (Dyn.VStr <$> entries) (Dyn.VBool blacklisted) h
  = (inr (Dyn.VBool (blacklist_loop serialnumber entries blacklisted)), h).
Proof.
  revert blacklisted; induction entries as [|start entries IH]; intros b.
  - reflexivity.
  - cbn [fmap list_fmap Dyn.blacklist_loop]. unfold Dyn.bind at 1 2; simpl.
    destruct (startswith serialnumber start); apply IH.
Qed.

Lemma and_bool (a : bool) (k : Dyn.M Dyn.value) (h : Dyn.heap) :
  Dyn.and_ (Dyn.VBool a) k h = if a then k h else (inr (Dyn.VBool false), h).
Proof. unfold Dyn.and_, Dyn.bind; simpl. by destruct a. Qed.

Lemma blacklisted_typed (serialnumber : string) (blacklist : option (list string))
    (h : Dyn.heap) (ref : nat) :
  Dyn.blacklist_in_heap h ref blacklist ->
  Dyn.bind (Dyn.truthy (Dyn.blacklist_value ref blacklist))
    (fun t : bool =>
       if t
       then Dyn.bind (Dyn.iterate (Dyn.blacklist_value ref blacklist))
              (fun items => Dyn.blacklist_loop (Dyn.VStr serialnumber) items (Dyn.VBool false))
       else Dyn.ret (Dyn.VBool false)) h
  = (inr (Dyn.VBool (blacklisted_flag serialnumber blacklist)), h).
Proof.
  intros Hh. destruct blacklist as [entries|]; simpl in *; [|reflexivity].
  unfold Dyn.bind, Dyn.deref. rewrite Hh.
  destruct entries as [|start entries]; [reflexivity|].
  cbn [fmap list_fmap Dyn.ret]. rewrite Hh.
  exact (blacklist_loop_str serialnumber (start :: entries) false h).
Qed.

Lemma conjunction_bool (genmatch xmatch hybmatch epsmatch dcbmatch pmmatch blacklisted : bool)
    (h : Dyn.heap) :
  Dyn.bind
    (Dyn.and_ (Dyn.VBool genmatch) (Dyn.and_ (Dyn.VBool xmatch) (Dyn.and_ (Dyn.VBool hybmatch)
       (Dyn.and_ (Dyn.VBool epsmatch) (Dyn.and_ (Dyn.VBool dcbmatch)
          (Dyn.ret (Dyn.VBool pmmatch)))))))
    (fun groups => Dyn.and_ groups (Dyn.not_ (Dyn.VBool blacklisted))) h
  = (inr (Dyn.VBool ((genmatch && xmatch && hybmatch && epsmatch && dcbmatch && pmmatch)
                     && negb blacklisted)), h).
Proof.
  by destruct genmatch, xmatch, hybmatch, epsmatch, dcbmatch, pmmatch, blacklisted.
Qed.

(** C9. On integers for the two masks, a string for the serial number and,
    for the blacklist, [None] or a list object holding strings,
    [matchInverterWithMask] raises nothing and returns a [bool] -- the one
    the typed embedding computes -- and leaves the heap, hence the list it
    was handed, as it found it. *)
Theorem matchInverterWithMask_total_pure
    (inverterspec entitymask : Z) (serialnumber : string)
    (blacklist : option (list string)) (h : Dyn.heap) (ref : nat) :
  Dyn.blacklist_in_heap h ref blacklist ->
  Dyn.matchInverterWithMask
    (Dyn.VInt inverterspec) (Dyn.VInt entitymask) (Dyn.VStr serialnumber)
    (Dyn.blacklist_value ref blacklist) h
  = (inr (Dyn.VBool (matchInverterWithMask inverterspec entitymask serialnumber blacklist)), h).
Proof.
  intros Hh. unfold Dyn.matchInverterWithMask.
  unfold Dyn.bind at 1; rewrite groupmatch_int.
  unfold Dyn.bind at 1; rewrite groupmatch_int.
  unfold Dyn.bind at 1; rewrite groupmatch_int.
  unfold Dyn.bind at 1; rewrite groupmatch_int.
  unfold Dyn.bind at 1; rewrite groupmatch_int.
  unfold Dyn.bind at 1; rewrite groupmatch_int.
  pose proof (blacklisted_typed serialnumber blacklist h ref Hh) as Hb.
  unfold Dyn.bind at 1 in Hb. unfold Dyn.bind at 1.
  destruct (Dyn.truthy (Dyn.blacklist_value ref blacklist) h) as [[e|t] h'];
    [discriminate Hb|].
  unfold Dyn.bind at 1. rewrite Hb.
  apply conjunction_bool.
Qed.

Lemma matchInverterWithMask_total_pure_witness :
  Dyn.blacklist_in_heap {[ 0%nat := [Dyn.VStr "SP2"; Dyn.VStr "ZM1E"] ]} 0
    (Some ["SP2"; "ZM1E"]%string)
  /\ Dyn.matchInverterWithMask
       (Dyn.VInt (Z.lor HYBRID X3)) (Dyn.VInt HYBRID) (Dyn.VStr "SP1ES120N6ABCD")
       (Dyn.VList 0) {[ 0%nat := [Dyn.VStr "SP2"; Dyn.VStr "ZM1E"] ]}
     = (inr (Dyn.VBool true), {[ 0%nat := [Dyn.VStr "SP2"; Dyn.VStr "ZM1E"] ]}).
Proof.
  split; [reflexivity|].
  exact (matchInverterWithMask_total_pure (Z.lor HYBRID X3) HYBRID "SP1ES120N6ABCD"
           (Some ["SP2"; "ZM1E"]%string)
           {[ 0%nat := [Dyn.VStr "SP2"; Dyn.VStr "ZM1E"] ]} 0 eq_refl).
Defined.

(** The error paths of the untyped embedding are live: an entry of the
    blacklist that is no string, or a mask that is no integer, raises. *)
Example untyped_blacklist_entry_raises :
  (Dyn.matchInverterWithMask (Dyn.VInt 0) (Dyn.VInt 0) (Dyn.VStr "SP1") (Dyn.VList 0)
     {[ 0%nat := [Dyn.VInt 3] ]}).1 = inl Dyn.TypeError.
Proof. reflexivity. Qed.

Example untyped_mask_raises :
  (Dyn.matchInverterWithMask (Dyn.VInt 0) (Dyn.VStr "HYBRID") (Dyn.VStr "SP1") Dyn.VNone ∅).1
  = inl Dyn.TypeError.
Proof. reflexivity. Qed.

(** ** Deriving the inverter type *)

Lemma derive_invertertype_first_match (hub : Hub) (seriesnumber : string) (_LOGGER : log) :
  (derive_invertertype hub seriesnumber _LOGGER).1 = first_match prefix_rules seriesnumber.
Proof.
  unfold derive_invertertype, prefix_rules, first_match.
  repeat match goal with
         | |- context [startswith seriesnumber ?p] => destruct (startswith seriesnumber p)
         end; reflexivity.
Qed.

Lemma base_invertertype_first_match (hub : Hub) (seriesnumber : string) :
  base_invertertype hub seriesnumber = first_match prefix_rules seriesnumber.
Proof. apply derive_invertertype_first_match. Qed.

Lemma first_match_unrecognized (rules : list (string * Z)) (seriesnumber : string) :
  existsb (fun rule : string * Z => startswith seriesnumber rule.1) rules = false ->
  first_match rules seriesnumber = 0.
Proof.
  induction rules as [|[prefix mask] rules IH]; simpl; [done|].
  destruct (startswith seriesnumber prefix); [done | exact IH].
Qed.

Lemma append_associative (q r2 r1 : string) :
  (q +:+ r2) +:+ r1 = q +:+ (r2 +:+ r1).
Proof. induction q as [|c q IH]; [reflexivity | exact (f_equal (String c) IH)]. Qed.

Lemma startswith_trans (s p q : string) :
  startswith s p = true -> startswith p q = true -> startswith s q = true.
Proof.
  rewrite !startswith_spec. intros [r1 ->] [r2 ->]. exists (r2 +:+ r1).
  apply append_associative.
Qed.

(** C4. The chain is the first-match lookup in the table of rules, taken
    in the authored order.  A serial number that starts with
    ["SP1ES120N6"] also starts with ["SP1"], whose rule -- the first to
    apply if the leading rule is left out -- carries [GEN]; the type
    derived is nevertheless exactly [HYBRID | X3], with no generation bit.
    A serial number that starts with ["SA1"] gives exactly [PV | X1], with
    no generation bit. *)
Theorem first_matching_prefix_wins (hub : Hub) (seriesnumber : string) :
  base_invertertype hub seriesnumber = first_match prefix_rules seriesnumber
  /\ (startswith seriesnumber "SP1ES120N6" = true ->
        startswith seriesnumber "SP1" = true
        /\ first_match (tail prefix_rules) seriesnumber = Z.lor (Z.lor HYBRID X3) GEN
        /\ base_invertertype hub seriesnumber = Z.lor HYBRID X3
        /\ Z.land (base_invertertype hub seriesnumber) ALL_GEN_GROUP = 0)
  /\ (startswith seriesnumber "SA1" = true ->
        base_invertertype hub seriesnumber = Z.lor PV X1
        /\ Z.land (base_invertertype hub seriesnumber) ALL_GEN_GROUP = 0).
Proof.
  split; [apply base_invertertype_first_match|].
  rewrite base_invertertype_first_match. split.
  - intros H.
    assert (H1 : startswith seriesnumber "SP1" = true)
      by (apply (startswith_trans _ _ _ H); reflexivity).
    split; [exact H1|].
    unfold prefix_rules; cbn [tail first_match]. rewrite H, H1. done.
  - intros H. apply startswith_spec in H as [rest ->]. done.
Qed.

Lemma first_matching_prefix_wins_witness :
  (startswith "SP1ES120N6ABCD" "SP1ES120N6" = true
   /\ base_invertertype (example_hub None None) "SP1ES120N6ABCD" = Z.lor HYBRID X3)
  /\ (startswith "SA1ES120N6ABCD" "SA1" = true
      /\ base_invertertype (example_hub None None) "SA1ES120N6ABCD" = Z.lor PV X1).
Proof.
  split; (split; [reflexivity|]).
  - exact (proj1 (proj2 (proj2
      (proj1 (proj2 (first_matching_prefix_wins (example_hub None None) "SP1ES120N6ABCD"))
             eq_refl)))).
  - exact (proj1
      (proj2 (proj2 (first_matching_prefix_wins (example_hub None None) "SA1ES120N6ABCD"))
             eq_refl)).
Defined.

(** ** Reading the serial number *)

Lemma same_device_refl (hub : Hub) : same_device hub hub.
Proof. by repeat split. Qed.

Lemma same_device_trans (hub hub' hub'' : Hub) :
  same_device hub hub' -> same_device hub' hub'' -> same_device hub hub''.
Proof.
  unfold same_device. intros (? & ? & ? & ?) (? & ? & ? & ?).
  repeat split; congruence.
Qed.

Lemma _read_serialnr_same_device hub address swapbytes _LOGGER :
  same_device hub (_read_serialnr hub address swapbytes _LOGGER).1.2.
Proof.
  unfold _read_serialnr.
  destruct (read_holding_registers hub (_modbus_addr hub) address 7) as [[|registers]|];
    [apply same_device_refl | | apply same_device_refl].
  destruct (decode_serialnr registers swapbytes); [apply same_device_refl|].
  by repeat split.
Qed.

Lemma _read_serialnr_res hub hub' address swapbytes _LOGGER :
  same_device hub hub' ->
  (_read_serialnr hub' address swapbytes _LOGGER).1.1 = serialnr_at hub address swapbytes.
Proof.
  intros (_ & Ha & Hr & _). unfold serialnr_at, _read_serialnr. rewrite Hr, Ha.
  destruct (read_holding_registers hub (_modbus_addr hub) address 7) as [[|registers]|];
    [reflexivity | | reflexivity].
  destruct (decode_serialnr registers swapbytes); reflexivity.
Qed.

(** The serial number settled on, whatever the log and the serial number
    stored before: the first read when it is usable, else the second when
    it is, else ["unknown"]. *)
Lemma read_seriesnumber_res hub hub' _LOGGER :
  same_device hub hub' ->
  (read_seriesnumber hub' _LOGGER).1.1
  = (let res := serialnr_at hub 0x445 false in
     let res := if falsy res then serialnr_at hub 0x2001 false else res in
     if falsy res then "unknown"%string else default EmptyString res)
  /\ same_device hub (read_seriesnumber hub' _LOGGER).1.2.
Proof.
  intros Hs. unfold read_seriesnumber.
  pose proof (_read_serialnr_res hub hub' 0x445 false _LOGGER Hs) as H1.
  pose proof (_read_serialnr_same_device hub' 0x445 false _LOGGER) as S1.
  destruct (_read_serialnr hub' 0x445 false _LOGGER) as [[res1 hub1] log1].
  simpl in H1, S1. subst res1. cbv zeta.
  assert (Hs1 : same_device hub hub1) by (eapply same_device_trans; eassumption).
  destruct (falsy (serialnr_at hub 0x445 false)) eqn:F1.
  - pose proof (_read_serialnr_res hub hub1 0x2001 false log1 Hs1) as H2.
    pose proof (_read_serialnr_same_device hub1 0x2001 false log1) as S2.
    destruct (_read_serialnr hub1 0x2001 false log1) as [[res2 hub2] log2].
    simpl in H2, S2. subst res2.
    assert (Hs2 : same_device hub hub2) by (eapply same_device_trans; eassumption).
    destruct (falsy (serialnr_at hub 0x2001 false)); simpl; by split.
  - rewrite F1. simpl. by split.
Qed.

Lemma identity_spec hub hub' _LOGGER :
  same_device hub hub' -> (read_seriesnumber hub' _LOGGER).1.1 = identity hub.
Proof.
  intros Hs. unfold identity.
  rewrite (proj1 (read_seriesnumber_res hub hub' _LOGGER Hs)).
  by rewrite (proj1 (read_seriesnumber_res hub hub [] (same_device_refl hub))).
Qed.

Lemma identity_unknown hub :
  both_reads_fail hub = true -> identity hub = "unknown"%string.
Proof.
  unfold both_reads_fail. rewrite andb_true_iff. intros [F1 F2].
  unfold identity.
  rewrite (proj1 (read_seriesnumber_res hub hub [] (same_device_refl hub))).
  cbv zeta. rewrite F1, F2. reflexivity.
Qed.

(** ** The toggles *)

Lemma apply_toggles_lor invertertype read_eps read_dcb read_pm :
  apply_toggles invertertype read_eps read_dcb read_pm
  = Z.lor invertertype (toggle_bits read_eps read_dcb read_pm).
Proof.
  unfold apply_toggles, toggle_bits.
  destruct read_eps, read_dcb, read_pm;
    rewrite ?Z.lor_0_r, ?Z.lor_0_l, ?Z.lor_assoc; reflexivity.
Qed.

Lemma apply_toggle_comm invertertype (a b : bool * Z) :
  apply_toggle (apply_toggle invertertype a) b = apply_toggle (apply_toggle invertertype b) a.
Proof.
  unfold apply_toggle. destruct a as [[] x], b as [[] y]; simpl; try reflexivity.
  by rewrite <- !Z.lor_assoc, (Z.lor_comm x y).
Qed.

Lemma fold_apply_toggle_permutation (toggles toggles' : list (bool * Z)) :
  toggles ≡ₚ toggles' ->
  forall invertertype,
    fold_left apply_toggle toggles invertertype = fold_left apply_toggle toggles' invertertype.
Proof.
  induction 1 as [|t l l' _ IH|a b l|l l' l'' _ IH1 _ IH2]; intros x; simpl.
  - reflexivity.
  - apply IH.
  - by rewrite apply_toggle_comm.
  - by rewrite IH1.
Qed.

Lemma toggle_bits_testbit read_eps read_dcb read_pm (n : Z) :
  Z.testbit (toggle_bits read_eps read_dcb read_pm) n
  = (read_eps && (n =? 15)) || (read_dcb && (n =? 16)) || (read_pm && (n =? 17)).
Proof.
  unfold toggle_bits. rewrite !Z.lor_spec.
  assert (Hbit : forall k, 0 <= k -> Z.testbit (2 ^ k) n = (n =? k)).
  { intros k Hk. rewrite Z.eqb_sym. apply Z.pow2_bits_eqb. exact Hk. }
  change EPS with (2 ^ 15). change DCB with (2 ^ 16). change PM with (2 ^ 17).
  destruct read_eps, read_dcb, read_pm;
    rewrite ?Hbit, ?Z.bits_0 by lia; simpl; rewrite ?orb_false_r; reflexivity.
Qed.

Lemma toggle_bits_zero read_eps read_dcb read_pm :
  toggle_bits read_eps read_dcb read_pm = 0
  <-> read_eps = false /\ read_dcb = false /\ read_pm = false.
Proof. destruct read_eps, read_dcb, read_pm; unfold toggle_bits; simpl; split; try done; intros (?&?&?); done. Qed.

(** ** [determineInverterType] *)

Lemma determineInverterType_invertertype
    (CONF_READ_EPS CONF_READ_DCB CONF_READ_PM : string)
    (DEFAULT_READ_EPS DEFAULT_READ_DCB DEFAULT_READ_PM : bool)
    (hub : Hub) (configdict : gmap string bool) (_LOGGER : log) :
  invertertype
    (determineInverterType CONF_READ_EPS CONF_READ_DCB CONF_READ_PM
       DEFAULT_READ_EPS DEFAULT_READ_DCB DEFAULT_READ_PM hub configdict _LOGGER).1
  = Some (Z.lor (base_invertertype hub (identity hub))
            (toggle_bits (get configdict CONF_READ_EPS DEFAULT_READ_EPS)
                         (get configdict CONF_READ_DCB DEFAULT_READ_DCB)
                         (get configdict CONF_READ_PM DEFAULT_READ_PM))).
Proof.
  unfold determineInverterType.
  pose proof (identity_spec hub hub
                (_LOGGER ++ [(INFO, trying_to_determine (name hub))])
                (same_device_refl hub)) as Hid.
  destruct (read_seriesnumber hub _) as [[seriesnumber hub1] log1].
  simpl in Hid. subst seriesnumber.
  pose proof (derive_invertertype_first_match hub1 (identity hub) log1) as Hbase.
  destruct (derive_invertertype hub1 (identity hub) log1) as [base log2].
  simpl in Hbase. subst base. simpl.
  by rewrite apply_toggles_lor, base_invertertype_first_match.
Qed.

(** C5. The type stored on the hub is the type derived from the serial
    number OR-ed with the bits of the enabled toggles.  Each toggle owns
    one bit -- 15 for [read_eps], 16 for [read_dcb], 17 for [read_pm] --
    and applying the three conditional assignments in any order gives the
    same type.  For a serial number no rule covers the derived type is
    zero, so the stored type is the bits of the toggles alone: exactly
    [EPS] when [read_eps] is the only toggle enabled. *)
Theorem toggles_or_into_base
    (CONF_READ_EPS CONF_READ_DCB CONF_READ_PM : string)
    (DEFAULT_READ_EPS DEFAULT_READ_DCB DEFAULT_READ_PM : bool)
    (hub : Hub) (configdict : gmap string bool) (_LOGGER : log) :
  let seriesnumber := identity hub in
  let base := base_invertertype hub seriesnumber in
  let read_eps := get configdict CONF_READ_EPS DEFAULT_READ_EPS in
  let read_dcb := get configdict CONF_READ_DCB DEFAULT_READ_DCB in
  let read_pm := get configdict CONF_READ_PM DEFAULT_READ_PM in
  let resolved :=
    invertertype
      (determineInverterType CONF_READ_EPS CONF_READ_DCB CONF_READ_PM
         DEFAULT_READ_EPS DEFAULT_READ_DCB DEFAULT_READ_PM hub configdict _LOGGER).1 in
  resolved = Some (Z.lor base (toggle_bits read_eps read_dcb read_pm))
  /\ (forall n, Z.testbit (toggle_bits read_eps read_dcb read_pm) n
                = (read_eps && (n =? 15)) || (read_dcb && (n =? 16)) || (read_pm && (n =? 17)))
  /\ (forall toggles,
        toggles ≡ₚ [(read_eps, EPS); (read_dcb, DCB); (read_pm, PM)] ->
        resolved = Some (fold_left apply_toggle toggles base))
  /\ (recognized seriesnumber = false ->
        base = 0
        /\ resolved = Some (toggle_bits read_eps read_dcb read_pm)
        /\ (read_eps = true -> read_dcb = false -> read_pm = false ->
            resolved = Some EPS)).
Proof.
  intros seriesnumber base read_eps read_dcb read_pm resolved.
  assert (Hres : resolved = Some (Z.lor base (toggle_bits read_eps read_dcb read_pm)))
    by apply determineInverterType_invertertype.
  split; [exact Hres|]. split; [apply toggle_bits_testbit|]. split.
  - intros toggles Hperm. rewrite Hres. f_equal.
    rewrite (fold_apply_toggle_permutation _ _ Hperm).
    rewrite <- apply_toggles_lor. reflexivity.
  - intros Hun.
    assert (Hbase : base = 0).
    { unfold base. rewrite base_invertertype_first_match.
      by apply first_match_unrecognized. }
    split; [exact Hbase|]. rewrite Hres, Hbase, Z.lor_0_l.
    split; [reflexivity|]. by intros -> -> ->.
Qed.

Lemma toggles_or_into_base_witness :
  recognized (identity (example_hub (Some (ReadResponse registers_XY9)) None)) = false
  /\ invertertype
       (determineInverterType "read_eps" "read_dcb" "read_pm" false false false
          (example_hub (Some (ReadResponse registers_XY9)) None)
          {[ "read_eps"%string := true ]} []).1
     = Some EPS.
Proof.
  split; [reflexivity|].
  exact (proj2 (proj2 (proj2 (proj2 (proj2
    (toggles_or_into_base "read_eps" "read_dcb" "read_pm" false false false
       (example_hub (Some (ReadResponse registers_XY9)) None)
       {[ "read_eps"%string := true ]} []))) eq_refl)) eq_refl eq_refl eq_refl).
Defined.

(** C2, as the code has it.  When neither read yields a usable serial
    number, the serial number settled on is ["unknown"] and the type
    derived from it is zero; the type stored on the hub is the bits of the
    enabled toggles, hence zero exactly when no toggle is enabled. *)
Theorem failed_reads_resolve_unknown
    (CONF_READ_EPS CONF_READ_DCB CONF_READ_PM : string)
    (DEFAULT_READ_EPS DEFAULT_READ_DCB DEFAULT_READ_PM : bool)
    (hub : Hub) (configdict : gmap string bool) (_LOGGER : log) :
  both_reads_fail hub = true ->
  let read_eps := get configdict CONF_READ_EPS DEFAULT_READ_EPS in
  let read_dcb := get configdict CONF_READ_DCB DEFAULT_READ_DCB in
  let read_pm := get configdict CONF_READ_PM DEFAULT_READ_PM in
  let resolved :=
    invertertype
      (determineInverterType CONF_READ_EPS CONF_READ_DCB CONF_READ_PM
         DEFAULT_READ_EPS DEFAULT_READ_DCB DEFAULT_READ_PM hub configdict _LOGGER).1 in
  identity hub = "unknown"%string
  /\ base_invertertype hub "unknown" = 0
  /\ resolved = Some (toggle_bits read_eps read_dcb read_pm)
  /\ (resolved = Some 0 <-> read_eps = false /\ read_dcb = false /\ read_pm = false).
Proof.
  intros Hfail read_eps read_dcb read_pm resolved.
  pose proof (identity_unknown hub Hfail) as Hid.
  assert (Hres : resolved = Some (toggle_bits read_eps read_dcb read_pm)).
  { unfold resolved. rewrite determineInverterType_invertertype, Hid. reflexivity. }
  split; [exact Hid|]. split; [reflexivity|]. split; [exact Hres|].
  rewrite Hres, <- toggle_bits_zero. split; [by intros [= ->] | by intros ->].
Qed.

Lemma failed_reads_resolve_unknown_witness :
  both_reads_fail (example_hub None (Some ErrorResponse)) = true
  /\ identity (example_hub None (Some ErrorResponse)) = "unknown"%string
  /\ invertertype
       (determineInverterType "read_eps" "read_dcb" "read_pm" false false false
          (example_hub None (Some ErrorResponse)) ∅ []).1
     = Some 0.
Proof.
  split; [reflexivity|].
  pose proof (failed_reads_resolve_unknown "read_eps" "read_dcb" "read_pm" false false false
                (example_hub None (Some ErrorResponse)) ∅ [] eq_refl) as H.
  split; [exact (proj1 H) | exact (proj1 (proj2 (proj2 H)))].
Defined.

(** C2, as the claim has it, fails: with both reads failing and [read_eps]
    enabled the type stored on the hub is [EPS], not zero. *)
Lemma failed_reads_mask_not_zero :
  both_reads_fail (example_hub None (Some ErrorResponse)) = true
  /\ invertertype
       (determineInverterType "read_eps" "read_dcb" "read_pm" false false false
          (example_hub None (Some ErrorResponse))
          {[ "read_eps"%string := true ]} []).1
     = Some 0x8000
  /\ invertertype
       (determineInverterType "read_eps" "read_dcb" "read_pm" false false false
          (example_hub None (Some ErrorResponse))
          {[ "read_eps"%string := true ]} []).1
     <> Some 0.
Proof. split; [reflexivity|]. split; [reflexivity | discriminate]. Qed.

(** ** Swapping the bytes of the serial number *)

Section PairInduction.
Context {A : Type} (P : list A -> Prop).
Hypothesis P_nil : P [].
Hypothesis P_pair : forall a b l, P l -> P (a :: b :: l).

Lemma list_pair_ind (l : list A) : Nat.even (length l) = true -> P l.
Proof.
  enough (H : (Nat.even (length l) = true -> P l)
              /\ (forall a, Nat.even (length (a :: l)) = true -> P (a :: l)))
    by apply H.
  induction l as [|b l [IH1 IH2]].
  - split; [intros _; exact P_nil | intros a H; discriminate H].
  - split; [exact (IH2 b)|].
    intros a H. apply P_pair, IH1. exact H.
Qed.
End PairInduction.

Lemma slice_step2_cons {A} (b : A) (l : list A) :
  slice_step2 (b :: l) = b :: slice_step2 (drop 1 l).
Proof. by destruct l. Qed.

Lemma assign_step2_cons {A} (b w : A) (l ws : list A) :
  assign_step2 (b :: l) (w :: ws) = w :: (take 1 l ++ assign_step2 (drop 1 l) ws).
Proof. by destruct l. Qed.

(** After the first slice assignment on a list of even length, the second
    one finds a slice of the right size and completes the merge. *)
Lemma assign_twice_interleave {A} (l : list A) :
  Nat.even (length l) = true ->
  forall vs ws : list A,
    length vs = length (slice_step2 l) ->
    length ws = length (slice_step2 l) ->
    length (slice_step2 (drop 1 (assign_step2 l vs))) = length ws
    /\ take 1 (assign_step2 l vs) ++ assign_step2 (drop 1 (assign_step2 l vs)) ws
       = interleave vs ws.
Proof.
  intros Heven. pattern l. revert l Heven. apply list_pair_ind.
  - intros [|v vs] [|w ws]; simpl; intros; try discriminate. by split.
  - intros a b l IH vs ws. rewrite !slice_step2_cons. cbn [drop].
    destruct vs as [|v vs]; [discriminate|]. destruct ws as [|w ws]; [discriminate|].
    intros [= Hvs] [= Hws].
    destruct (IH vs ws Hvs Hws) as [IHlen IHeq].
    rewrite assign_step2_cons. cbn [take drop app].
    rewrite slice_step2_cons, assign_step2_cons.
    destruct l as [|c l].
    + split; [simpl; by rewrite <- IHlen | simpl; f_equal; f_equal; exact IHeq].
    + cbn [take drop app]. cbn [take drop app] in IHlen, IHeq.
      split; [simpl; by rewrite <- IHlen | simpl; f_equal; f_equal; exact IHeq].
Qed.

Lemma slices_same_length {A} (l : list A) :
  Nat.even (length l) = true ->
  length (slice_step2 (drop 1 l)) = length (slice_step2 l).
Proof.
  intros Heven. pattern l. revert l Heven. apply list_pair_ind; [reflexivity|].
  intros a b l IH. cbn [drop]. rewrite !slice_step2_cons. cbn [drop]. simpl. by rewrite IH.
Qed.

Lemma interleave_slices {A} (l : list A) :
  Nat.even (length l) = true ->
  interleave (slice_step2 (drop 1 l)) (slice_step2 l) = swap_pairs l.
Proof.
  intros Heven. pattern l. revert l Heven. apply list_pair_ind; [reflexivity|].
  intros a b l IH. cbn [drop]. rewrite !slice_step2_cons. cbn [drop interleave swap_pairs].
  by rewrite drop_0, IH.
Qed.

Lemma swap_slices_even (ba : list byte) :
  Nat.even (length ba) = true -> swap_slices ba = Some (swap_pairs ba).
Proof.
  intros Heven. unfold swap_slices, setslice_from_step2, slice_from_step2.
  rewrite !drop_0, !take_0. cbn [app].
  rewrite decide_True by (symmetry; by apply slices_same_length).
  cbn [mbind option_bind].
  destruct (assign_twice_interleave ba Heven (slice_step2 (drop 1 ba)) (slice_step2 ba))
    as [Hlen Heq]; [by apply slices_same_length | reflexivity |].
  rewrite decide_True by exact Hlen.
  by rewrite Heq, interleave_slices.
Qed.

Lemma swap_pairs_length {A} (l : list A) :
  Nat.even (length l) = true -> length (swap_pairs l) = length l.
Proof.
  intros Heven. pattern l. revert l Heven. apply list_pair_ind; [reflexivity|].
  intros a b l IH. simpl. by rewrite IH.
Qed.

Lemma swap_pairs_forallb {A} (f : A -> bool) (l : list A) :
  Nat.even (length l) = true -> forallb f (swap_pairs l) = forallb f l.
Proof.
  intros Heven. pattern l. revert l Heven. apply list_pair_ind; [reflexivity|].
  intros a b l IH. simpl. rewrite IH. by destruct (f a), (f b).
Qed.

Lemma swap_pairs_lookup {A} (l : list A) :
  Nat.even (length l) = true ->
  forall i : nat,
    swap_pairs l !! (2 * i)%nat = l !! (2 * i + 1)%nat
    /\ swap_pairs l !! (2 * i + 1)%nat = l !! (2 * i)%nat.
Proof.
  intros Heven. pattern l. revert l Heven. apply list_pair_ind.
  - intros i. by rewrite !lookup_nil.
  - intros a b l IH [|i]; [by split|].
    replace (2 * S i)%nat with (S (S (2 * i))) by lia.
    replace (S (S (2 * i)) + 1)%nat with (S (S (2 * i + 1))) by lia.
    cbn [swap_pairs lookup list_lookup]. apply IH.
Qed.

Lemma swap_pairs_map {A B} (f : A -> B) (l : list A) :
  Nat.even (length l) = true -> swap_pairs (map f l) = map f (swap_pairs l).
Proof.
  intros Heven. pattern l. revert l Heven. apply list_pair_ind; [reflexivity|].
  intros a b l IH. simpl. by rewrite IH.
Qed.

Lemma get_string_of_list_byte (bs : list byte) (n : nat) :
  String.get n (string_of_list_byte bs) = ascii_of_byte <$> bs !! n.
Proof.
  unfold string_of_list_byte.
  revert n; induction bs as [|b bs IH]; intros [|n]; simpl; try reflexivity.
  apply IH.
Qed.

Lemma length_string_of_list_byte (bs : list byte) :
  String.length (string_of_list_byte bs) = length bs.
Proof.
  unfold string_of_list_byte. induction bs as [|b bs IH]; simpl; [reflexivity | by rewrite IH].
Qed.

Lemma pack_H_length (x : Z) (bs : list byte) : pack_H x = Some bs -> length bs = 2%nat.
Proof.
  unfold pack_H. destruct ((0 <=? x) && (x <=? 0xFFFF)); [|discriminate].
  destruct (Byte.of_N (Z.to_N (x / 256))); [|discriminate].
  destruct (Byte.of_N (Z.to_N (x mod 256))); [|discriminate].
  by intros [= <-].
Qed.

Lemma fromRegisters_length (registers : list Z) (payload : list byte) :
  fromRegisters registers = Some payload ->
  length payload = (2 * length registers)%nat.
Proof.
  unfold fromRegisters.
  destruct (mapM pack_H registers) as [packed|] eqn:E; [|discriminate].
  intros [= <-]. apply mapM_Some in E.
  induction E as [|x bs registers packed Hx _ IH]; [reflexivity|].
  change (mjoin (bs :: packed)) with (bs ++ mjoin packed).
  rewrite length_app, IH, (pack_H_length x bs Hx). simpl. lia.
Qed.

Lemma decode_string_even (registers : list Z) (payload : list byte) :
  fromRegisters registers = Some payload ->
  Nat.even (length (decode_string 14 payload)) = true.
Proof.
  intros H. unfold decode_string.
  rewrite length_take, (fromRegisters_length _ _ H).
  destruct (Nat.min_spec 14 (2 * length registers)) as [[_ ->]|[_ ->]]; [reflexivity|].
  by rewrite Nat.even_mul.
Qed.

(** What the [try] body makes of registers that decode to ASCII text. *)
Lemma decode_serialnr_decoded (registers : list Z) (decoded : string) :
  decoded_text registers = Some decoded ->
  decode_serialnr registers false = inr decoded
  /\ decode_serialnr registers true
     = inr (string_of_list_byte (swap_pairs (list_byte_of_string decoded)))
  /\ Nat.even (length (list_byte_of_string decoded)) = true.
Proof.
  unfold decoded_text, decode_serialnr.
  destruct (fromRegisters registers) as [payload|] eqn:Ep; [|discriminate].
  pose proof (decode_string_even _ _ Ep) as Heven.
  cbn [mbind option_bind]. generalize dependent (decode_string 14 payload).
  intros bs Heven Hd. rewrite Hd.
  unfold decode_ascii in Hd.
  destruct (forallb is_ascii bs) eqn:Ea; [|discriminate].
  injection Hd as <-.
  rewrite list_byte_of_string_of_list_byte.
  split; [reflexivity|]. split; [|exact Heven].
  unfold encode_ascii. cbv zeta. rewrite list_byte_of_string_of_list_byte, Ea.
  cbn [mbind option_bind]. rewrite (swap_slices_even _ Heven).
  cbn [mbind option_bind]. unfold decode_ascii.
  by rewrite (swap_pairs_forallb _ _ Heven), Ea.
Qed.

Lemma _read_serialnr_decoded (hub : Hub) (address : Z) (swapbytes : bool)
    (registers : list Z) (res : string) (_LOGGER : log) :
  read_holding_registers hub (_modbus_addr hub) address 7 = Some (ReadResponse registers) ->
  decode_serialnr registers swapbytes = inr res ->
  (_read_serialnr hub address swapbytes _LOGGER).1.1 = Some res
  /\ seriesnumber (_read_serialnr hub address swapbytes _LOGGER).1.2 = Some res.
Proof.
  intros Hr Hd. unfold _read_serialnr. rewrite Hr, Hd. by split.
Qed.

(** C6, as the code has it.  On registers that decode to ASCII text, the
    reader returns that text unchanged when [swapbytes] is false, and with
    characters [2i] and [2i+1] exchanged for all [i] when it is true: the
    result is a function of the text alone, has its length, and raw text
    ["PSE1..."] comes out as ["SP1E..."]. *)
Theorem read_serialnr_swapbytes
    (hub : Hub) (address : Z) (registers : list Z) (decoded : string) (_LOGGER : log) :
  read_holding_registers hub (_modbus_addr hub) address 7 = Some (ReadResponse registers) ->
  decoded_text registers = Some decoded ->
  (_read_serialnr hub address false _LOGGER).1.1 = Some decoded
  /\ exists swapped,
       (_read_serialnr hub address true _LOGGER).1.1 = Some swapped
       /\ swapped = string_of_list_ascii (swap_pairs (list_ascii_of_string decoded))
       /\ String.length swapped = String.length decoded
       /\ (forall i : nat,
             String.get (2 * i) swapped = String.get (2 * i + 1) decoded
             /\ String.get (2 * i + 1) swapped = String.get (2 * i) decoded)
       /\ (startswith decoded "PSE1" = true -> startswith swapped "SP1E" = true).
Proof.
  intros Hr Hd.
  destruct (decode_serialnr_decoded registers decoded Hd) as (Hfalse & Htrue & Heven).
  split; [exact (proj1 (_read_serialnr_decoded hub address false registers _ _LOGGER Hr Hfalse))|].
  exists (string_of_list_byte (swap_pairs (list_byte_of_string decoded))).
  split; [exact (proj1 (_read_serialnr_decoded hub address true registers _ _LOGGER Hr Htrue))|].
  assert (Hlist : string_of_list_byte (swap_pairs (list_byte_of_string decoded))
                  = string_of_list_ascii (swap_pairs (list_ascii_of_string decoded))).
  { unfold string_of_list_byte. rewrite <- (swap_pairs_map _ _ Heven). f_equal. f_equal.
    rewrite <- (string_of_list_byte_of_string decoded) at 2.
    unfold string_of_list_byte. by rewrite list_ascii_of_string_of_list_ascii. }
  split; [exact Hlist|]. split; [|split].
  - rewrite length_string_of_list_byte, (swap_pairs_length _ Heven).
    rewrite <- (string_of_list_byte_of_string decoded) at 2.
    by rewrite length_string_of_list_byte.
  - intros i.
    rewrite <- (string_of_list_byte_of_string decoded) at 2 4.
    rewrite !get_string_of_list_byte.
    destruct (swap_pairs_lookup _ Heven i) as [-> ->]. by split.
  - rewrite Hlist. intros H. apply startswith_spec in H as [rest ->]. reflexivity.
Qed.

Lemma read_serialnr_swapbytes_witness :
  (read_holding_registers (example_hub (Some (ReadResponse registers_SP1_swapped)) None)
     (_modbus_addr (example_hub (Some (ReadResponse registers_SP1_swapped)) None)) 0x445 7
   = Some (ReadResponse registers_SP1_swapped)
   /\ decoded_text registers_SP1_swapped = Some "PSE11S026NBADC"%string)
  /\ (_read_serialnr (example_hub (Some (ReadResponse registers_SP1_swapped)) None)
        0x445 false []).1.1 = Some "PSE11S026NBADC"%string.
Proof.
  split; [split; reflexivity|].
  exact (proj1 (read_serialnr_swapbytes
                  (example_hub (Some (ReadResponse registers_SP1_swapped)) None)
                  0x445 registers_SP1_swapped "PSE11S026NBADC" [] eq_refl eq_refl)).
Defined.

Example read_serialnr_swapped_SP1 :
  serialnr_at (example_hub (Some (ReadResponse registers_SP1_swapped)) None) 0x445 true
  = Some "SP1ES120N6ABCD"%string.
Proof. reflexivity. Qed.

(** C6, as the claim has it, fails in its example: registers whose raw
    text is ["PS1E..."] are returned by a byte-swapping read as
    ["SPE1..."], which does not begin with ["SP1E"]. *)
Lemma swapped_PS1E_is_not_SP1E :
  decoded_text registers_PS1 = Some "PS1ES120N6ABCD"%string
  /\ startswith "PS1ES120N6ABCD" "PS1E" = true
  /\ serialnr_at (example_hub (Some (ReadResponse registers_PS1)) None) 0x445 true
     = Some "SPE11S026NBADC"%string
  /\ startswith "SPE11S026NBADC" "SP1E" = false.
Proof. repeat split; reflexivity. Qed.

(** ** Computed sensor values *)

Lemma float_of_int_error (n : Z) (e : exception) :
  float_of_int n = inl e -> e = OverflowError.
Proof.
  unfold float_of_int.
  destruct (SpecFloat.binary_normalize 53 1024 n 0 false); congruence.
Qed.

Lemma number_add_no_KeyError (a b : number) : is_KeyError (number_add a b) = false.
Proof.
  unfold number_add, coerce. destruct a as [n|x], b as [m|y]; try reflexivity.
  - destruct (float_of_int n) as [e|x] eqn:E; [|reflexivity].
    by rewrite (float_of_int_error n e E).
  - destruct (float_of_int m) as [e|y] eqn:E; [|reflexivity].
    by rewrite (float_of_int_error m e E).
Qed.

(** C3, as the code has it.  [value_function_grid_import] and
    [value_function_grid_export] end in [KeyError "feedin_power"] when that
    key is absent; [value_function_house_load] ends in
    [KeyError "inverter_load"] when that key is absent, and in
    [KeyError "feedin_power"] when only ["feedin_power"] is.
    [value_function_pv_total_power] never ends in a [KeyError]: an absent
    key counts as the integer 0, so it is the sum of what is there, and 0
    on a mapping with neither key. *)
Theorem missing_dependency_raises {I D : Type} (initval : I) (descr : D)
    (datadict : gmap string number) :
  (datadict !! "feedin_power"%string = None ->
     value_function_grid_import initval descr datadict = inl (KeyError "feedin_power")
     /\ value_function_grid_export initval descr datadict = inl (KeyError "feedin_power")
     /\ value_function_house_load initval descr datadict
        = inl (KeyError (match datadict !! "inverter_load"%string with
                         | Some _ => "feedin_power"
                         | None => "inverter_load"
                         end)))
  /\ (datadict !! "inverter_load"%string = None ->
        value_function_house_load initval descr datadict = inl (KeyError "inverter_load"))
  /\ is_KeyError (value_function_pv_total_power initval descr datadict) = false
  /\ value_function_pv_total_power initval descr datadict
     = number_add (default (PyInt 0) (datadict !! "pv_power_1"%string))
                  (default (PyInt 0) (datadict !! "pv_power_2"%string))
  /\ (datadict !! "pv_power_1"%string = None -> datadict !! "pv_power_2"%string = None ->
      value_function_pv_total_power initval descr datadict = inr (PyInt 0)).
Proof.
  unfold value_function_grid_import, value_function_grid_export,
    value_function_house_load, value_function_pv_total_power, getitem, get.
  split; [|split; [|split; [|split]]].
  - intros ->. repeat split. by destruct (datadict !! "inverter_load"%string).
  - by intros ->.
  - apply number_add_no_KeyError.
  - by destruct (datadict !! "pv_power_1"%string), (datadict !! "pv_power_2"%string).
  - by intros -> ->.
Qed.

Lemma missing_dependency_raises_witness :
  (({[ "inverter_load"%string := float_9 ]} : gmap string number) !! "feedin_power"%string
   = None)
  /\ value_function_grid_import 0 tt
       ({[ "inverter_load"%string := float_9 ]} : gmap string number)
     = inl (KeyError "feedin_power")
  /\ value_function_house_load 0 tt
       ({[ "inverter_load"%string := float_9 ]} : gmap string number)
     = inl (KeyError "feedin_power").
Proof.
  assert (H : ({[ "inverter_load"%string := float_9 ]} : gmap string number)
                !! "feedin_power"%string = None) by reflexivity.
  split; [exact H|].
  destruct (proj1 (missing_dependency_raises 0 tt
                     ({[ "inverter_load"%string := float_9 ]} : gmap string number)) H)
    as (Hi & _ & Hh).
  split; [exact Hi | exact Hh].
Defined.

(** C3, as the claim has it, fails: [value_function_pv_total_power] is one
    of the derived functions, both keys it reads are absent from the empty
    mapping, and it returns 0 there instead of raising. *)
Lemma pv_total_power_substitutes_default :
  ~ (forall f : derived Z unit, f ∈ derived_functions Z unit ->
     forall (initval : Z) (descr : unit) (datadict : gmap string number) (key : string),
       key ∈ reads f -> datadict !! key = None ->
       is_KeyError (eval f initval descr datadict) = true).
Proof.
  intros H.
  specialize (H {| reads := ["pv_power_1"; "pv_power_2"]%string;
                   eval := value_function_pv_total_power |}).
  specialize (H ltac:(apply list_elem_of_here) 0 tt ∅ "pv_power_1"%string
                ltac:(apply list_elem_of_here) eq_refl).
  discriminate H.
Qed.

(** *** Comparing and subtracting numbers *)

Lemma compare_float_int_sign (s : bool) (m : positive) (e : Z) :
  compare_float_int (SpecFloat.S754_finite s m e) 0 = Some (if s then Lt else Gt).
Proof.
  unfold compare_float_int. f_equal.
  destruct (Z.leb_spec 0 e) as [He|He].
  - pose proof (Z.pow_pos_nonneg 2 e ltac:(lia) He).
    destruct s; [apply Z.compare_lt_iff | apply Z.compare_gt_iff]; nia.
  - rewrite Z.mul_0_l. by destruct s.
Qed.

Lemma SFcompare_refl (x : SpecFloat.spec_float) :
  x <> SpecFloat.S754_nan -> SpecFloat.SFcompare x x = Some Eq.
Proof.
  destruct x as [s|s| |s m e]; intros Hx; try (by destruct s); [done|].
  unfold SpecFloat.SFcompare. rewrite Z.compare_refl, Pos.compare_cont_refl.
  by destruct s.
Qed.

Lemma same_value_refl (v : number) : same_value v v = true.
Proof.
  unfold same_value, number_eq, number_compare. destruct v as [n|x].
  - by rewrite Z.compare_refl.
  - destruct x as [s|s| |s m e]; [| |reflexivity|];
      by rewrite SFcompare_refl.
Qed.

Lemma SFsub_zero_r (x : SpecFloat.spec_float) :
  SpecFloat.SFsub 53 1024 x (SpecFloat.S754_zero false) = x.
Proof. by destruct x as [[]|[]| |s m e]. Qed.

Lemma SFsub_negative (x : SpecFloat.spec_float) (m : positive) (e : Z) :
  SpecFloat.SFsub 53 1024 x (SpecFloat.S754_finite true m e)
  = SpecFloat.SFadd 53 1024 x (SpecFloat.S754_finite false m e).
Proof.
  destruct x as [s|s| |s mx ex]; reflexivity.
Qed.

(** C10, as the code has it.  With ["feedin_power"] present at a number [v]
    that is not NaN -- an [int] or a [float] -- the grid export is [v] when
    [v > 0] and 0 otherwise, the grid import is [abs(v)] when [v < 0] and 0
    otherwise; both are at least 0, one of them equals 0, and export minus
    import equals [v]. *)
Theorem grid_import_export {I D : Type} (initval : I) (descr : D)
    (datadict : gmap string number) (v : number) :
  datadict !! "feedin_power"%string = Some v ->
  is_nan v = false ->
  exists export import difference : number,
    value_function_grid_export initval descr datadict = inr export
    /\ value_function_grid_import initval descr datadict = inr import
    /\ export = (if number_gt v (PyInt 0) then v else PyInt 0)
    /\ import = (if number_lt v (PyInt 0) then number_abs v else PyInt 0)
    /\ number_le (PyInt 0) export = true
    /\ number_le (PyInt 0) import = true
    /\ (number_eq export (PyInt 0) = true \/ number_eq import (PyInt 0) = true)
    /\ number_sub export import = inr difference
    /\ number_eq difference v = true.
Proof.
  intros Hv Hnan.
  unfold value_function_grid_export, value_function_grid_import, getitem. rewrite Hv.
  destruct v as [n|x].
  - unfold number_gt, number_lt, number_le, number_eq, number_compare.
    destruct (Z.compare_spec n 0) as [->|Hn|Hn].
    + exists (PyInt 0), (PyInt 0), (PyInt 0). repeat split; auto.
    + exists (PyInt 0), (PyInt (Z.abs n)), (PyInt (0 - Z.abs n)).
      cbn [number_abs number_sub coerce].
      replace (0 ?= Z.abs n) with Lt by (symmetry; apply Z.compare_lt_iff; lia).
      replace (0 - Z.abs n ?= n) with Eq by (symmetry; apply Z.compare_eq_iff; lia).
      repeat split; auto.
    + exists (PyInt n), (PyInt 0), (PyInt (n - 0)).
      cbn [number_abs number_sub coerce].
      replace (0 ?= n) with Lt by (symmetry; apply Z.compare_lt_iff; lia).
      replace (n - 0 ?= n) with Eq by (symmetry; apply Z.compare_eq_iff; lia).
      repeat split; auto.
  - destruct x as [s|s| |s m e]; [| | discriminate Hnan |].
    + exists (PyInt 0), (PyInt 0), (PyInt 0). by destruct s; repeat split; auto.
    + destruct s.
      * exists (PyInt 0), (PyFloat (SpecFloat.S754_infinity false)),
          (PyFloat (SpecFloat.S754_infinity true)). repeat split; auto.
      * exists (PyFloat (SpecFloat.S754_infinity false)), (PyInt 0),
          (PyFloat (SpecFloat.S754_infinity false)). repeat split; auto.
    + assert (Hself : SpecFloat.SFcompare (SpecFloat.S754_finite s m e)
                        (SpecFloat.S754_finite s m e) = Some Eq)
        by (by apply SFcompare_refl).
      unfold number_gt, number_lt, number_le, number_eq, number_compare.
      rewrite !compare_float_int_sign. destruct s.
      * exists (PyInt 0), (PyFloat (SpecFloat.S754_finite false m e)),
          (PyFloat (SpecFloat.S754_finite true m e)).
        cbn [number_abs SpecFloat.SFabs fmap option_fmap option_map CompOpp].
        rewrite !compare_float_int_sign, Hself.
        repeat split; auto.
      * exists (PyFloat (SpecFloat.S754_finite false m e)), (PyInt 0),
          (PyFloat (SpecFloat.S754_finite false m e)).
        cbn [fmap option_fmap option_map CompOpp].
        rewrite !compare_float_int_sign, Hself.
        repeat split; auto.
Qed.

Lemma grid_import_export_witness :
  (({[ "feedin_power"%string := float_minus_half ]} : gmap string number)
     !! "feedin_power"%string = Some float_minus_half
   /\ is_nan float_minus_half = false)
  /\ value_function_grid_export 0 tt
       ({[ "feedin_power"%string := float_minus_half ]} : gmap string number)
     = inr (PyInt 0)
  /\ value_function_grid_import 0 tt
       ({[ "feedin_power"%string := float_minus_half ]} : gmap string number)
     = inr float_half.
Proof.
  assert (Hv : ({[ "feedin_power"%string := float_minus_half ]} : gmap string number)
                 !! "feedin_power"%string = Some float_minus_half) by reflexivity.
  assert (Hn : is_nan float_minus_half = false) by reflexivity.
  split; [by split|].
  destruct (grid_import_export 0 tt _ float_minus_half Hv Hn)
    as (export & import & difference & He & Hi & -> & -> & _).
  split; [exact He | exact Hi].
Defined.

(** C10, as the claim has it, fails for the number NaN: both functions
    return 0 there, and 0 minus 0 does not equal NaN. *)
Lemma grid_balance_fails_at_nan :
  ({[ "feedin_power"%string := float_nan ]} : gmap string number) !! "feedin_power"%string
  = Some float_nan
  /\ value_function_grid_export 0 tt
       ({[ "feedin_power"%string := float_nan ]} : gmap string number) = inr (PyInt 0)
  /\ value_function_grid_import 0 tt
       ({[ "feedin_power"%string := float_nan ]} : gmap string number) = inr (PyInt 0)
  /\ number_sub (PyInt 0) (PyInt 0) = inr (PyInt 0)
  /\ number_eq (PyInt 0) float_nan = false.
Proof. repeat split; reflexivity. Qed.

(** * Further properties *)

(** ** Matching: how masks combine *)

Lemma matchInverterWithMask_forallb inverterspec entitymask serialnumber blacklist :
  matchInverterWithMask inverterspec entitymask serialnumber blacklist
  = forallb (group_test inverterspec entitymask) ALL_GROUPS
    && negb (blacklisted_flag serialnumber blacklist).
Proof.
  unfold matchInverterWithMask, ALL_GROUPS, group_test. cbn [forallb].
  by rewrite andb_true_r, !andb_assoc.
Qed.

Lemma group_test_monotone inverterspec inverterspec' entitymask group :
  Z.land inverterspec inverterspec' = inverterspec ->
  group_test inverterspec entitymask group = true ->
  group_test inverterspec' entitymask group = true.
Proof.
  unfold group_test. intros Hsub.
  rewrite !orb_true_iff, !negb_true_iff, !Z.eqb_neq, !Z.eqb_eq.
  intros [Hne|Hz]; [left | by right].
  intros Hz. apply Hne.
  rewrite <- Hsub, <- !Z.land_assoc, (Z.land_assoc inverterspec' entitymask group), Hz.
  apply Z.land_0_r.
Qed.

(** X1. Capabilities only add matches: when every capability bit of one
    device is also set for another, each entity mask that matches the
    first matches the second, for the same serial number and blacklist. *)
Theorem more_capabilities_keep_match
    (inverterspec inverterspec' entitymask : Z) (serialnumber : string)
    (blacklist : option (list string)) :
  Z.land inverterspec inverterspec' = inverterspec ->
  matchInverterWithMask inverterspec entitymask serialnumber blacklist = true ->
  matchInverterWithMask inverterspec' entitymask serialnumber blacklist = true.
Proof.
  intros Hsub. rewrite !matchInverterWithMask_forallb, !andb_true_iff, !forallb_forall.
  intros [Hg Hb]. split; [|exact Hb].
  intros group Hin. eapply group_test_monotone; [exact Hsub | by apply Hg].
Qed.

Lemma more_capabilities_keep_match_witness :
  Z.land (Z.lor HYBRID X3) (Z.lor (Z.lor (Z.lor HYBRID X3) GEN) EPS) = Z.lor HYBRID X3
  /\ matchInverterWithMask (Z.lor HYBRID X3) HYBRID "SP1ES120N6ABCD" None = true
  /\ matchInverterWithMask (Z.lor (Z.lor (Z.lor HYBRID X3) GEN) EPS) HYBRID
       "SP1ES120N6ABCD" None = true.
Proof.
  split; [reflexivity|]. split; [reflexivity|].
  exact (more_capabilities_keep_match (Z.lor HYBRID X3)
           (Z.lor (Z.lor (Z.lor HYBRID X3) GEN) EPS) HYBRID "SP1ES120N6ABCD" None
           eq_refl eq_refl).
Defined.

Lemma forallb_andb_pointwise {A} (f f1 f2 : A -> bool) (l : list A) :
  (forall x, x ∈ l -> f x = f1 x && f2 x) ->
  forallb f l = forallb f1 l && forallb f2 l.
Proof.
  induction l as [|x l IH]; intros H; [reflexivity|]. cbn [forallb].
  rewrite (H x) by apply list_elem_of_here.
  rewrite IH by (intros y Hy; apply H; by apply list_elem_of_further).
  destruct (f1 x), (f2 x), (forallb f1 l), (forallb f2 l); reflexivity.
Qed.

Lemma forallb_single {A} `{EqDecision A} (f : A -> bool) (l : list A) (x : A) :
  x ∈ l -> (forall y, y ∈ l -> y <> x -> f y = true) -> forallb f l = f x.
Proof.
  intros Hin Hother. destruct (f x) eqn:Ex.
  - apply forallb_forall. intros y Hy%list_elem_of_In.
    destruct (decide (y = x)) as [->|Hne]; [exact Ex | by apply Hother].
  - apply not_true_is_false. rewrite forallb_forall. intros H.
    specialize (H x ltac:(by apply list_elem_of_In)). congruence.
Qed.

Lemma group_test_wildcard inverterspec entitymask group :
  Z.land entitymask group = 0 -> group_test inverterspec entitymask group = true.
Proof. unfold group_test. intros ->. by rewrite orb_true_r. Qed.

Lemma group_test_lor_other inverterspec m1 m2 group :
  Z.land m2 group = 0 ->
  group_test inverterspec (Z.lor m1 m2) group = group_test inverterspec m1 group.
Proof.
  intros H. unfold group_test.
  rewrite <- !Z.land_assoc, Z.land_lor_distr_l, H, Z.lor_0_r. reflexivity.
Qed.

(** X2. Groups are combined by AND: when two entity masks have no group in
    common, their union matches a device exactly when both of them do. *)
Theorem masks_of_different_groups_conjoin
    (inverterspec m1 m2 : Z) (serialnumber : string) (blacklist : option (list string)) :
  (forall group, group ∈ ALL_GROUPS -> Z.land m1 group = 0 \/ Z.land m2 group = 0) ->
  matchInverterWithMask inverterspec (Z.lor m1 m2) serialnumber blacklist
  = matchInverterWithMask inverterspec m1 serialnumber blacklist
    && matchInverterWithMask inverterspec m2 serialnumber blacklist.
Proof.
  intros Hdisj. rewrite !matchInverterWithMask_forallb.
  rewrite (forallb_andb_pointwise _ (group_test inverterspec m1) (group_test inverterspec m2)).
  - destruct (forallb _ _), (forallb _ _), (blacklisted_flag _ _); reflexivity.
  - intros group Hin. destruct (Hdisj group Hin) as [H1|H2].
    + rewrite (Z.lor_comm m1 m2), (group_test_lor_other _ _ _ _ H1).
      by rewrite (group_test_wildcard _ m1 _ H1).
    + rewrite (group_test_lor_other _ _ _ _ H2).
      by rewrite (group_test_wildcard _ m2 _ H2), andb_true_r.
Qed.

Lemma masks_of_different_groups_conjoin_witness :
  (forall group, group ∈ ALL_GROUPS ->
     Z.land (Z.lor HYBRID PV) group = 0 \/ Z.land GEN group = 0)
  /\ matchInverterWithMask (Z.lor PV X1) (Z.lor (Z.lor HYBRID PV) GEN) "SA1" None
     = matchInverterWithMask (Z.lor PV X1) (Z.lor HYBRID PV) "SA1" None
       && matchInverterWithMask (Z.lor PV X1) GEN "SA1" None.
Proof.
  assert (H : forall group, group ∈ ALL_GROUPS ->
                Z.land (Z.lor HYBRID PV) group = 0 \/ Z.land GEN group = 0).
  { intros group Hin. unfold ALL_GROUPS in Hin.
    repeat (apply elem_of_cons in Hin as [->|Hin]; [(by left) || (by right)|]).
    by apply elem_of_nil in Hin. }
  split; [exact H|].
  exact (masks_of_different_groups_conjoin (Z.lor PV X1) (Z.lor HYBRID PV) GEN "SA1" None H).
Defined.

Lemma groups_disjoint (g g' : Z) :
  g ∈ ALL_GROUPS -> g' ∈ ALL_GROUPS -> g' <> g -> Z.land g g' = 0.
Proof.
  unfold ALL_GROUPS. intros Hg Hg' Hne.
  repeat (apply elem_of_cons in Hg as [->|Hg]);
    try (by apply elem_of_nil in Hg);
    repeat (apply elem_of_cons in Hg' as [->|Hg']);
    try (by apply elem_of_nil in Hg'); try reflexivity; by destruct Hne.
Qed.

Lemma group_test_inside inverterspec m group :
  Z.land m group = m -> m <> 0 ->
  group_test inverterspec m group = negb (Z.land inverterspec m =? 0).
Proof.
  intros Hin Hne. unfold group_test.
  rewrite <- Z.land_assoc, Hin.
  apply Z.eqb_neq in Hne. rewrite Hne. apply orb_false_r.
Qed.

Lemma forallb_group_test_inside inverterspec m group :
  group ∈ ALL_GROUPS -> Z.land m group = m -> m <> 0 ->
  forallb (group_test inverterspec m) ALL_GROUPS = negb (Z.land inverterspec m =? 0).
Proof.
  intros Hg Hin Hne.
  rewrite (forallb_single _ _ group Hg); [by apply group_test_inside|].
  intros g' Hg' Hdiff. apply group_test_wildcard.
  rewrite <- Hin, <- Z.land_assoc, (groups_disjoint group g' Hg Hg' Hdiff).
  apply Z.land_0_r.
Qed.

(** X3. Within a group the bits are alternatives: for two non-zero entity
    masks that lie inside the same group, their union matches a device
    exactly when one of them does. *)
Theorem masks_of_one_group_are_alternatives
    (inverterspec m1 m2 group : Z) (serialnumber : string)
    (blacklist : option (list string)) :
  group ∈ ALL_GROUPS ->
  Z.land m1 group = m1 -> Z.land m2 group = m2 -> m1 <> 0 -> m2 <> 0 ->
  matchInverterWithMask inverterspec (Z.lor m1 m2) serialnumber blacklist
  = matchInverterWithMask inverterspec m1 serialnumber blacklist
    || matchInverterWithMask inverterspec m2 serialnumber blacklist.
Proof.
  intros Hg H1 H2 Hn1 Hn2. rewrite !matchInverterWithMask_forallb.
  rewrite (forallb_group_test_inside _ m1 group), (forallb_group_test_inside _ m2 group)
    by assumption.
  rewrite (forallb_group_test_inside _ (Z.lor m1 m2) group); [|exact Hg| |].
  - rewrite Z.land_lor_distr_r.
    destruct (Z.eqb_spec (Z.land inverterspec m1) 0) as [E1|E1],
             (Z.eqb_spec (Z.land inverterspec m2) 0) as [E2|E2],
             (Z.eqb_spec (Z.lor (Z.land inverterspec m1) (Z.land inverterspec m2)) 0)
               as [E|E];
      rewrite ?Z.lor_eq_0_iff in E; destruct (blacklisted_flag _ _); simpl;
      try reflexivity; tauto.
  - by rewrite Z.land_lor_distr_l, H1, H2.
  - rewrite Z.lor_eq_0_iff. tauto.
Qed.

Lemma masks_of_one_group_are_alternatives_witness :
  (ALL_TYPE_GROUP ∈ ALL_GROUPS
   /\ Z.land HYBRID ALL_TYPE_GROUP = HYBRID /\ Z.land PV ALL_TYPE_GROUP = PV
   /\ HYBRID <> 0 /\ PV <> 0)
  /\ matchInverterWithMask (Z.lor PV X1) (Z.lor HYBRID PV) "SA1" None
     = matchInverterWithMask (Z.lor PV X1) HYBRID "SA1" None
       || matchInverterWithMask (Z.lor PV X1) PV "SA1" None.
Proof.
  assert (Hg : ALL_TYPE_GROUP ∈ ALL_GROUPS)
    by (unfold ALL_GROUPS; apply list_elem_of_further, list_elem_of_further,
          list_elem_of_here).
  assert (Hh : HYBRID <> 0) by discriminate.
  assert (Hp : PV <> 0) by discriminate.
  split; [by repeat split|].
  exact (masks_of_one_group_are_alternatives (Z.lor PV X1) HYBRID PV ALL_TYPE_GROUP
           "SA1" None Hg eq_refl eq_refl Hh Hp).
Defined.

Lemma group_inside_ALL_BITS (group : Z) :
  group ∈ ALL_GROUPS -> Z.land group ALL_BITS = group.
Proof.
  unfold ALL_GROUPS. intros Hg.
  repeat (apply elem_of_cons in Hg as [->|Hg]; [reflexivity|]).
  by apply elem_of_nil in Hg.
Qed.

Lemma group_test_restrict inverterspec entitymask group :
  Z.land group ALL_BITS = group ->
  group_test (Z.land inverterspec ALL_BITS) (Z.land entitymask ALL_BITS) group
  = group_test inverterspec entitymask group.
Proof.
  intros Hg. unfold group_test.
  assert (H1 : Z.land (Z.land (Z.land inverterspec ALL_BITS) (Z.land entitymask ALL_BITS)) group
               = Z.land (Z.land inverterspec entitymask) group).
  { apply Z.bits_inj'. intros n _. rewrite !Z.land_spec.
    assert (Hn : Z.testbit group n = Z.testbit group n && Z.testbit ALL_BITS n)
      by (by rewrite <- Z.land_spec, Hg).
    destruct (Z.testbit inverterspec n), (Z.testbit entitymask n),
      (Z.testbit group n), (Z.testbit ALL_BITS n); simpl in *; congruence. }
  assert (H2 : Z.land (Z.land entitymask ALL_BITS) group = Z.land entitymask group)
    by (by rewrite <- Z.land_assoc, (Z.land_comm ALL_BITS), Hg).
  by rewrite H1, H2.
Qed.

Lemma forallb_pointwise {A} (f g : A -> bool) (l : list A) :
  (forall x, x ∈ l -> f x = g x) -> forallb f l = forallb g l.
Proof.
  induction l as [|x l IH]; intros H; [reflexivity|]. cbn [forallb].
  rewrite (H x) by apply list_elem_of_here.
  by rewrite IH by (intros y Hy; apply H; by apply list_elem_of_further).
Qed.

(** X4. Only the bits of the six groups count: clearing every other bit
    (the unassigned bits [0x00F0] and [0x4000], everything above [PM], the
    sign) in the device capabilities and in the entity mask leaves the
    result unchanged. *)
Theorem bits_outside_groups_are_ignored
    (inverterspec entitymask : Z) (serialnumber : string)
    (blacklist : option (list string)) :
  matchInverterWithMask (Z.land inverterspec ALL_BITS) (Z.land entitymask ALL_BITS)
    serialnumber blacklist
  = matchInverterWithMask inverterspec entitymask serialnumber blacklist
  /\ ALL_BITS = 0x3BF0F.
Proof.
  split; [|reflexivity]. rewrite !matchInverterWithMask_forallb. f_equal.
  apply forallb_pointwise. intros group Hin.
  apply group_test_restrict, group_inside_ALL_BITS, Hin.
Qed.

(** ** Matching: the blacklist *)

Lemma existsb_permutation {A} (f : A -> bool) (l l' : list A) :
  l ≡ₚ l' -> existsb f l = existsb f l'.
Proof.
  induction 1 as [|x l l' _ IH|x y l|l l' l'' _ IH1 _ IH2]; simpl.
  - reflexivity.
  - by rewrite IH.
  - by destruct (f x), (f y).
  - by rewrite IH1.
Qed.

(** X5. The blacklist is a set of prefixes: two lists with the same
    entries in another order give the same result, and a concatenated list
    matches exactly when the device passes both parts. *)
Theorem blacklist_is_order_free_union
    (inverterspec entitymask : Z) (serialnumber : string) (l1 l2 l : list string) :
  (l ≡ₚ l1 ++ l2 ->
   matchInverterWithMask inverterspec entitymask serialnumber (Some l)
   = matchInverterWithMask inverterspec entitymask serialnumber (Some l1)
     && matchInverterWithMask inverterspec entitymask serialnumber (Some l2))
  /\ (l ≡ₚ l1 ->
      matchInverterWithMask inverterspec entitymask serialnumber (Some l)
      = matchInverterWithMask inverterspec entitymask serialnumber (Some l1)).
Proof.
  rewrite !matchInverterWithMask_forallb, !blacklisted_flag_existsb.
  cbn [default from_option id].
  split; intros Hp; rewrite (existsb_permutation _ _ _ Hp); [|reflexivity].
  rewrite existsb_app.
  destruct (forallb _ _), (existsb _ l1), (existsb _ l2); reflexivity.
Qed.

Lemma blacklist_is_order_free_union_witness :
  (["SP2"; "ZM1E"; "SP1"]%string ≡ₚ ["SP1"; "SP2"]%string ++ ["ZM1E"]%string)
  /\ matchInverterWithMask HYBRID HYBRID "ZM1ES" (Some ["SP2"; "ZM1E"; "SP1"]%string)
     = matchInverterWithMask HYBRID HYBRID "ZM1ES" (Some ["SP1"; "SP2"]%string)
       && matchInverterWithMask HYBRID HYBRID "ZM1ES" (Some ["ZM1E"]%string).
Proof.
  assert (Hp : ["SP2"; "ZM1E"; "SP1"]%string ≡ₚ ["SP1"; "SP2"]%string ++ ["ZM1E"]%string).
  { cbn [app]. etrans; [apply perm_skip, perm_swap|]. apply perm_swap. }
  split; [exact Hp|].
  exact (proj1 (blacklist_is_order_free_union HYBRID HYBRID "ZM1ES"
                  ["SP1"; "SP2"]%string ["ZM1E"]%string ["SP2"; "ZM1E"; "SP1"]%string) Hp).
Defined.

(** X6. The empty string is a prefix of every serial number: a blacklist
    that contains it rejects every device, whatever the masks. *)
Theorem empty_blacklist_entry_rejects_all
    (inverterspec entitymask : Z) (serialnumber : string) (entries : list string) :
  EmptyString ∈ entries ->
  matchInverterWithMask inverterspec entitymask serialnumber (Some entries) = false.
Proof.
  intros Hin. rewrite matchInverterWithMask_forallb.
  replace (blacklisted_flag serialnumber (Some entries)) with true;
    [apply andb_false_r|].
  symmetry. apply blacklisted_flag_true. exists EmptyString. split; [exact Hin|].
  by exists serialnumber.
Qed.

Lemma empty_blacklist_entry_rejects_all_witness :
  EmptyString ∈ ["ZM1E"; ""]%string
  /\ matchInverterWithMask HYBRID 0 "SP1ES120N6ABCD" (Some ["ZM1E"; ""]%string) = false.
Proof.
  assert (Hin : EmptyString ∈ ["ZM1E"; ""]%string)
    by apply list_elem_of_further, list_elem_of_here.
  split; [exact Hin|].
  exact (empty_blacklist_entry_rejects_all HYBRID 0 "SP1ES120N6ABCD"
           ["ZM1E"; ""]%string Hin).
Defined.

(** ** Matching: arguments of other types *)

(** With integer masks, the call is decided by the statements of lines
    59-62: their exception, or the flag they leave in [blacklisted]. *)
Lemma untyped_match_int_masks (inverterspec entitymask : Z)
    (serialnumber blacklist : Dyn.value) (h h' : Dyn.heap) (r : Dyn.exn + Dyn.value) :
  Dyn.bind (Dyn.truthy blacklist)
    (fun t : bool =>
       if t
       then Dyn.bind (Dyn.iterate blacklist)
              (fun items => Dyn.blacklist_loop serialnumber items (Dyn.VBool false))
       else Dyn.ret (Dyn.VBool false)) h = (r, h') ->
  Dyn.matchInverterWithMask (Dyn.VInt inverterspec) (Dyn.VInt entitymask)
    serialnumber blacklist h
  = match r with
    | inl e => (inl e, h')
    | inr (Dyn.VBool blacklisted) =>
        (inr (Dyn.VBool (forallb (group_test inverterspec entitymask) ALL_GROUPS
                         && negb blacklisted)), h')
    | inr v =>
        Dyn.bind
          (Dyn.and_ (Dyn.VBool (group_test inverterspec entitymask ALL_GEN_GROUP))
             (Dyn.and_ (Dyn.VBool (group_test inverterspec entitymask ALL_X_GROUP))
                (Dyn.and_ (Dyn.VBool (group_test inverterspec entitymask ALL_TYPE_GROUP))
                   (Dyn.and_ (Dyn.VBool (group_test inverterspec entitymask ALL_EPS_GROUP))
                      (Dyn.and_ (Dyn.VBool (group_test inverterspec entitymask ALL_DCB_GROUP))
                         (Dyn.ret (Dyn.VBool
                            (group_test inverterspec entitymask ALL_PM_GROUP))))))))
          (fun groups => Dyn.and_ groups (Dyn.not_ v)) h'
    end.
Proof.
  intros Hb. unfold Dyn.matchInverterWithMask.
  do 6 (unfold Dyn.bind at 1; rewrite groupmatch_int).
  unfold Dyn.bind at 1 in Hb. unfold Dyn.bind at 1.
  destruct (Dyn.truthy blacklist h) as [[e|t] h1].
  - by injection Hb as <- <-.
  - unfold Dyn.bind at 1. rewrite Hb. destruct r as [e|v]; [reflexivity|].
    destruct v; try reflexivity.
    rewrite conjunction_bool. unfold ALL_GROUPS, group_test. cbn [forallb].
    by rewrite andb_true_r, !andb_assoc.
Qed.

Lemma truthy_heap (v : Dyn.value) (h : Dyn.heap) : (Dyn.truthy v h).2 = h.
Proof.
  destruct v; try reflexivity. unfold Dyn.truthy, Dyn.bind, Dyn.deref.
  by destruct (h !! ref).
Qed.

(** X7. Without a blacklist the serial number is not looked at: when the
    blacklist is any false value ([None], an empty list, an empty string,
    [False], 0), integer masks give the same boolean for every value
    passed as serial number, string or not, and nothing is raised. *)
Theorem serialnumber_unused_without_blacklist
    (inverterspec entitymask : Z) (serialnumber blacklist : Dyn.value) (h : Dyn.heap) :
  (Dyn.truthy blacklist h).1 = inr false ->
  Dyn.matchInverterWithMask (Dyn.VInt inverterspec) (Dyn.VInt entitymask)
    serialnumber blacklist h
  = (inr (Dyn.VBool (matchInverterWithMask_default inverterspec entitymask)), h).
Proof.
  intros Ht.
  rewrite (untyped_match_int_masks _ _ _ _ h h (inr (Dyn.VBool false))).
  - unfold matchInverterWithMask_default. by rewrite matchInverterWithMask_forallb.
  - unfold Dyn.bind at 1. pose proof (truthy_heap blacklist h) as Hh.
    destruct (Dyn.truthy blacklist h) as [[e|t] h1]; simpl in Ht, Hh; [discriminate|].
    injection Ht as ->. by subst h1.
Qed.

Lemma serialnumber_unused_without_blacklist_witness :
  (Dyn.truthy (Dyn.VList 0) {[ 0%nat := [] ]}).1 = inr false
  /\ Dyn.matchInverterWithMask (Dyn.VInt (Z.lor HYBRID X3)) (Dyn.VInt HYBRID)
       Dyn.VNone (Dyn.VList 0) {[ 0%nat := [] ]}
     = (inr (Dyn.VBool true), {[ 0%nat := [] ]}).
Proof.
  split; [reflexivity|].
  exact (serialnumber_unused_without_blacklist (Z.lor HYBRID X3) HYBRID
           Dyn.VNone (Dyn.VList 0) {[ 0%nat := [] ]} eq_refl).
Defined.

Lemma chars_as_strings (s : string) :
  Dyn.chars s = Dyn.VStr <$> ((fun c => String c EmptyString) <$> list_ascii_of_string s).
Proof. unfold Dyn.chars. by rewrite <- list_fmap_compose. Qed.

(** X8. A blacklist handed over as one string instead of a list of strings
    is taken character by character: the call behaves as with the list of
    its one-character strings, so ["SP1"] given as a plain string rejects
    every serial number that starts with [S], [P] or [1]. *)
Theorem string_blacklist_is_read_by_character
    (inverterspec entitymask : Z) (serialnumber blacklist : string) (h : Dyn.heap) :
  Dyn.matchInverterWithMask (Dyn.VInt inverterspec) (Dyn.VInt entitymask)
    (Dyn.VStr serialnumber) (Dyn.VStr blacklist) h
  = (inr (Dyn.VBool
            (matchInverterWithMask inverterspec entitymask serialnumber
               (Some ((fun c => String c EmptyString) <$> list_ascii_of_string blacklist)))),
     h)
  /\ matchInverterWithMask 0 0 "SA1ES" (Some ((fun c => String c EmptyString)
                                             <$> list_ascii_of_string "SP1")) = false.
Proof.
  split; [|reflexivity].
  set (entries := (fun c => String c EmptyString) <$> list_ascii_of_string blacklist).
  rewrite (untyped_match_int_masks _ _ _ _ h h
             (inr (Dyn.VBool (blacklisted_flag serialnumber (Some entries))))).
  - by rewrite matchInverterWithMask_forallb.
  - unfold Dyn.bind at 1. cbn [Dyn.truthy Dyn.ret Dyn.iterate].
    destruct blacklist as [|c blacklist]; [reflexivity|]. cbn [String.eqb negb].
    unfold Dyn.bind, Dyn.ret. rewrite chars_as_strings. fold entries.
    rewrite blacklist_loop_str. subst entries. reflexivity.
Qed.

Lemma blacklist_loop_not_str (serialnumber start : Dyn.value) (items : list Dyn.value)
    (blacklisted : Dyn.value) (h : Dyn.heap) :
  (forall s, serialnumber <> Dyn.VStr s) ->
  Dyn.blacklist_loop serialnumber (start :: items) blacklisted h = (inl Dyn.AttributeError, h).
Proof.
  intros Hs. cbn [Dyn.blacklist_loop]. unfold Dyn.bind at 1.
  destruct serialnumber; try reflexivity. by destruct (Hs s).
Qed.

Lemma blacklist_loop_bad_entry (serialnumber : string) (good : list string)
    (bad : Dyn.value) (rest : list Dyn.value) (blacklisted : bool) (h : Dyn.heap) :
  (forall s, bad <> Dyn.VStr s) ->
  Dyn.blacklist_loop (Dyn.VStr serialnumber) ((Dyn.VStr <$> good) ++ bad :: rest)
    (Dyn.VBool blacklisted) h
  = (inl Dyn.TypeError, h).
Proof.
  intros Hbad. revert blacklisted. induction good as [|start good IH]; intros b.
  - cbn [fmap list_fmap app Dyn.blacklist_loop]. unfold Dyn.bind at 1.
    destruct bad; try reflexivity. by destruct (Hbad s).
  - cbn [fmap list_fmap app Dyn.blacklist_loop]. unfold Dyn.bind at 1 2; simpl.
    destruct (startswith serialnumber start); apply IH.
Qed.

Lemma not_a_str_spec (v : Dyn.value) :
  none_bool_int_or_list v = true -> forall s, v <> Dyn.VStr s.
Proof. destruct v; intros H s'; (discriminate H || discriminate). Qed.

(** X9. With integer masks and a non-empty list as blacklist: a serial
    number that is [None], a [bool], an [int] or a list ends the call in an
    [AttributeError]; a [str] serial number with an entry that is [None],
    a [bool], an [int] or a list ends it in a [TypeError], also when an
    earlier entry already was a prefix.  The list is left as it was.
    (Tuples, which [str.startswith] accepts, and [bytes] are not among the
    values of the embedding.) *)
Theorem blacklist_type_errors
    (inverterspec entitymask : Z) (serialnumber : Dyn.value)
    (entries : list Dyn.value) (h : Dyn.heap) (ref : nat) :
  h !! ref = Some entries -> entries <> [] ->
  (none_bool_int_or_list serialnumber = true ->
   Dyn.matchInverterWithMask (Dyn.VInt inverterspec) (Dyn.VInt entitymask)
     serialnumber (Dyn.VList ref) h = (inl Dyn.AttributeError, h))
  /\ (forall sn good bad rest,
        serialnumber = Dyn.VStr sn ->
        entries = (Dyn.VStr <$> good) ++ bad :: rest ->
        none_bool_int_or_list bad = true ->
        Dyn.matchInverterWithMask (Dyn.VInt inverterspec) (Dyn.VInt entitymask)
          serialnumber (Dyn.VList ref) h = (inl Dyn.TypeError, h)).
Proof.
  intros Hh Hne.
  assert (Hrun : forall r,
            Dyn.blacklist_loop serialnumber entries (Dyn.VBool false) h = (inl r, h) ->
            Dyn.matchInverterWithMask (Dyn.VInt inverterspec) (Dyn.VInt entitymask)
              serialnumber (Dyn.VList ref) h = (inl r, h)).
  { intros r Hloop.
    apply (untyped_match_int_masks _ _ _ _ h h (inl r)).
    unfold Dyn.bind, Dyn.truthy, Dyn.iterate, Dyn.deref, Dyn.bind, Dyn.deref. rewrite Hh.
    destruct entries as [|x entries]; [done|]. cbn [Dyn.ret]. by rewrite Hh. }
  split.
  - intros Hs. apply Hrun. destruct entries as [|x entries]; [done|].
    apply blacklist_loop_not_str. by apply not_a_str_spec.
  - intros sn good bad rest -> -> Hbad. apply Hrun.
    apply blacklist_loop_bad_entry. by apply not_a_str_spec.
Qed.

Lemma blacklist_type_errors_witness :
  (({[ 0%nat := [Dyn.VStr "SP1"; Dyn.VInt 3] ]} : Dyn.heap) !! 0%nat
   = Some [Dyn.VStr "SP1"; Dyn.VInt 3]
   /\ [Dyn.VStr "SP1"; Dyn.VInt 3] <> [])
  /\ Dyn.matchInverterWithMask (Dyn.VInt HYBRID) (Dyn.VInt HYBRID) (Dyn.VStr "SP1ES")
       (Dyn.VList 0) {[ 0%nat := [Dyn.VStr "SP1"; Dyn.VInt 3] ]}
     = (inl Dyn.TypeError, {[ 0%nat := [Dyn.VStr "SP1"; Dyn.VInt 3] ]}).
Proof.
  assert (Hh : ({[ 0%nat := [Dyn.VStr "SP1"; Dyn.VInt 3] ]} : Dyn.heap) !! 0%nat
               = Some [Dyn.VStr "SP1"; Dyn.VInt 3]) by reflexivity.
  assert (Hne : [Dyn.VStr "SP1"; Dyn.VInt 3] <> []) by discriminate.
  split; [by split|].
  apply (proj2 (blacklist_type_errors HYBRID HYBRID (Dyn.VStr "SP1ES")
                  [Dyn.VStr "SP1"; Dyn.VInt 3] _ 0 Hh Hne)
           "SP1ES"%string ["SP1"%string] (Dyn.VInt 3) []); reflexivity.
Defined.

(** ** The serial number reader: what it returns *)

Lemma swapped_text_bytes (decoded : string) :
  Nat.even (length (list_byte_of_string decoded)) = true ->
  string_of_list_byte (swap_pairs (list_byte_of_string decoded)) = swapped_text decoded.
Proof.
  intros Heven. unfold swapped_text, string_of_list_byte.
  rewrite <- (swap_pairs_map _ _ Heven). f_equal. f_equal.
  rewrite <- (string_of_list_byte_of_string decoded) at 2.
  unfold string_of_list_byte. by rewrite list_ascii_of_string_of_list_ascii.
Qed.

Lemma decode_serialnr_spec (registers : list Z) (swapbytes : bool) :
  decode_serialnr registers swapbytes
  = match decoded_text registers with
    | Some decoded => inr (if swapbytes then swapped_text decoded else decoded)
    | None => inl None
    end.
Proof.
  destruct (decoded_text registers) as [decoded|] eqn:Hd.
  - destruct (decode_serialnr_decoded registers decoded Hd) as (Hf & Ht & Heven).
    destruct swapbytes; [|exact Hf]. by rewrite Ht, swapped_text_bytes.
  - unfold decoded_text in Hd. unfold decode_serialnr.
    destruct (fromRegisters registers) as [payload|]; [|reflexivity].
    cbn [mbind option_bind] in Hd. by rewrite Hd.
Qed.

(** The value returned, by what the transport does. *)
Lemma serialnr_at_spec (hub : Hub) (address : Z) (swapbytes : bool) :
  serialnr_at hub address swapbytes
  = match read_holding_registers hub (_modbus_addr hub) address 7 with
    | Some (ReadResponse registers) =>
        (fun decoded => if swapbytes then swapped_text decoded else decoded)
          <$> decoded_text registers
    | _ => None
    end.
Proof.
  unfold serialnr_at, _read_serialnr.
  destruct (read_holding_registers hub (_modbus_addr hub) address 7) as [[|registers]|];
    [reflexivity | | reflexivity].
  rewrite decode_serialnr_spec. by destruct (decoded_text registers).
Qed.

Lemma pack_H_spec (r : Z) :
  if register_in_range r
  then exists hi lo, pack_H r = Some [hi; lo]
                     /\ Byte.to_N hi = Z.to_N (r / 256)
                     /\ Byte.to_N lo = Z.to_N (r mod 256)
  else pack_H r = None.
Proof.
  unfold pack_H, register_in_range.
  destruct ((0 <=? r) && (r <=? 0xFFFF)) eqn:E; [|reflexivity].
  apply andb_true_iff in E as [H0%Z.leb_le H1%Z.leb_le].
  destruct (Byte.of_N (Z.to_N (r / 256))) as [hi|] eqn:Ehi.
  - destruct (Byte.of_N (Z.to_N (r mod 256))) as [lo|] eqn:Elo.
    + exists hi, lo. split; [reflexivity|]. split; by apply Byte.to_of_N.
    + apply Byte.of_N_None_iff in Elo.
      pose proof (Z.mod_pos_bound r 256 ltac:(lia)). lia.
  - apply Byte.of_N_None_iff in Ehi.
    assert (r / 256 < 256) by (apply Z.div_lt_upper_bound; lia). lia.
Qed.

Lemma register_bytes_length (r : Z) :
  register_in_range r = true -> length (register_bytes r) = 2%nat.
Proof.
  intros H. pose proof (pack_H_spec r) as Hp. rewrite H in Hp.
  destruct Hp as (hi & lo & Hp & _). unfold register_bytes. by rewrite Hp.
Qed.

Lemma fromRegisters_in_range (registers : list Z) :
  forallb register_in_range registers = true ->
  fromRegisters registers = Some (mjoin (register_bytes <$> registers)).
Proof.
  intros H. unfold fromRegisters.
  enough (Hm : mapM pack_H registers = Some (register_bytes <$> registers))
    by (by rewrite Hm).
  apply mapM_Some. induction registers as [|r registers IH]; [constructor|].
  cbn [forallb] in H. apply andb_true_iff in H as [Hr H].
  cbn [fmap list_fmap]. constructor; [|by apply IH].
  pose proof (pack_H_spec r) as Hp. rewrite Hr in Hp.
  destruct Hp as (hi & lo & Hp & _). unfold register_bytes. by rewrite Hp.
Qed.

Lemma fromRegisters_out_of_range (registers : list Z) :
  forallb register_in_range registers = false -> fromRegisters registers = None.
Proof.
  intros H. unfold fromRegisters.
  enough (Hm : mapM pack_H registers = None) by (by rewrite Hm).
  induction registers as [|r registers IH]; [discriminate|].
  cbn [forallb] in H. cbn [mapM]. pose proof (pack_H_spec r) as Hp.
  destruct (register_in_range r).
  - destruct Hp as (hi & lo & -> & _). cbn [mbind option_bind]. by rewrite IH.
  - by rewrite Hp.
Qed.

Lemma take_mjoin_pairs {A} (chunks : list (list A)) (n : nat) :
  Forall (fun chunk => length chunk = 2%nat) chunks ->
  take (2 * n) (mjoin chunks) = mjoin (take n chunks).
Proof.
  intros H. revert n. induction H as [|chunk chunks Hc _ IH]; intros n.
  - change (mjoin (@nil (list A))) with (@nil A). by rewrite !take_nil.
  - destruct n as [|n]; [by rewrite !take_0|].
    change (mjoin (chunk :: chunks)) with (chunk ++ mjoin chunks).
    change (mjoin (take (S n) (chunk :: chunks))) with (chunk ++ mjoin (take n chunks)).
    replace (2 * S n)%nat with (length chunk + 2 * n)%nat by lia.
    by rewrite take_app_add, IH.
Qed.

Lemma register_bytes_ascii (r : Z) :
  register_in_range r = true ->
  forallb is_ascii (register_bytes r) = register_is_text r
  /\ ascii_of_byte <$> register_bytes r = register_chars r.
Proof.
  intros H. pose proof (pack_H_spec r) as Hp. rewrite H in Hp.
  destruct Hp as (hi & lo & Hp & Hhi & Hlo).
  apply andb_true_iff in H as [H0%Z.leb_le H1%Z.leb_le].
  assert (0 <= r / 256) by (apply Z.div_pos; lia).
  pose proof (Z.mod_pos_bound r 256 ltac:(lia)).
  unfold register_bytes. rewrite Hp. cbn [default from_option id forallb fmap list_fmap].
  unfold is_ascii, register_is_text, register_chars.
  rewrite !ascii_of_byte_via_N, Hhi, Hlo, andb_true_r. split; [|reflexivity].
  f_equal.
  - destruct (Z.ltb_spec (r / 256) 128), (N.ltb_spec (Z.to_N (r / 256)) 128);
      try reflexivity; lia.
  - destruct (Z.ltb_spec (r mod 256) 128), (N.ltb_spec (Z.to_N (r mod 256)) 128);
      try reflexivity; lia.
Qed.

Lemma registers_bytes_ascii (registers : list Z) :
  forallb register_in_range registers = true ->
  forallb is_ascii (mjoin (register_bytes <$> registers))
  = forallb register_is_text registers
  /\ ascii_of_byte <$> mjoin (register_bytes <$> registers)
     = mjoin (register_chars <$> registers).
Proof.
  induction registers as [|r registers IH]; intros H; [by split|].
  cbn [forallb] in H. apply andb_true_iff in H as [Hr H].
  destruct (IH H) as [IH1 IH2]. destruct (register_bytes_ascii r Hr) as [Hr1 Hr2].
  cbn [fmap list_fmap].
  change (mjoin (register_bytes r :: (register_bytes <$> registers)))
    with (register_bytes r ++ mjoin (register_bytes <$> registers)).
  change (mjoin (register_chars r :: (register_chars <$> registers)))
    with (register_chars r ++ mjoin (register_chars <$> registers)).
  rewrite forallb_app, fmap_app, IH1, IH2, Hr1, Hr2. by split.
Qed.

Lemma forallb_take {A} (f : A -> bool) (l : list A) (n : nat) :
  forallb f l = true -> forallb f (take n l) = true.
Proof.
  rewrite !forallb_forall. intros H x Hx%list_elem_of_In.
  apply H, list_elem_of_In. apply elem_of_take in Hx as (i & Hi & _).
  by eapply list_elem_of_lookup_2.
Qed.

(** The text of the registers, in closed form. *)
Lemma decoded_text_spec (registers : list Z) :
  decoded_text registers
  = if forallb register_in_range registers && forallb register_is_text (take 7 registers)
    then Some (string_of_list_ascii (mjoin (register_chars <$> take 7 registers)))
    else None.
Proof.
  unfold decoded_text.
  destruct (forallb register_in_range registers) eqn:Hr.
  - rewrite (fromRegisters_in_range _ Hr). cbn [mbind option_bind andb].
    unfold decode_string.
    change 14%nat with (2 * 7)%nat. rewrite take_mjoin_pairs.
    + rewrite <- fmap_take.
      destruct (registers_bytes_ascii (take 7 registers) (forallb_take _ _ 7 Hr)) as [H1 H2].
      unfold decode_ascii. rewrite H1.
      destruct (forallb register_is_text (take 7 registers)); [|reflexivity].
      unfold string_of_list_byte. f_equal. f_equal. exact H2.
    + apply Forall_fmap, Forall_forall. intros r Hin. apply register_bytes_length.
      rewrite forallb_forall in Hr. by apply Hr, list_elem_of_In.
  - by rewrite (fromRegisters_out_of_range _ Hr).
Qed.

(** X10. What a read returns, in terms of the registers the transport
    hands back: nothing when a register lies outside [0..0xFFFF] or one of
    the first seven holds a byte above 127; otherwise the text in which
    characters [2i] and [2i+1] are the high and the low byte of register
    [i], for the first seven registers, pairwise exchanged when
    [swapbytes] is set. *)
Theorem read_serialnr_text_of_registers
    (hub : Hub) (address : Z) (swapbytes : bool) (registers : list Z) (_LOGGER : log) :
  read_holding_registers hub (_modbus_addr hub) address 7 = Some (ReadResponse registers) ->
  (_read_serialnr hub address swapbytes _LOGGER).1.1
  = if forallb register_in_range registers && forallb register_is_text (take 7 registers)
    then let text := string_of_list_ascii (mjoin (register_chars <$> take 7 registers)) in
         Some (if swapbytes then swapped_text text else text)
    else None.
Proof.
  intros Hr.
  rewrite (_read_serialnr_res hub hub _ _ _ (same_device_refl hub)).
  rewrite serialnr_at_spec, Hr, decoded_text_spec.
  by destruct (forallb register_in_range registers && _).
Qed.

Lemma read_serialnr_text_of_registers_witness :
  read_holding_registers (example_hub (Some (ReadResponse registers_SP1)) None)
    (_modbus_addr (example_hub (Some (ReadResponse registers_SP1)) None)) 0x445 7
  = Some (ReadResponse registers_SP1)
  /\ (_read_serialnr (example_hub (Some (ReadResponse registers_SP1)) None)
        0x445 false []).1.1 = Some "SP1ES120N6ABCD"%string.
Proof.
  split; [reflexivity|].
  exact (read_serialnr_text_of_registers
           (example_hub (Some (ReadResponse registers_SP1)) None) 0x445 false
           registers_SP1 [] eq_refl).
Defined.

Lemma register_chars_text (r : Z) :
  register_in_range r = true -> register_is_text r = true ->
  forallb (fun c => (N_of_ascii c <? 128)%N) (register_chars r) = true.
Proof.
  unfold register_in_range, register_is_text, register_chars.
  rewrite !andb_true_iff, !Z.leb_le, !Z.ltb_lt. intros [H0 H1] [Hhi Hlo].
  assert (0 <= r / 256) by (apply Z.div_pos; lia).
  pose proof (Z.mod_pos_bound r 256 ltac:(lia)).
  cbn [forallb]. rewrite !N_ascii_embedding by lia.
  rewrite !andb_true_iff, !N.ltb_lt. repeat split; lia.
Qed.

Lemma registers_chars_text (registers : list Z) :
  forallb register_in_range registers = true ->
  forallb register_is_text registers = true ->
  forallb (fun c => (N_of_ascii c <? 128)%N) (mjoin (register_chars <$> registers)) = true
  /\ length (mjoin (register_chars <$> registers)) = (2 * length registers)%nat.
Proof.
  induction registers as [|r registers IH]; [by split|].
  cbn [forallb]. rewrite !andb_true_iff. intros [Hr Hrs] [Ht Hts].
  destruct (IH Hrs Hts) as [IH1 IH2]. cbn [fmap list_fmap].
  change (mjoin (register_chars r :: (register_chars <$> registers)))
    with (register_chars r ++ mjoin (register_chars <$> registers)).
  rewrite forallb_app, length_app, IH1, IH2, (register_chars_text r Hr Ht).
  split; [reflexivity | simpl; lia].
Qed.

Lemma length_string_of_list_ascii (l : list ascii) :
  String.length (string_of_list_ascii l) = length l.
Proof. induction l as [|c l IH]; simpl; [reflexivity | by rewrite IH]. Qed.

Lemma swapped_text_shape (text : string) :
  Nat.even (String.length text) = true ->
  String.length (swapped_text text) = String.length text
  /\ forallb (fun c => (N_of_ascii c <? 128)%N) (list_ascii_of_string (swapped_text text))
     = forallb (fun c => (N_of_ascii c <? 128)%N) (list_ascii_of_string text).
Proof.
  intros Heven. unfold swapped_text.
  rewrite <- (string_of_list_ascii_of_string text) in Heven at 1.
  rewrite length_string_of_list_ascii in Heven.
  rewrite length_string_of_list_ascii, list_ascii_of_string_of_list_ascii.
  rewrite (swap_pairs_length _ Heven), (swap_pairs_forallb _ _ Heven).
  rewrite <- (string_of_list_ascii_of_string text) at 2.
  by rewrite length_string_of_list_ascii.
Qed.

(** X11. Every serial number a read returns is ASCII text of even length,
    at most 14 characters; it has exactly 14 characters when the transport
    handed back at least seven registers. *)
Theorem read_serialnr_result_shape
    (hub : Hub) (address : Z) (swapbytes : bool) (_LOGGER : log) (res : string) :
  (_read_serialnr hub address swapbytes _LOGGER).1.1 = Some res ->
  Nat.even (String.length res) = true
  /\ (String.length res <= 14)%nat
  /\ forallb (fun c => (N_of_ascii c <? 128)%N) (list_ascii_of_string res) = true
  /\ (forall registers,
        read_holding_registers hub (_modbus_addr hub) address 7
        = Some (ReadResponse registers) ->
        (7 <= length registers)%nat -> String.length res = 14%nat).
Proof.
  rewrite (_read_serialnr_res hub hub _ _ _ (same_device_refl hub)), serialnr_at_spec.
  destruct (read_holding_registers hub (_modbus_addr hub) address 7)
    as [[|registers]|]; try discriminate.
  rewrite decoded_text_spec.
  destruct (forallb register_in_range registers) eqn:Hr; [|discriminate].
  destruct (forallb register_is_text (take 7 registers)) eqn:Ht; [|discriminate].
  cbn [andb fmap option_fmap option_map].
  destruct (registers_chars_text (take 7 registers) (forallb_take _ _ 7 Hr) Ht)
    as [Hascii Hlen].
  set (text := string_of_list_ascii (mjoin (register_chars <$> take 7 registers))).
  assert (Htl : String.length text = (2 * length (take 7 registers))%nat)
    by (unfold text; by rewrite length_string_of_list_ascii).
  assert (Hta : forallb (fun c => (N_of_ascii c <? 128)%N) (list_ascii_of_string text) = true)
    by (unfold text; by rewrite list_ascii_of_string_of_list_ascii).
  assert (Hte : Nat.even (String.length text) = true)
    by (by rewrite Htl, Nat.even_mul).
  destruct (swapped_text_shape text Hte) as [Hsl Hsa].
  rewrite length_take in Htl.
  intros [= <-].
  destruct swapbytes; rewrite ?Hsl, ?Hsa; (repeat split; [done | lia | done |]);
    intros regs [= <-] H7; lia.
Qed.

Lemma read_serialnr_result_shape_witness :
  (_read_serialnr (example_hub (Some (ReadResponse registers_SP1_swapped)) None)
     0x445 true []).1.1 = Some "SP1ES120N6ABCD"%string
  /\ String.length "SP1ES120N6ABCD" = 14%nat.
Proof.
  split; [reflexivity|].
  exact (proj2 (proj2 (proj2
    (read_serialnr_result_shape (example_hub (Some (ReadResponse registers_SP1_swapped)) None)
       0x445 true [] "SP1ES120N6ABCD" eq_refl)))
    registers_SP1_swapped eq_refl ltac:(simpl; lia)).
Defined.

Lemma _read_serialnr_effect
    (hub : Hub) (address : Z) (swapbytes : bool) (_LOGGER : log) :
  let '(res, hub', _) := _read_serialnr hub address swapbytes _LOGGER in
  seriesnumber hub' = match res with
                      | Some s => Some s
                      | None => seriesnumber hub
                      end
  /\ name hub' = name hub
  /\ _modbus_addr hub' = _modbus_addr hub
  /\ read_holding_registers hub' = read_holding_registers hub
  /\ invertertype hub' = invertertype hub.
Proof.
  unfold _read_serialnr.
  destruct (read_holding_registers hub (_modbus_addr hub) address 7) as [[|registers]|];
    [done | | done].
  rewrite decode_serialnr_spec. by destruct (decoded_text registers).
Qed.

(** X12. The reader stores what it returns and nothing else: after a call
    that returned a string, [hub.seriesnumber] is that string (the empty
    string included); after a call that returned nothing it is what it was
    before.  No other attribute of the hub changes. *)
Theorem read_serialnr_hub_effect
    (hub : Hub) (address : Z) (swapbytes : bool) (_LOGGER : log) :
  let '(res, hub', _) := _read_serialnr hub address swapbytes _LOGGER in
  seriesnumber hub' = match res with
                      | Some s => Some s
                      | None => seriesnumber hub
                      end
  /\ name hub' = name hub
  /\ _modbus_addr hub' = _modbus_addr hub
  /\ read_holding_registers hub' = read_holding_registers hub
  /\ invertertype hub' = invertertype hub.
Proof. apply _read_serialnr_effect. Qed.

Lemma swap_register_bytes (r : Z) :
  register_in_range r = true ->
  register_in_range (swap_register r) = true
  /\ swap_register r / 256 = r mod 256
  /\ swap_register r mod 256 = r / 256.
Proof.
  unfold register_in_range, swap_register.
  rewrite !andb_true_iff, !Z.leb_le. intros [H0 H1].
  assert (0 <= r / 256 < 256)
    by (split; [apply Z.div_pos; lia | apply Z.div_lt_upper_bound; lia]).
  pose proof (Z.mod_pos_bound r 256 ltac:(lia)).
  split; [lia|]. split.
  - rewrite Z.div_add_l by lia. rewrite Z.div_small by lia. lia.
  - rewrite Z.add_comm, Z.mod_add by lia. apply Z.mod_small. lia.
Qed.

Lemma swap_pairs_involutive {A} (l : list A) :
  Nat.even (length l) = true -> swap_pairs (swap_pairs l) = l.
Proof.
  intros Heven. pattern l. revert l Heven. apply list_pair_ind; [reflexivity|].
  intros a b l IH. simpl. by rewrite IH.
Qed.

Lemma swap_register_chars (r : Z) :
  register_in_range r = true ->
  register_is_text (swap_register r) = register_is_text r
  /\ register_chars (swap_register r) = swap_pairs (register_chars r).
Proof.
  intros Hr. destruct (swap_register_bytes r Hr) as (_ & S2 & S3).
  unfold register_is_text, register_chars. rewrite S2, S3.
  split; [apply andb_comm | reflexivity].
Qed.

Lemma swap_registers_text (registers : list Z) :
  forallb register_in_range registers = true ->
  forallb register_in_range (swap_register <$> registers) = true
  /\ forallb register_is_text (swap_register <$> registers)
     = forallb register_is_text registers
  /\ mjoin (register_chars <$> (swap_register <$> registers))
     = swap_pairs (mjoin (register_chars <$> registers))
  /\ Nat.even (length (mjoin (register_chars <$> registers))) = true.
Proof.
  induction registers as [|r registers IH]; [done|].
  cbn [forallb]. rewrite andb_true_iff. intros [Hr Hrs].
  destruct (IH Hrs) as (IH1 & IH2 & IH3 & IH4).
  destruct (swap_register_bytes r Hr) as (S1 & _).
  destruct (swap_register_chars r Hr) as (T1 & T2).
  cbn [fmap list_fmap forallb].
  change (mjoin (register_chars (swap_register r)
                   :: (register_chars <$> (swap_register <$> registers))))
    with (register_chars (swap_register r)
            ++ mjoin (register_chars <$> (swap_register <$> registers))).
  change (mjoin (register_chars r :: (register_chars <$> registers)))
    with (register_chars r ++ mjoin (register_chars <$> registers)).
  split; [by rewrite S1, IH1|]. split; [by rewrite T1, IH2|].
  rewrite T2, IH3. split; [reflexivity|].
  rewrite length_app. change (length (register_chars r)) with 2%nat.
  exact IH4.
Qed.

(** X13. The [swapbytes] flag undoes an exchange of the two bytes of every
    register: a byte-swapping read of the exchanged registers returns what
    a plain read of the original 16-bit registers returns, text or
    nothing. *)
Theorem swapbytes_undoes_register_byte_swap
    (hub hub' : Hub) (address address' : Z) (registers : list Z) :
  forallb register_in_range registers = true ->
  read_holding_registers hub (_modbus_addr hub) address 7 = Some (ReadResponse registers) ->
  read_holding_registers hub' (_modbus_addr hub') address' 7
  = Some (ReadResponse (swap_register <$> registers)) ->
  serialnr_at hub' address' true = serialnr_at hub address false.
Proof.
  intros Hr H1 H2. rewrite !serialnr_at_spec, H1, H2, !decoded_text_spec.
  rewrite <- fmap_take.
  destruct (swap_registers_text (take 7 registers) (forallb_take _ _ 7 Hr))
    as (_ & S2 & S3 & S4).
  destruct (swap_registers_text registers Hr) as (S1 & _).
  rewrite S1, S2, Hr, S3. cbn [andb].
  destruct (forallb register_is_text (take 7 registers)); [|reflexivity].
  cbn [fmap option_fmap option_map]. f_equal. unfold swapped_text.
  rewrite list_ascii_of_string_of_list_ascii. by rewrite (swap_pairs_involutive _ S4).
Qed.

Lemma swapbytes_undoes_register_byte_swap_witness :
  (forallb register_in_range registers_SP1 = true
   /\ swap_register <$> registers_SP1 = registers_SP1_swapped)
  /\ serialnr_at (example_hub None (Some (ReadResponse registers_SP1_swapped))) 0x2001 true
     = serialnr_at (example_hub (Some (ReadResponse registers_SP1)) None) 0x445 false.
Proof.
  split; [by split|].
  exact (swapbytes_undoes_register_byte_swap
           (example_hub (Some (ReadResponse registers_SP1)) None)
           (example_hub None (Some (ReadResponse registers_SP1_swapped)))
           0x445 0x2001 registers_SP1 eq_refl eq_refl eq_refl).
Defined.

(** ** [determineInverterType]: which serial number, which type *)

Lemma _read_serialnr_seriesnumber (hub hub0 : Hub) (address : Z) (_LOGGER : log) :
  same_device hub0 hub ->
  seriesnumber (_read_serialnr hub address false _LOGGER).1.2
  = match serialnr_at hub0 address false with
    | Some s => Some s
    | None => seriesnumber hub
    end.
Proof.
  intros Hs. rewrite <- (_read_serialnr_res hub0 hub address false _LOGGER Hs).
  pose proof (_read_serialnr_effect hub address false _LOGGER) as H.
  destruct (_read_serialnr hub address false _LOGGER) as [[res hub'] log'].
  exact (proj1 H).
Qed.

(** [hub.seriesnumber] after [determineInverterType]. *)
Lemma determineInverterType_seriesnumber
    (CONF_READ_EPS CONF_READ_DCB CONF_READ_PM : string)
    (DEFAULT_READ_EPS DEFAULT_READ_DCB DEFAULT_READ_PM : bool)
    (hub : Hub) (configdict : gmap string bool) (_LOGGER : log) :
  seriesnumber
    (determineInverterType CONF_READ_EPS CONF_READ_DCB CONF_READ_PM
       DEFAULT_READ_EPS DEFAULT_READ_DCB DEFAULT_READ_PM hub configdict _LOGGER).1
  = (let first := match serialnr_at hub 0x445 false with
                  | Some s => Some s
                  | None => seriesnumber hub
                  end in
     if falsy (serialnr_at hub 0x445 false)
     then match serialnr_at hub 0x2001 false with
          | Some s => Some s
          | None => first
          end
     else first).
Proof.
  unfold determineInverterType, read_seriesnumber.
  set (log0 := _LOGGER ++ [(INFO, trying_to_determine (name hub))]).
  pose proof (_read_serialnr_res hub hub 0x445 false log0 (same_device_refl hub)) as R1.
  pose proof (_read_serialnr_seriesnumber hub hub 0x445 log0 (same_device_refl hub)) as E1.
  pose proof (_read_serialnr_same_device hub 0x445 false log0) as S1.
  destruct (_read_serialnr hub 0x445 false log0) as [[res1 hub1] log1].
  simpl in R1, E1, S1. subst res1. cbv zeta.
  destruct (falsy (serialnr_at hub 0x445 false)) eqn:F1.
  - pose proof (_read_serialnr_res hub hub1 0x2001 false log1 S1) as R2.
    pose proof (_read_serialnr_seriesnumber hub1 hub 0x2001 log1 S1) as E2.
    destruct (_read_serialnr hub1 0x2001 false log1) as [[res2 hub2] log2].
    simpl in R2, E2. subst res2. rewrite <- E1, <- E2.
    destruct (falsy (serialnr_at hub 0x2001 false));
      by destruct (derive_invertertype hub2 _ _).
  - rewrite F1, <- E1. by destruct (derive_invertertype hub1 _ _).
Qed.

Lemma identity_cases (hub : Hub) :
  identity hub
  = (let res := serialnr_at hub 0x445 false in
     let res := if falsy res then serialnr_at hub 0x2001 false else res in
     if falsy res then "unknown"%string else default EmptyString res).
Proof.
  unfold identity. exact (proj1 (read_seriesnumber_res hub hub [] (same_device_refl hub))).
Qed.

Lemma falsy_Some (s : string) : s <> EmptyString -> falsy (Some s) = false.
Proof. intros H. simpl. by destruct s. Qed.

(** X14. The address [0x445] comes first: when the read there returns a
    non-empty serial number, that is the one the type is derived from and
    the one stored on the hub, whatever the device holds at [0x2001]; when
    it returns nothing usable and the read at [0x2001] returns a non-empty
    serial number, that one is used and stored. *)
Theorem primary_address_has_priority
    (CONF_READ_EPS CONF_READ_DCB CONF_READ_PM : string)
    (DEFAULT_READ_EPS DEFAULT_READ_DCB DEFAULT_READ_PM : bool)
    (hub : Hub) (configdict : gmap string bool) (_LOGGER : log) (s : string) :
  s <> EmptyString ->
  (serialnr_at hub 0x445 false = Some s
   \/ (falsy (serialnr_at hub 0x445 false) = true /\ serialnr_at hub 0x2001 false = Some s)) ->
  identity hub = s
  /\ seriesnumber
       (determineInverterType CONF_READ_EPS CONF_READ_DCB CONF_READ_PM
          DEFAULT_READ_EPS DEFAULT_READ_DCB DEFAULT_READ_PM hub configdict _LOGGER).1
     = Some s
  /\ invertertype
       (determineInverterType CONF_READ_EPS CONF_READ_DCB CONF_READ_PM
          DEFAULT_READ_EPS DEFAULT_READ_DCB DEFAULT_READ_PM hub configdict _LOGGER).1
     = Some (Z.lor (base_invertertype hub s)
               (toggle_bits (get configdict CONF_READ_EPS DEFAULT_READ_EPS)
                            (get configdict CONF_READ_DCB DEFAULT_READ_DCB)
                            (get configdict CONF_READ_PM DEFAULT_READ_PM))).
Proof.
  intros Hs Hread.
  assert (Hid : identity hub = s).
  { rewrite identity_cases. cbv zeta.
    destruct Hread as [H1|[F1 H2]].
    - by rewrite H1, !(falsy_Some s Hs).
    - by rewrite F1, H2, (falsy_Some s Hs). }
  split; [exact Hid|]. split.
  - rewrite determineInverterType_seriesnumber. cbv zeta.
    destruct Hread as [H1|[F1 H2]].
    + by rewrite H1, (falsy_Some s Hs).
    + by rewrite F1, H2.
  - by rewrite determineInverterType_invertertype, Hid.
Qed.

Lemma primary_address_has_priority_witness :
  ("SA1ES120N6ABCD"%string <> EmptyString
   /\ serialnr_at (example_hub (Some (ReadResponse
                     [0x5341; 0x3145; 0x5331; 0x3230; 0x4E36; 0x4142; 0x4344]))
                     (Some (ReadResponse registers_SP1))) 0x445 false
      = Some "SA1ES120N6ABCD"%string)
  /\ invertertype
       (determineInverterType "read_eps" "read_dcb" "read_pm" false false false
          (example_hub (Some (ReadResponse
             [0x5341; 0x3145; 0x5331; 0x3230; 0x4E36; 0x4142; 0x4344]))
             (Some (ReadResponse registers_SP1))) ∅ []).1
     = Some (Z.lor PV X1).
Proof.
  assert (Hs : "SA1ES120N6ABCD"%string <> EmptyString) by discriminate.
  split; [by split|].
  exact (proj2 (proj2 (primary_address_has_priority
    "read_eps" "read_dcb" "read_pm" false false false
    (example_hub (Some (ReadResponse [0x5341; 0x3145; 0x5331; 0x3230; 0x4E36; 0x4142; 0x4344]))
       (Some (ReadResponse registers_SP1))) ∅ [] "SA1ES120N6ABCD" Hs (or_introl eq_refl)))).
Defined.

(** X15. The stand-in ["unknown"] stays local: when neither read yields a
    usable serial number, [hub.seriesnumber] is left as it was, or holds
    the empty string if a read returned that; it is never set to
    ["unknown"] by [determineInverterType]. *)
Theorem unknown_is_not_stored
    (CONF_READ_EPS CONF_READ_DCB CONF_READ_PM : string)
    (DEFAULT_READ_EPS DEFAULT_READ_DCB DEFAULT_READ_PM : bool)
    (hub : Hub) (configdict : gmap string bool) (_LOGGER : log) :
  both_reads_fail hub = true ->
  let hub' :=
    (determineInverterType CONF_READ_EPS CONF_READ_DCB CONF_READ_PM
       DEFAULT_READ_EPS DEFAULT_READ_DCB DEFAULT_READ_PM hub configdict _LOGGER).1 in
  identity hub = "unknown"%string
  /\ (seriesnumber hub' = seriesnumber hub \/ seriesnumber hub' = Some EmptyString)
  /\ (serialnr_at hub 0x445 false = None -> serialnr_at hub 0x2001 false = None ->
      seriesnumber hub' = seriesnumber hub).
Proof.
  intros Hfail hub'. split; [by apply identity_unknown|].
  unfold hub'. rewrite determineInverterType_seriesnumber. cbv zeta.
  unfold both_reads_fail in Hfail. apply andb_true_iff in Hfail as [F1 F2].
  rewrite F1. split.
  - destruct (serialnr_at hub 0x445 false) as [s1|], (serialnr_at hub 0x2001 false) as [s2|];
      simpl in F1, F2;
      repeat match goal with
             | H : String.eqb ?s EmptyString = true |- _ => apply String.eqb_eq in H; subst s
             end; auto.
  - by intros -> ->.
Qed.

Lemma unknown_is_not_stored_witness :
  both_reads_fail (example_hub None (Some (ReadResponse []))) = true
  /\ seriesnumber
       (determineInverterType "read_eps" "read_dcb" "read_pm" false false false
          (example_hub None (Some (ReadResponse []))) ∅ []).1
     = Some EmptyString.
Proof.
  split; [reflexivity|].
  destruct (proj1 (proj2 (unknown_is_not_stored
    "read_eps" "read_dcb" "read_pm" false false false
    (example_hub None (Some (ReadResponse []))) ∅ [] eq_refl))) as [H|H].
  - discriminate H.
  - exact H.
Defined.

Lemma first_match_values (seriesnumber : string) :
  (recognized seriesnumber = true
   /\ first_match prefix_rules seriesnumber
      ∈ [Z.lor HYBRID X3; Z.lor (Z.lor HYBRID X3) GEN; Z.lor (Z.lor PV X3) GEN;
         Z.lor PV X1; Z.lor PV X3])
  \/ (recognized seriesnumber = false /\ first_match prefix_rules seriesnumber = 0).
Proof.
  unfold recognized, prefix_rules. cbn [existsb first_match fst].
  repeat match goal with
         | |- context [startswith seriesnumber ?p] =>
             destruct (startswith seriesnumber p);
             [left; split; [reflexivity|]; cbn [orb];
              repeat (first [apply list_elem_of_here | apply list_elem_of_further]) |]
         end.
  right. by split.
Qed.

(** X16. The type stored on the hub is always set and stays within what
    the rules and the toggles can produce: for a recognized serial number
    exactly one of [HYBRID], [PV] and exactly one of [X1], [X3], for an
    unrecognized one no bit of the generation, phase and type groups; never
    [GEN2], [GEN3], [GEN4], [AC] or [MIC], and no bit outside the groups. *)
Theorem resolved_type_vocabulary
    (CONF_READ_EPS CONF_READ_DCB CONF_READ_PM : string)
    (DEFAULT_READ_EPS DEFAULT_READ_DCB DEFAULT_READ_PM : bool)
    (hub : Hub) (configdict : gmap string bool) (_LOGGER : log) :
  exists t,
    invertertype
      (determineInverterType CONF_READ_EPS CONF_READ_DCB CONF_READ_PM
         DEFAULT_READ_EPS DEFAULT_READ_DCB DEFAULT_READ_PM hub configdict _LOGGER).1
    = Some t
    /\ Z.land t ALL_BITS = t
    /\ Z.land t (Z.lor (Z.lor (Z.lor (Z.lor GEN2 GEN3) GEN4) AC) MIC) = 0
    /\ (if recognized (identity hub)
        then (Z.land t ALL_TYPE_GROUP = HYBRID \/ Z.land t ALL_TYPE_GROUP = PV)
             /\ (Z.land t ALL_X_GROUP = X1 \/ Z.land t ALL_X_GROUP = X3)
        else Z.land t (Z.lor (Z.lor ALL_GEN_GROUP ALL_X_GROUP) ALL_TYPE_GROUP) = 0).
Proof.
  eexists. split; [apply determineInverterType_invertertype|].
  rewrite base_invertertype_first_match.
  destruct (first_match_values (identity hub)) as [[-> Hin]|[-> ->]].
  - repeat (apply elem_of_cons in Hin as [->|Hin]);
      try (by apply elem_of_nil in Hin);
      destruct (get configdict CONF_READ_EPS DEFAULT_READ_EPS),
               (get configdict CONF_READ_DCB DEFAULT_READ_DCB),
               (get configdict CONF_READ_PM DEFAULT_READ_PM);
      (split; [reflexivity|]); (split; [reflexivity|]);
      (split; [(by left) || (by right) | (by left) || (by right)]).
  - destruct (get configdict CONF_READ_EPS DEFAULT_READ_EPS),
             (get configdict CONF_READ_DCB DEFAULT_READ_DCB),
             (get configdict CONF_READ_PM DEFAULT_READ_PM); by repeat split.
Qed.

Lemma group_test_toggles (base toggles entitymask group : Z) :
  Z.land toggles group = 0 ->
  group_test (Z.lor base toggles) entitymask group = group_test base entitymask group.
Proof.
  intros H. unfold group_test. f_equal. f_equal. f_equal.
  apply Z.bits_inj'. intros n _. rewrite !Z.land_spec, Z.lor_spec.
  assert (Hn : Z.testbit toggles n && Z.testbit group n = false)
    by (by rewrite <- Z.land_spec, H, Z.bits_0).
  destruct (Z.testbit base n), (Z.testbit toggles n), (Z.testbit entitymask n),
    (Z.testbit group n); simpl in *; congruence.
Qed.

Lemma toggle_bits_inside (read_eps read_dcb read_pm : bool) :
  Z.land (toggle_bits read_eps read_dcb read_pm) TOGGLE_BITS
  = toggle_bits read_eps read_dcb read_pm.
Proof. by destruct read_eps, read_dcb, read_pm. Qed.

Lemma land_inside_disjoint (a b c : Z) :
  Z.land a b = a -> Z.land b c = 0 -> Z.land a c = 0.
Proof. intros <- H. by rewrite <- Z.land_assoc, H, Z.land_0_r. Qed.

(** X17. The toggles only reach entities that ask for them.  For an entity
    mask without [EPS], [DCB] and [PM], the type stored on the hub matches
    exactly when the type derived from the serial number alone does; and an
    entity mask that contains [EPS] matches the stored type only if
    [read_eps] is on (likewise [DCB] with [read_dcb], [PM] with
    [read_pm]). *)
Theorem toggles_only_gate_their_entities
    (CONF_READ_EPS CONF_READ_DCB CONF_READ_PM : string)
    (DEFAULT_READ_EPS DEFAULT_READ_DCB DEFAULT_READ_PM : bool)
    (hub : Hub) (configdict : gmap string bool) (_LOGGER : log)
    (entitymask : Z) (serialnumber : string) (blacklist : option (list string)) :
  exists t,
    invertertype
      (determineInverterType CONF_READ_EPS CONF_READ_DCB CONF_READ_PM
         DEFAULT_READ_EPS DEFAULT_READ_DCB DEFAULT_READ_PM hub configdict _LOGGER).1
    = Some t
    /\ (Z.land entitymask TOGGLE_BITS = 0 ->
        matchInverterWithMask t entitymask serialnumber blacklist
        = matchInverterWithMask (base_invertertype hub (identity hub)) entitymask
            serialnumber blacklist)
    /\ (matchInverterWithMask t entitymask serialnumber blacklist = true ->
        (Z.land entitymask EPS <> 0 -> get configdict CONF_READ_EPS DEFAULT_READ_EPS = true)
        /\ (Z.land entitymask DCB <> 0 -> get configdict CONF_READ_DCB DEFAULT_READ_DCB = true)
        /\ (Z.land entitymask PM <> 0 -> get configdict CONF_READ_PM DEFAULT_READ_PM = true)).
Proof.
  eexists. split; [apply determineInverterType_invertertype|].
  set (base := base_invertertype hub (identity hub)).
  set (read_eps := get configdict CONF_READ_EPS DEFAULT_READ_EPS).
  set (read_dcb := get configdict CONF_READ_DCB DEFAULT_READ_DCB).
  set (read_pm := get configdict CONF_READ_PM DEFAULT_READ_PM).
  split.
  - intros Hmask. rewrite !matchInverterWithMask_forallb. f_equal.
    unfold ALL_GROUPS. cbn [forallb].
    rewrite !(group_test_toggles base _ entitymask ALL_GEN_GROUP),
            !(group_test_toggles base _ entitymask ALL_X_GROUP),
            !(group_test_toggles base _ entitymask ALL_TYPE_GROUP);
      try (apply (land_inside_disjoint _ TOGGLE_BITS);
           [apply toggle_bits_inside | reflexivity]).
    rewrite !(group_test_wildcard _ entitymask ALL_EPS_GROUP),
            !(group_test_wildcard _ entitymask ALL_DCB_GROUP),
            !(group_test_wildcard _ entitymask ALL_PM_GROUP);
      try reflexivity;
      rewrite Z.land_comm;
      (apply (land_inside_disjoint _ TOGGLE_BITS); [reflexivity|]);
      by rewrite Z.land_comm.
  - rewrite matchInverterWithMask_forallb, andb_true_iff. unfold ALL_GROUPS.
    cbn [forallb]. rewrite !andb_true_iff.
    intros [(_ & _ & _ & He & Hd & Hp & _) _].
    assert (Hbase : Z.land base TOGGLE_BITS = 0).
    { unfold base. rewrite base_invertertype_first_match.
      destruct (first_match_values (identity hub)) as [[_ Hin]|[_ ->]]; [|reflexivity].
      repeat (apply elem_of_cons in Hin as [->|Hin]); try reflexivity.
      by apply elem_of_nil in Hin. }
    assert (Hbit : forall bit (toggle : bool),
              Z.land bit TOGGLE_BITS = bit ->
              Z.land (Z.lor base (toggle_bits read_eps read_dcb read_pm)) bit
              = (if toggle then bit else 0) ->
              group_test (Z.lor base (toggle_bits read_eps read_dcb read_pm))
                entitymask bit = true ->
              Z.land entitymask bit <> 0 -> toggle = true).
    { intros bit toggle _ Hland Htest Hne. unfold group_test in Htest.
      apply Z.eqb_neq in Hne. rewrite Hne, orb_false_r, negb_true_iff, Z.eqb_neq in Htest.
      destruct toggle; [reflexivity|]. destruct Htest.
      rewrite (Z.land_comm _ entitymask), <- Z.land_assoc, Hland. apply Z.land_0_r. }
    assert (Hb : forall bit, Z.land bit TOGGLE_BITS = bit -> Z.land base bit = 0).
    { intros bit Hin. rewrite Z.land_comm.
      apply (land_inside_disjoint _ TOGGLE_BITS); [exact Hin|]. by rewrite Z.land_comm. }
    repeat split.
    + apply (Hbit EPS read_eps eq_refl); [|exact He].
      rewrite Z.land_lor_distr_l, (Hb EPS eq_refl). by destruct read_eps, read_dcb, read_pm.
    + apply (Hbit DCB read_dcb eq_refl); [|exact Hd].
      rewrite Z.land_lor_distr_l, (Hb DCB eq_refl). by destruct read_eps, read_dcb, read_pm.
    + apply (Hbit PM read_pm eq_refl); [|exact Hp].
      rewrite Z.land_lor_distr_l, (Hb PM eq_refl). by destruct read_eps, read_dcb, read_pm.
Qed.

(** ** [determineInverterType]: what is reported as an error *)

Lemma _read_serialnr_log (hub : Hub) (address : Z) (swapbytes : bool) (_LOGGER : log) :
  exists new,
    (_read_serialnr hub address swapbytes _LOGGER).2 = _LOGGER ++ new
    /\ List.filter is_error new = [].
Proof.
  unfold _read_serialnr.
  destruct (read_holding_registers hub (_modbus_addr hub) address 7) as [[|registers]|].
  - eexists. cbn [falsy snd]. rewrite <- app_assoc. by split.
  - destruct (decode_serialnr registers swapbytes) as [res|res].
    + destruct (falsy res); eexists; cbn [snd]; rewrite <- !app_assoc; by split.
    + destruct (falsy (Some res)); eexists; cbn [snd]; rewrite <- ?app_assoc; by split.
  - eexists. cbn [falsy snd]. rewrite <- !app_assoc. by split.
Qed.

Lemma derive_invertertype_log (hub : Hub) (seriesnumber : string) (_LOGGER : log) :
  (derive_invertertype hub seriesnumber _LOGGER).2
  = _LOGGER ++ (if recognized seriesnumber then []
                else [(ERROR, unrecognized_type (name hub) seriesnumber)]).
Proof.
  unfold derive_invertertype, recognized, prefix_rules. cbn [existsb fst].
  repeat match goal with
         | |- context [startswith seriesnumber ?p] =>
             destruct (startswith seriesnumber p);
             [cbn [orb snd]; by rewrite app_nil_r|]
         end.
  reflexivity.
Qed.

Lemma read_seriesnumber_log (hub : Hub) (_LOGGER : log) :
  exists new,
    (read_seriesnumber hub _LOGGER).2 = _LOGGER ++ new
    /\ List.filter is_error new
       = (if both_reads_fail hub then [(ERROR, cannot_find_serial (name hub))] else []).
Proof.
  unfold read_seriesnumber, both_reads_fail.
  pose proof (_read_serialnr_res hub hub 0x445 false _LOGGER (same_device_refl hub)) as R1.
  pose proof (_read_serialnr_same_device hub 0x445 false _LOGGER) as S1.
  destruct (_read_serialnr_log hub 0x445 false _LOGGER) as (new1 & L1 & E1).
  destruct (_read_serialnr hub 0x445 false _LOGGER) as [[res1 hub1] log1].
  simpl in R1, S1, L1. subst res1 log1. cbv zeta.
  destruct (falsy (serialnr_at hub 0x445 false)) eqn:F1; cbn [andb].
  - pose proof (_read_serialnr_res hub hub1 0x2001 false (_LOGGER ++ new1) S1) as R2.
    pose proof (_read_serialnr_same_device hub1 0x2001 false (_LOGGER ++ new1)) as S2.
    destruct (_read_serialnr_log hub1 0x2001 false (_LOGGER ++ new1)) as (new2 & L2 & E2).
    destruct (_read_serialnr hub1 0x2001 false (_LOGGER ++ new1)) as [[res2 hub2] log2].
    simpl in R2, S2, L2. subst res2 log2.
    assert (Hname : name hub2 = name hub).
    { destruct S1 as (N1 & _), S2 as (N2 & _). congruence. }
    destruct (falsy (serialnr_at hub 0x2001 false)); cbn [snd].
    + exists (new1 ++ new2 ++ [(ERROR, cannot_find_serial (name hub))]).
      rewrite Hname, !app_assoc. split; [reflexivity|].
      by rewrite !List.filter_app, E1, E2.
    + exists (new1 ++ new2). rewrite !app_assoc. split; [reflexivity|].
      by rewrite List.filter_app, E1, E2.
  - rewrite F1. cbn [snd]. exists new1. by split.
Qed.

(** X18. What [determineInverterType] reports through [_LOGGER.error]: the
    log only grows, and the error records added are, in this order, one
    that no serial number was found, exactly when both reads failed, and
    one that the type is unrecognized, exactly when no rule covers the
    serial number settled on -- so a failed identification reports both,
    the second for ["unknown"]. *)
Theorem errors_reported
    (CONF_READ_EPS CONF_READ_DCB CONF_READ_PM : string)
    (DEFAULT_READ_EPS DEFAULT_READ_DCB DEFAULT_READ_PM : bool)
    (hub : Hub) (configdict : gmap string bool) (_LOGGER : log) :
  exists new,
    (determineInverterType CONF_READ_EPS CONF_READ_DCB CONF_READ_PM
       DEFAULT_READ_EPS DEFAULT_READ_DCB DEFAULT_READ_PM hub configdict _LOGGER).2
    = _LOGGER ++ new
    /\ List.filter is_error new
       = (if both_reads_fail hub then [(ERROR, cannot_find_serial (name hub))] else [])
         ++ (if recognized (identity hub) then []
             else [(ERROR, unrecognized_type (name hub) (identity hub))])
    /\ (both_reads_fail hub = true ->
        List.filter is_error new
        = [(ERROR, cannot_find_serial (name hub));
           (ERROR, unrecognized_type (name hub) "unknown")]).
Proof.
  unfold determineInverterType.
  set (log0 := _LOGGER ++ [(INFO, trying_to_determine (name hub))]).
  pose proof (identity_spec hub hub log0 (same_device_refl hub)) as Hid.
  pose proof (proj2 (read_seriesnumber_res hub hub log0 (same_device_refl hub))) as Hs.
  destruct (read_seriesnumber_log hub log0) as (new1 & L1 & E1).
  destruct (read_seriesnumber hub log0) as [[seriesnumber hub1] log1].
  simpl in Hid, Hs, L1. subst seriesnumber log1.
  pose proof (derive_invertertype_log hub1 (identity hub) (log0 ++ new1)) as L2.
  destruct (derive_invertertype hub1 (identity hub) (log0 ++ new1)) as [base log2].
  simpl in L2. subst log2. cbn [snd].
  assert (Hname : name hub1 = name hub) by apply Hs.
  exists ([(INFO, trying_to_determine (name hub))] ++ new1
          ++ (if recognized (identity hub) then []
              else [(ERROR, unrecognized_type (name hub) (identity hub))])).
  assert (Hfilter : List.filter is_error
            ([(INFO, trying_to_determine (name hub))] ++ new1
             ++ (if recognized (identity hub) then []
                 else [(ERROR, unrecognized_type (name hub) (identity hub))]))
          = (if both_reads_fail hub then [(ERROR, cannot_find_serial (name hub))] else [])
            ++ (if recognized (identity hub) then []
                else [(ERROR, unrecognized_type (name hub) (identity hub))])).
  { rewrite !List.filter_app, E1. cbn [List.filter is_error fst app]. f_equal.
    by destruct (recognized (identity hub)). }
  split; [|split; [exact Hfilter|]].
  - unfold log0. by rewrite Hname, <- !app_assoc.
  - intros Hfail. rewrite Hfilter, Hfail, (identity_unknown hub Hfail). reflexivity.
Qed.

(** ** Computed sensor values: balance and clock times *)

Lemma number_add_float_zero (x : SpecFloat.spec_float) :
  number_add (PyFloat x) (PyInt 0)
  = inr (PyFloat (SpecFloat.SFadd 53 1024 x (SpecFloat.S754_zero false))).
Proof. reflexivity. Qed.

Lemma number_sub_float_zero (x : SpecFloat.spec_float) :
  number_sub (PyFloat x) (PyInt 0) = inr (PyFloat x).
Proof.
  change (number_sub (PyFloat x) (PyInt 0))
    with (@inr exception _ (PyFloat (SpecFloat.SFsub 53 1024 x (SpecFloat.S754_zero false)))).
  by rewrite SFsub_zero_r.
Qed.

Lemma same_value_int (a b : Z) : a = b -> same_value (PyInt a) (PyInt b) = true.
Proof. intros ->. apply same_value_refl. Qed.

(** X19. With ["inverter_load"] and ["feedin_power"] present as two [int]s
    or as two [float]s, the feed-in not NaN, the three functions agree on
    the flow of power: the house load is the same number as the inverter
    load plus the grid import minus the grid export -- equal to it, or NaN
    like it (infinite operands). *)
Theorem house_load_balance {I D : Type} (initval : I) (descr : D)
    (datadict : gmap string number) (load feedin : number) :
  datadict !! "inverter_load"%string = Some load ->
  datadict !! "feedin_power"%string = Some feedin ->
  same_kind load feedin = true ->
  is_nan feedin = false ->
  exists house import export balance : number,
    value_function_house_load initval descr datadict = inr house
    /\ value_function_grid_import initval descr datadict = inr import
    /\ value_function_grid_export initval descr datadict = inr export
    /\ and_then (number_add load import) (fun sum => number_sub sum export) = inr balance
    /\ same_value house balance = true.
Proof.
  intros Hl Hf Hkind Hnan.
  unfold value_function_house_load, value_function_grid_import,
    value_function_grid_export, getitem. rewrite Hl, Hf.
  destruct load as [l|x], feedin as [f|y]; try discriminate Hkind.
  - unfold number_gt, number_lt, number_compare.
    destruct (Z.compare_spec f 0) as [->|Hn|Hn]; eexists _, _, _, _;
      (split; [reflexivity|]); (split; [reflexivity|]); (split; [reflexivity|]);
      (split; [reflexivity|]); apply same_value_int; lia.
  - destruct y as [s|s| |s m e]; [| |discriminate Hnan|].
    + exists (PyFloat (SpecFloat.SFsub 53 1024 x (SpecFloat.S754_zero s))), (PyInt 0), (PyInt 0),
        (PyFloat (SpecFloat.SFadd 53 1024 x (SpecFloat.S754_zero false))).
      split; [reflexivity|]. split; [by destruct s|]. split; [by destruct s|].
      split; [by rewrite number_add_float_zero; cbn [and_then]; rewrite number_sub_float_zero|].
      destruct x as [[]|[]| |sx mx ex], s; try reflexivity; apply same_value_refl.
    + destruct s.
      * exists (PyFloat (SpecFloat.SFsub 53 1024 x (SpecFloat.S754_infinity true))),
          (PyFloat (SpecFloat.S754_infinity false)), (PyInt 0),
          (PyFloat (SpecFloat.SFadd 53 1024 x (SpecFloat.S754_infinity false))).
        repeat (split; [reflexivity|]).
        split; [cbn [number_add coerce and_then]; by rewrite number_sub_float_zero|].
        by destruct x as [[]|[]| |sx mx ex].
      * exists (PyFloat (SpecFloat.SFsub 53 1024 x (SpecFloat.S754_infinity false))),
          (PyInt 0), (PyFloat (SpecFloat.S754_infinity false)),
          (PyFloat (SpecFloat.SFsub 53 1024
                      (SpecFloat.SFadd 53 1024 x (SpecFloat.S754_zero false))
                      (SpecFloat.S754_infinity false))).
        repeat (split; [reflexivity|]).
        by destruct x as [[]|[]| |sx mx ex].
    + unfold number_gt, number_lt, number_compare.
      rewrite !compare_float_int_sign. destruct s.
      * exists (PyFloat (SpecFloat.SFsub 53 1024 x (SpecFloat.S754_finite true m e))),
          (PyFloat (SpecFloat.S754_finite false m e)), (PyInt 0),
          (PyFloat (SpecFloat.SFadd 53 1024 x (SpecFloat.S754_finite false m e))).
        repeat (split; [reflexivity|]).
        split; [cbn [number_abs SpecFloat.SFabs number_add coerce and_then];
                by rewrite number_sub_float_zero|].
        rewrite SFsub_negative. apply same_value_refl.
      * exists (PyFloat (SpecFloat.SFsub 53 1024 x (SpecFloat.S754_finite false m e))),
          (PyInt 0), (PyFloat (SpecFloat.S754_finite false m e)),
          (PyFloat (SpecFloat.SFsub 53 1024
                      (SpecFloat.SFadd 53 1024 x (SpecFloat.S754_zero false))
                      (SpecFloat.S754_finite false m e))).
        repeat (split; [reflexivity|]).
        destruct x as [[]|[]| |sx mx ex]; try reflexivity; apply same_value_refl.
Qed.

Lemma house_load_balance_witness :
  (({[ "inverter_load"%string := float_9; "feedin_power"%string := float_minus_2_5 ]}
      : gmap string number) !! "inverter_load"%string = Some float_9
   /\ ({[ "inverter_load"%string := float_9; "feedin_power"%string := float_minus_2_5 ]}
         : gmap string number) !! "feedin_power"%string = Some float_minus_2_5
   /\ same_kind float_9 float_minus_2_5 = true
   /\ is_nan float_minus_2_5 = false)
  /\ value_function_house_load 0 tt
       ({[ "inverter_load"%string := float_9; "feedin_power"%string := float_minus_2_5 ]}
          : gmap string number)
     = inr float_11_5.
Proof.
  assert (Hl : ({[ "inverter_load"%string := float_9;
                   "feedin_power"%string := float_minus_2_5 ]} : gmap string number)
                 !! "inverter_load"%string = Some float_9) by reflexivity.
  assert (Hf : ({[ "inverter_load"%string := float_9;
                   "feedin_power"%string := float_minus_2_5 ]} : gmap string number)
                 !! "feedin_power"%string = Some float_minus_2_5) by reflexivity.
  split; [by repeat split|].
  destruct (house_load_balance 0 tt _ float_9 float_minus_2_5 Hl Hf eq_refl eq_refl)
    as (house & import & export & balance & Hh & _).
  rewrite Hh. f_equal. vm_compute in Hh. injection Hh as <-. reflexivity.
Defined.

(** X20. The two clock formats agree: the packed value [m * 256 + h] of
    generation 4, with [0 <= h < 256], is shown as the pair [(h, m)] of
    generations 2 and 3 is -- the low byte in front of the colon, the rest
    behind it. *)
Theorem gen4time_is_packed_gen23time {D M : Type} (h m : Z) (descr : D) (datadict : M) :
  0 <= h < 256 ->
  value_function_gen4time (m * 256 + h) descr datadict
  = value_function_gen23time (h, m) descr datadict.
Proof.
  intros Hh. unfold value_function_gen4time, value_function_gen23time. cbv zeta.
  rewrite Z.shiftr_div_pow2 by lia. change (2 ^ 8) with 256.
  rewrite Z.add_comm, Z.mod_add, Z.div_add, Z.mod_small, Z.div_small by lia.
  reflexivity.
Qed.

Lemma gen4time_is_packed_gen23time_witness :
  0 <= 7 < 256
  /\ value_function_gen4time (30 * 256 + 7) tt tt = value_function_gen23time (7, 30) tt tt.
Proof.
  assert (H : 0 <= 7 < 256) by lia.
  split; [exact H|]. exact (gen4time_is_packed_gen23time 7 30 tt tt H).
Defined.

Lemma format_02d_two_digits (n : Z) :
  0 <= n < 100 ->
  format_02d n = String (digit_char (n / 10)) (String (digit_char (n mod 10)) EmptyString).
Proof.
  intros Hn.
  assert (H : forall k : nat, (k < 100)%nat ->
            format_02d (Z.of_nat k)
            = String (digit_char (Z.of_nat k / 10))
                (String (digit_char (Z.of_nat k mod 10)) EmptyString)).
  { intros k Hk. do 100 (destruct k as [|k]; [reflexivity|]). lia. }
  rewrite <- (Z2Nat.id n) by lia. apply H. lia.
Qed.

(** X21. A register of generation 4 whose low byte (hours) and high byte
    (minutes) are both below 100 is shown with exactly five characters,
    two digits on either side of the colon, each field filled with a
    leading zero. *)
Theorem gen4time_clock_format {D M : Type} (initval : Z) (descr : D) (datadict : M) :
  0 <= initval -> initval mod 256 < 100 -> initval / 256 < 100 ->
  value_function_gen4time initval descr datadict
  = String (digit_char (initval mod 256 / 10))
      (String (digit_char (initval mod 256 mod 10))
         (String ":"
            (String (digit_char (initval / 256 / 10))
               (String (digit_char (initval / 256 mod 10)) EmptyString))))
  /\ String.length (value_function_gen4time initval descr datadict) = 5%nat.
Proof.
  intros H0 Hh Hm.
  assert (Heq : value_function_gen4time initval descr datadict
                = String (digit_char (initval mod 256 / 10))
                    (String (digit_char (initval mod 256 mod 10))
                       (String ":"
                          (String (digit_char (initval / 256 / 10))
                             (String (digit_char (initval / 256 mod 10)) EmptyString))))).
  { unfold value_function_gen4time. cbv zeta.
    rewrite Z.shiftr_div_pow2 by lia. change (2 ^ 8) with 256.
    pose proof (Z.mod_pos_bound initval 256 ltac:(lia)).
    assert (0 <= initval / 256) by (apply Z.div_pos; lia).
    rewrite !format_02d_two_digits by lia. reflexivity. }
  split; [exact Heq | by rewrite Heq].
Qed.

Lemma gen4time_clock_format_witness :
  (0 <= 0x1E07 /\ 0x1E07 mod 256 < 100 /\ 0x1E07 / 256 < 100)
  /\ value_function_gen4time 0x1E07 tt tt = "07:30"%string.
Proof.
  assert (H0 : 0 <= 0x1E07) by lia.
  assert (Hh : 0x1E07 mod 256 < 100) by reflexivity.
  assert (Hm : 0x1E07 / 256 < 100) by reflexivity.
  split; [by repeat split|].
  exact (proj1 (gen4time_clock_format 0x1E07 tt tt H0 Hh Hm)).
Defined.

(** ** The entity declarations and the inverter type *)

Lemma declarations_require_a_type :
  forallb (fun e => negb (Z.land (allowedtypes e) ALL_TYPE_GROUP =? 0)) ALL_TYPES = true.
Proof. vm_compute. reflexivity. Qed.

Lemma no_type_no_match (invertertype entitymask : Z) (serialnumber : string)
    (blacklist : option (list string)) :
  Z.land invertertype ALL_TYPE_GROUP = 0 ->
  Z.land entitymask ALL_TYPE_GROUP <> 0 ->
  matchInverterWithMask invertertype entitymask serialnumber blacklist = false.
Proof.
  intros Ht Hm. rewrite matchInverterWithMask_forallb.
  apply andb_false_iff. left. unfold ALL_GROUPS. cbn [forallb].
  replace (group_test invertertype entitymask ALL_TYPE_GROUP) with false;
    [by rewrite !andb_false_r|].
  symmetry. unfold group_test. apply Z.eqb_neq in Hm. rewrite Hm, orb_false_r.
  rewrite (Z.land_comm invertertype), <- Z.land_assoc, Ht, Z.land_0_r. reflexivity.
Qed.

(** X22. An inverter that is not identified gets nothing: when no rule
    covers the serial number settled on -- in particular when both reads
    failed and it is ["unknown"] -- no sensor, number or select declaration
    matches the type stored on the hub, whichever toggles are on. *)
Theorem unidentified_inverter_gets_no_entity
    (CONF_READ_EPS CONF_READ_DCB CONF_READ_PM : string)
    (DEFAULT_READ_EPS DEFAULT_READ_DCB DEFAULT_READ_PM : bool)
    (hub : Hub) (configdict : gmap string bool) (_LOGGER : log)
    (serialnumber : string) (blacklist : option (list string)) (e : EntityDescription) :
  recognized (identity hub) = false \/ both_reads_fail hub = true ->
  e ∈ ALL_TYPES ->
  exists t,
    invertertype
      (determineInverterType CONF_READ_EPS CONF_READ_DCB CONF_READ_PM
         DEFAULT_READ_EPS DEFAULT_READ_DCB DEFAULT_READ_PM hub configdict _LOGGER).1
    = Some t
    /\ entity_matches t serialnumber blacklist e = false.
Proof.
  intros Hun Hin.
  assert (Hrec : recognized (identity hub) = false).
  { destruct Hun as [H|H]; [exact H|]. by rewrite (identity_unknown hub H). }
  eexists. split; [apply determineInverterType_invertertype|].
  rewrite base_invertertype_first_match, (first_match_unrecognized _ _ Hrec), Z.lor_0_l.
  apply no_type_no_match.
  - by destruct (get configdict CONF_READ_EPS DEFAULT_READ_EPS),
               (get configdict CONF_READ_DCB DEFAULT_READ_DCB),
               (get configdict CONF_READ_PM DEFAULT_READ_PM).
  - pose proof declarations_require_a_type as H. rewrite forallb_forall in H.
    specialize (H e (proj1 (list_elem_of_In _ _) Hin)).
    by apply negb_true_iff, Z.eqb_neq in H.
Qed.

Lemma unidentified_inverter_gets_no_entity_witness :
  (both_reads_fail (example_hub None (Some ErrorResponse)) = true
   /\ entity "serial_number" 0x445 (Z.lor HYBRID PV) ∈ ALL_TYPES)
  /\ exists t,
       invertertype
         (determineInverterType "read_eps" "read_dcb" "read_pm" false false false
            (example_hub None (Some ErrorResponse)) {[ "read_eps"%string := true ]} []).1
       = Some t
       /\ entity_matches t "unknown" None (entity "serial_number" 0x445 (Z.lor HYBRID PV))
          = false.
Proof.
  assert (Hin : entity "serial_number" 0x445 (Z.lor HYBRID PV) ∈ ALL_TYPES).
  { unfold ALL_TYPES, BUTTON_TYPES, SENSOR_TYPES. cbn [app].
    do 4 apply list_elem_of_further. apply list_elem_of_here. }
  split; [by split|].
  exact (unidentified_inverter_gets_no_entity "read_eps" "read_dcb" "read_pm"
           false false false (example_hub None (Some ErrorResponse))
           {[ "read_eps"%string := true ]} [] "unknown" None _ (or_intror eq_refl) Hin).
Defined.

Lemma declarations_without_DCB :
  forallb (fun e => Z.land (allowedtypes e) DCB =? 0) ALL_TYPES = true.
Proof. vm_compute. reflexivity. Qed.

Lemma match_ignores_unasked_DCB (invertertype entitymask : Z) (serialnumber : string)
    (blacklist : option (list string)) :
  Z.land entitymask DCB = 0 ->
  matchInverterWithMask (Z.lor invertertype DCB) entitymask serialnumber blacklist
  = matchInverterWithMask invertertype entitymask serialnumber blacklist.
Proof.
  intros Hm. rewrite !matchInverterWithMask_forallb. f_equal.
  unfold ALL_GROUPS. cbn [forallb].
  rewrite (group_test_toggles invertertype DCB entitymask ALL_GEN_GROUP),
          (group_test_toggles invertertype DCB entitymask ALL_X_GROUP),
          (group_test_toggles invertertype DCB entitymask ALL_TYPE_GROUP),
          (group_test_toggles invertertype DCB entitymask ALL_EPS_GROUP),
          (group_test_toggles invertertype DCB entitymask ALL_PM_GROUP) by reflexivity.
  by rewrite !(group_test_wildcard _ entitymask ALL_DCB_GROUP Hm).
Qed.

(** X23. The [read_dcb] toggle has no effect on what is created: no
    declaration asks for [DCB], so two configurations that agree on
    [read_eps] and [read_pm] select the same declarations for the same
    hub. *)
Theorem read_dcb_selects_nothing
    (CONF_READ_EPS CONF_READ_DCB CONF_READ_PM : string)
    (DEFAULT_READ_EPS DEFAULT_READ_DCB DEFAULT_READ_PM : bool)
    (hub : Hub) (configdict configdict' : gmap string bool) (_LOGGER _LOGGER' : log)
    (serialnumber : string) (blacklist : option (list string)) (e : EntityDescription) :
  get configdict CONF_READ_EPS DEFAULT_READ_EPS
  = get configdict' CONF_READ_EPS DEFAULT_READ_EPS ->
  get configdict CONF_READ_PM DEFAULT_READ_PM
  = get configdict' CONF_READ_PM DEFAULT_READ_PM ->
  e ∈ ALL_TYPES ->
  exists t t',
    invertertype
      (determineInverterType CONF_READ_EPS CONF_READ_DCB CONF_READ_PM
         DEFAULT_READ_EPS DEFAULT_READ_DCB DEFAULT_READ_PM hub configdict _LOGGER).1
    = Some t
    /\ invertertype
         (determineInverterType CONF_READ_EPS CONF_READ_DCB CONF_READ_PM
            DEFAULT_READ_EPS DEFAULT_READ_DCB DEFAULT_READ_PM hub configdict' _LOGGER').1
       = Some t'
    /\ entity_matches t serialnumber blacklist e
       = entity_matches t' serialnumber blacklist e.
Proof.
  intros Heps Hpm Hin.
  eexists _, _. split; [apply determineInverterType_invertertype|].
  split; [apply determineInverterType_invertertype|].
  rewrite <- Heps, <- Hpm. unfold entity_matches.
  pose proof declarations_without_DCB as H. rewrite forallb_forall in H.
  specialize (H e (proj1 (list_elem_of_In _ _) Hin)). apply Z.eqb_eq in H.
  set (base := base_invertertype hub (identity hub)).
  assert (Hd : forall read_eps read_dcb read_pm,
            matchInverterWithMask (Z.lor base (toggle_bits read_eps read_dcb read_pm))
              (allowedtypes e) serialnumber blacklist
            = matchInverterWithMask (Z.lor base (toggle_bits read_eps false read_pm))
                (allowedtypes e) serialnumber blacklist).
  { intros read_eps [] read_pm; [|reflexivity].
    rewrite <- (match_ignores_unasked_DCB (Z.lor base (toggle_bits read_eps false read_pm))
                  _ _ _ H).
    f_equal. rewrite <- Z.lor_assoc. f_equal. by destruct read_eps, read_pm. }
  by rewrite Hd, (Hd _ (get configdict' CONF_READ_DCB DEFAULT_READ_DCB)).
Qed.

Lemma read_dcb_selects_nothing_witness :
  entity "serial_number" 0x445 (Z.lor HYBRID PV) ∈ ALL_TYPES
  /\ exists t t',
       invertertype
         (determineInverterType "read_eps" "read_dcb" "read_pm" false false false
            (example_hub (Some (ReadResponse registers_SP1)) None)
            {[ "read_dcb"%string := true ]} []).1 = Some t
       /\ invertertype
            (determineInverterType "read_eps" "read_dcb" "read_pm" false false false
               (example_hub (Some (ReadResponse registers_SP1)) None) ∅ []).1 = Some t'
       /\ entity_matches t "SP1ES120N6ABCD" None (entity "serial_number" 0x445 (Z.lor HYBRID PV))
          = entity_matches t' "SP1ES120N6ABCD" None
              (entity "serial_number" 0x445 (Z.lor HYBRID PV)).
Proof.
  assert (Hin : entity "serial_number" 0x445 (Z.lor HYBRID PV) ∈ ALL_TYPES).
  { unfold ALL_TYPES, BUTTON_TYPES, SENSOR_TYPES. cbn [app].
    do 4 apply list_elem_of_further. apply list_elem_of_here. }
  split; [exact Hin|].
  apply (read_dcb_selects_nothing "read_eps" "read_dcb" "read_pm" false false false
           (example_hub (Some (ReadResponse registers_SP1)) None)
           {[ "read_dcb"%string := true ]} ∅ [] [] "SP1ES120N6ABCD" None _);
    [reflexivity | reflexivity | exact Hin].
Defined.

Lemma selects_have_sensors :
  forallb (fun s => existsb (same_declaration s) SENSOR_TYPES) SELECT_TYPES = true.
Proof. vm_compute. reflexivity. Qed.

Lemma same_declaration_spec (e e' : EntityDescription) :
  same_declaration e e' = true -> e' = e.
Proof.
  unfold same_declaration. rewrite !andb_true_iff, String.eqb_eq, !Z.eqb_eq.
  destruct e, e'; simpl. intros [[-> ->] ->]. reflexivity.
Qed.

(** X24. Every select is backed by a sensor: each declaration of
    [SELECT_TYPES] also stands in [SENSOR_TYPES] with the same key, the
    same register and the same mask, so an inverter for which a select is
    created also gets the sensor that reads its register. *)
Theorem select_has_sensor_twin
    (invertertype : Z) (serialnumber : string) (blacklist : option (list string))
    (s : EntityDescription) :
  s ∈ SELECT_TYPES ->
  s ∈ SENSOR_TYPES
  /\ (entity_matches invertertype serialnumber blacklist s = true ->
      exists e, e ∈ SENSOR_TYPES /\ key e = key s /\ register e = register s
                /\ entity_matches invertertype serialnumber blacklist e = true).
Proof.
  intros Hin.
  pose proof selects_have_sensors as H. rewrite forallb_forall in H.
  specialize (H s (proj1 (list_elem_of_In _ _) Hin)).
  apply existsb_exists in H as (e & He & Hsame).
  apply same_declaration_spec in Hsame as ->. apply list_elem_of_In in He.
  split; [exact He|]. intros Hm. by exists s.
Qed.

Lemma select_has_sensor_twin_witness :
  entity "eps_control" 0x1029 (Z.lor (Z.lor HYBRID X3) EPS) ∈ SELECT_TYPES
  /\ entity "eps_control" 0x1029 (Z.lor (Z.lor HYBRID X3) EPS) ∈ SENSOR_TYPES.
Proof.
  assert (Hin : entity "eps_control" 0x1029 (Z.lor (Z.lor HYBRID X3) EPS) ∈ SELECT_TYPES)
    by apply list_elem_of_here.
  split; [exact Hin|].
  exact (proj1 (select_has_sensor_twin 0 "" None _ Hin)).
Defined.

Lemma increasing_lookup (l : list Z) :
  increasing l = true ->
  forall (i j : nat) (a b : Z),
    l !! i = Some a -> l !! j = Some b -> (i < j)%nat -> a < b.
Proof.
  induction l as [|x l IH]; intros Hinc i j a b Hi Hj Hij; [by rewrite lookup_nil in Hi|].
  assert (Hhead : forall k c, l !! k = Some c -> x < c).
  { clear i j a b Hi Hj Hij. destruct l as [|y l]; [intros k c Hk; by rewrite lookup_nil in Hk|].
    cbn [increasing] in Hinc. apply andb_true_iff in Hinc as [Hxy%Z.ltb_lt Hrest].
    intros [|k] c Hk.
    - injection Hk as <-. exact Hxy.
    - specialize (IH Hrest 0%nat (S k) y c eq_refl Hk ltac:(lia)). lia. }
  assert (Htail : increasing l = true).
  { destruct l as [|y l]; [reflexivity|]. cbn [increasing] in Hinc.
    by apply andb_true_iff in Hinc as [_ ?]. }
  destruct j as [|j]; [lia|]. destruct i as [|i].
  - injection Hi as <-. by apply (Hhead j).
  - apply (IH Htail i j); [exact Hi | exact Hj | lia].
Qed.

Lemma sensor_registers_increase :
  increasing (register <$> SENSOR_TYPES) = true.
Proof. vm_compute. reflexivity. Qed.

Lemma sensor_keys_distinct : NoDup (key <$> SENSOR_TYPES).
Proof. apply (bool_decide_unpack _). vm_compute. exact I. Qed.

(** X25. [SENSOR_TYPES] is laid out by register: of two sensor
    declarations the later one has the higher register address, and their
    keys differ.  Whatever subset is created for an inverter is therefore
    in ascending register order and free of duplicate keys. *)
Theorem sensors_ordered_by_register (i j : nat) (e e' : EntityDescription) :
  SENSOR_TYPES !! i = Some e -> SENSOR_TYPES !! j = Some e' -> (i < j)%nat ->
  register e < register e' /\ key e <> key e'.
Proof.
  intros Hi Hj Hij. split.
  - apply (increasing_lookup _ sensor_registers_increase i j); [| |exact Hij];
      by rewrite list_lookup_fmap, ?Hi, ?Hj.
  - intros Heq.
    pose proof (NoDup_lookup _ i j (key e) sensor_keys_distinct) as H.
    rewrite !list_lookup_fmap, Hi, Hj in H. simpl in H.
    specialize (H eq_refl (f_equal Some (eq_sym Heq))). lia.
Qed.

Lemma sensors_ordered_by_register_witness :
  (SENSOR_TYPES !! 0%nat = Some (entity "heatsink_temperature_1" 0x41A HYBRID)
   /\ SENSOR_TYPES !! 4%nat = Some (entity "serial_number" 0x445 (Z.lor HYBRID PV))
   /\ (0 < 4)%nat)
  /\ 0x41A < 0x445.
Proof.
  assert (H0 : SENSOR_TYPES !! 0%nat = Some (entity "heatsink_temperature_1" 0x41A HYBRID))
    by reflexivity.
  assert (H4 : SENSOR_TYPES !! 4%nat = Some (entity "serial_number" 0x445 (Z.lor HYBRID PV)))
    by reflexivity.
  assert (Hlt : (0 < 4)%nat) by lia.
  split; [by repeat split|].
  exact (proj1 (sensors_ordered_by_register 0 4 _ _ H0 H4 Hlt)).
Defined.

Lemma full_hybrid_matches_all (read_dcb : bool) (serialnumber : string) :
  forallb (entity_matches (Z.lor (Z.lor (Z.lor HYBRID X3) GEN) (toggle_bits true read_dcb true))
             serialnumber None) ALL_TYPES = true.
Proof.
  apply forallb_forall. intros e He. unfold entity_matches.
  rewrite matchInverterWithMask_forallb. cbn [blacklisted_flag list_truthy negb].
  rewrite andb_true_r. revert e He. apply forallb_forall.
  destruct read_dcb; vm_compute; reflexivity.
Qed.

Lemma hybrid_without_GEN_matches (read_dcb : bool) (serialnumber : string) :
  forallb (fun e =>
             Bool.eqb
               (entity_matches (Z.lor (Z.lor HYBRID X3) (toggle_bits true read_dcb true))
                  serialnumber None e)
               (Z.land (allowedtypes e) GEN =? 0)) ALL_TYPES = true.
Proof.
  apply forallb_forall. intros e He. unfold entity_matches.
  rewrite matchInverterWithMask_forallb. cbn [blacklisted_flag list_truthy negb].
  rewrite andb_true_r. revert e He. apply forallb_forall.
  destruct read_dcb; vm_compute; reflexivity.
Qed.

(** X26. What the leading rule is for.  With [read_eps] and [read_pm] on, a
    hybrid inverter whose serial number starts with ["SP1"], ["SP2"],
    ["SM1E"] or ["ZM1E"] gets every declaration of the plugin -- unless the
    serial number starts with ["SP1ES120N6"]: then it gets exactly the
    declarations whose mask does not contain [GEN]. *)
Theorem hybrid_inverter_coverage
    (CONF_READ_EPS CONF_READ_DCB CONF_READ_PM : string)
    (DEFAULT_READ_EPS DEFAULT_READ_DCB DEFAULT_READ_PM : bool)
    (hub : Hub) (configdict : gmap string bool) (_LOGGER : log)
    (serialnumber : string) (e : EntityDescription) :
  get configdict CONF_READ_EPS DEFAULT_READ_EPS = true ->
  get configdict CONF_READ_PM DEFAULT_READ_PM = true ->
  e ∈ ALL_TYPES ->
  exists t,
    invertertype
      (determineInverterType CONF_READ_EPS CONF_READ_DCB CONF_READ_PM
         DEFAULT_READ_EPS DEFAULT_READ_DCB DEFAULT_READ_PM hub configdict _LOGGER).1
    = Some t
    /\ (startswith (identity hub) "SP1ES120N6" = true ->
        (entity_matches t serialnumber None e = true <-> Z.land (allowedtypes e) GEN = 0))
    /\ (startswith (identity hub) "SP1ES120N6" = false ->
        startswith (identity hub) "SP1" = true \/ startswith (identity hub) "SP2" = true
        \/ startswith (identity hub) "SM1E" = true \/ startswith (identity hub) "ZM1E" = true ->
        entity_matches t serialnumber None e = true).
Proof.
  intros Heps Hpm Hin. apply list_elem_of_In in Hin.
  eexists. split; [apply determineInverterType_invertertype|].
  rewrite Heps, Hpm, base_invertertype_first_match.
  set (read_dcb := get configdict CONF_READ_DCB DEFAULT_READ_DCB).
  unfold prefix_rules. cbn [first_match]. split.
  - intros ->.
    pose proof (hybrid_without_GEN_matches read_dcb serialnumber) as H.
    rewrite forallb_forall in H. specialize (H e Hin).
    apply Bool.eqb_prop in H. rewrite H. apply Z.eqb_eq.
  - intros -> Hany.
    pose proof (full_hybrid_matches_all read_dcb serialnumber) as H.
    rewrite forallb_forall in H. specialize (H e Hin).
    destruct (startswith (identity hub) "SP1"); [exact H|].
    destruct (startswith (identity hub) "SP2"); [exact H|].
    destruct (startswith (identity hub) "SM1E"); [exact H|].
    destruct (startswith (identity hub) "ZM1E"); [exact H|].
    destruct Hany as [?|[?|[?|?]]]; discriminate.
Qed.

Lemma hybrid_inverter_coverage_witness :
  (get ({[ "read_eps"%string := true; "read_pm"%string := true ]} : gmap string bool)
     "read_eps" false = true
   /\ get ({[ "read_eps"%string := true; "read_pm"%string := true ]} : gmap string bool)
        "read_pm" false = true
   /\ entity "serial_number" 0x445 (Z.lor HYBRID PV) ∈ ALL_TYPES)
  /\ exists t,
       invertertype
         (determineInverterType "read_eps" "read_dcb" "read_pm" false false false
            (example_hub (Some (ReadResponse registers_SP1)) None)
            {[ "read_eps"%string := true; "read_pm"%string := true ]} []).1 = Some t.
Proof.
  assert (He : get ({[ "read_eps"%string := true; "read_pm"%string := true ]}
                      : gmap string bool) "read_eps" false = true) by reflexivity.
  assert (Hp : get ({[ "read_eps"%string := true; "read_pm"%string := true ]}
                      : gmap string bool) "read_pm" false = true) by reflexivity.
  assert (Hin : entity "serial_number" 0x445 (Z.lor HYBRID PV) ∈ ALL_TYPES).
  { unfold ALL_TYPES, BUTTON_TYPES, SENSOR_TYPES. cbn [app].
    do 4 apply list_elem_of_further. apply list_elem_of_here. }
  split; [by repeat split|].
  destruct (hybrid_inverter_coverage "read_eps" "read_dcb" "read_pm" false false false
              (example_hub (Some (ReadResponse registers_SP1)) None)
              {[ "read_eps"%string := true; "read_pm"%string := true ]} []
              "SP1ES120N6ABCD" _ He Hp Hin) as (t & Ht & _).
  by exists t.
Defined.
